(** * Clock widget: time synchronisation, time/date formatting, world clocks

    A shallow embedding of the parts of the clock web application that carry
    its semantics:

    - [js/services/NTPService.js]       (offset bookkeeping, sync state),
    - [js/controllers/TimeController.js] (12/24-hour formatting, week number),
    - [js/managers/WorldClockManager.js] (per-timezone formatting, clock set).

    JavaScript numbers that occur in these computations are integers or NaN;
    they are modelled as [option Z] with [None] for NaN.  A [Date] object is
    its time value (milliseconds since the epoch, or NaN for an invalid
    date).  The runtime (system time zone, the time-zone database behind
    [Intl]) is a record [Host] that every date accessor takes explicitly.
    Exceptions are an explicit [Throw] outcome. *)

From Stdlib Require Import ZArith QArith Qround Lia List String Ascii Bool.
From Stdlib Require Import Numbers.DecimalString.
From stdpp Require Import gmap strings list.

Local Open Scope Z_scope.

(** ** JavaScript values used by the program *)

(** A Number that is an integer, or NaN. *)
Definition number := option Z.
Definition NaN : number := None.

(** A Date object: its time value. [None] is the NaN of an invalid date. *)
Definition Date := option Z.
Definition InvalidDate : Date := None.

(** A thrown error object: its [name] and its [message]. *)
Record JsError := { name : string; message : string }.

Definition Error (msg : string) : JsError := {| name := "Error"; message := msg |}.
Definition RangeError (msg : string) : JsError := {| name := "RangeError"; message := msg |}.
Definition TypeError (msg : string) : JsError := {| name := "TypeError"; message := msg |}.
Definition SyntaxError (msg : string) : JsError := {| name := "SyntaxError"; message := msg |}.
Definition AbortError : JsError := {| name := "AbortError"; message := "The operation was aborted." |}.

Inductive result (A : Type) :=
| Ok (a : A)
| Throw (e : JsError).
Arguments Ok {A} _.
Arguments Throw {A} _.

Definition bind {A B} (r : result A) (k : A -> result B) : result B :=
  match r with
  | Ok a => k a
  | Throw e => Throw e
  end.

Notation "'try!' x := r 'in' k" := (bind r (fun x => k))
  (at level 10, x name, r at level 99, k at level 200).

(** [try { body } catch (error) { handler }] *)
Definition try_catch {A} (body : result A) (handler : JsError -> result A) : result A :=
  match body with
  | Ok a => Ok a
  | Throw e => handler e
  end.

Definition isOk {A} (r : result A) : bool :=
  match r with Ok _ => true | Throw _ => false end.

(** Lifting of integer arithmetic to numbers: NaN is absorbing. *)
Definition num1 (f : Z -> Z) (a : number) : number :=
  match a with Some x => Some (f x) | None => None end.
Definition num2 (f : Z -> Z -> Z) (a b : number) : number :=
  match a, b with Some x, Some y => Some (f x y) | _, _ => None end.

Definition nadd := num2 Z.add.
Definition nsub := num2 Z.sub.

(** The double nearest to an integer, ties to the even significand.  Every
    integer up to 2^53 in magnitude is a double, and so is every time
    value; beyond, the 53-bit significand drops the low bits. *)
Definition toDouble (z : Z) : Z :=
  let a := Z.abs z in
  let dropped := Z.log2 a - 52 in
  if dropped <=? 0 then z
  else
    let ulp := 2 ^ dropped in
    let q := a / ulp in
    let r := a mod ulp in
    let significand :=
      if 2 * r <? ulp then q
      else if ulp <? 2 * r then q + 1
      else if Z.even q then q else q + 1 in
    Z.sgn z * (significand * ulp).

(** [a - b] on two doubles that hold integers: the exact difference,
    rounded as the subtraction of doubles rounds it. *)
Definition dsub (a b : number) : number := num1 toDouble (nsub a b).

(** [a || b] on numbers: 0 and NaN are falsy. *)
Definition num_or (a : number) (b : Z) : number :=
  match a with
  | Some 0 => Some b
  | Some x => Some x
  | None => Some b
  end.

(** ** ECMAScript time arithmetic (ECMA-262, "Time Values and Time Range") *)

Module ES.

Definition msPerSecond : Z := 1000.
Definition msPerMinute : Z := 60000.
Definition msPerHour : Z := 3600000.
Definition msPerDay : Z := 86400000.
Definition maxTime : Z := 8640000000000000.

Definition Day (t : Z) : Z := t / msPerDay.
Definition TimeWithinDay (t : Z) : Z := t mod msPerDay.

Definition isLeap (y : Z) : bool :=
  ((y mod 4 =? 0) && negb (y mod 100 =? 0)) || (y mod 400 =? 0).

Definition DaysInYear (y : Z) : Z := if isLeap y then 366 else 365.

Definition DayFromYear (y : Z) : Z :=
  365 * (y - 1970) + (y - 1969) / 4 - (y - 1901) / 100 + (y - 1601) / 400.

Definition TimeFromYear (y : Z) : Z := msPerDay * DayFromYear y.

(** The year of a day number: the largest [y] with [DayFromYear y <= day].
    Computed from the mean Gregorian year (146097 days per 400 years) and
    one correction step. *)
Definition YearFromDay (day : Z) : Z :=
  let y := 1970 + (day * 400) / 146097 in
  if day <? DayFromYear y then y - 1
  else if DayFromYear (y + 1) <=? day then y + 1
  else y.

Definition YearFromTime (t : Z) : Z := YearFromDay (Day t).

Definition InLeapYear (t : Z) : Z :=
  if isLeap (YearFromTime t) then 1 else 0.

Definition DayWithinYear (t : Z) : Z := Day t - DayFromYear (YearFromTime t).

Definition MonthFromTime (t : Z) : Z :=
  let d := DayWithinYear t in
  let l := InLeapYear t in
  if d <? 31 then 0
  else if d <? 59 + l then 1
  else if d <? 90 + l then 2
  else if d <? 120 + l then 3
  else if d <? 151 + l then 4
  else if d <? 181 + l then 5
  else if d <? 212 + l then 6
  else if d <? 243 + l then 7
  else if d <? 273 + l then 8
  else if d <? 304 + l then 9
  else if d <? 334 + l then 10
  else 11.

Definition DateFromTime (t : Z) : Z :=
  let d := DayWithinYear t in
  let l := InLeapYear t in
  match MonthFromTime t with
  | 0 => d + 1
  | 1 => d - 30
  | 2 => d - 58 - l
  | 3 => d - 89 - l
  | 4 => d - 119 - l
  | 5 => d - 150 - l
  | 6 => d - 180 - l
  | 7 => d - 211 - l
  | 8 => d - 242 - l
  | 9 => d - 272 - l
  | 10 => d - 303 - l
  | _ => d - 333 - l
  end.

Definition WeekDay (t : Z) : Z := (Day t + 4) mod 7.

Definition HourFromTime (t : Z) : Z := (t / msPerHour) mod 24.
Definition MinFromTime (t : Z) : Z := (t / msPerMinute) mod 60.
Definition SecFromTime (t : Z) : Z := (t / msPerSecond) mod 60.

Definition MakeTime (hour min sec ms : Z) : Z :=
  hour * msPerHour + min * msPerMinute + sec * msPerSecond + ms.

(** Day number of the first day of month [mn] (0..11) in year [ym]. *)
Definition monthStart (ym mn : Z) : Z :=
  let l := if isLeap ym then 1 else 0 in
  match mn with
  | 0 => 0
  | 1 => 31
  | 2 => 59 + l
  | 3 => 90 + l
  | 4 => 120 + l
  | 5 => 151 + l
  | 6 => 181 + l
  | 7 => 212 + l
  | 8 => 243 + l
  | 9 => 273 + l
  | 10 => 304 + l
  | _ => 334 + l
  end.

(** [MakeDay]: months outside 0..11 carry into the year, the day of the
    month is added as a plain day count (so day 0 is the last day of the
    previous month).  Results outside the time range are cut by [TimeClip]
    at the end of every constructor. *)
Definition MakeDay (year month date : Z) : Z :=
  let ym := year + month / 12 in
  let mn := month mod 12 in
  DayFromYear ym + monthStart ym mn + date - 1.

Definition MakeDate (day time : Z) : Z := day * msPerDay + time.

Definition TimeClip (t : Z) : number :=
  if Z.abs t <=? maxTime then Some t else None.

(** The two-digit year rule of [Date.UTC] and of [new Date(y, m, ...)]. *)
Definition MakeFullYear (y : Z) : Z :=
  if (0 <=? y) && (y <=? 99) then 1900 + y else y.

End ES.

(** ** The host: system time zone and the runtime's time-zone database *)

Record Host := {
  (** offset (ms) of the system zone from UTC at the UTC time value [t]:
      LocalTime(t) = t + LocalTZA t *)
  LocalTZA : Z -> Z;
  (** ECMAScript's UTC(t): the UTC time value of a local time value *)
  UTCofLocal : Z -> Z;
  (** does [Intl] know this IANA identifier? *)
  zoneSupported : string -> bool;
  (** offset (ms) of an IANA zone from UTC at the UTC time value [t] *)
  zoneTZA : string -> Z -> Z;
  (** [new Date(string)]: the runtime's date parser, NaN when it fails *)
  parseDate : string -> Date
}.

(** A host whose system zone is UTC and whose database knows [known]. *)
Definition utcHost (known : list string) : Host := {|
  LocalTZA := fun _ => 0;
  UTCofLocal := fun t => t;
  zoneSupported := fun tz => bool_decide (tz ∈ known);
  zoneTZA := fun _ _ => 0;
  parseDate := fun _ => None
|}.

Module DateAPI.

Section WithHost.
Context (h : Host).

Definition LocalTime (t : Z) : Z := t + LocalTZA h t.

Definition getTime (d : Date) : number := d.

Definition getFullYear (d : Date) : number := num1 (fun t => ES.YearFromTime (LocalTime t)) d.
Definition getMonth (d : Date) : number := num1 (fun t => ES.MonthFromTime (LocalTime t)) d.
Definition getDate (d : Date) : number := num1 (fun t => ES.DateFromTime (LocalTime t)) d.
Definition getDay (d : Date) : number := num1 (fun t => ES.WeekDay (LocalTime t)) d.
Definition getHours (d : Date) : number := num1 (fun t => ES.HourFromTime (LocalTime t)) d.
Definition getMinutes (d : Date) : number := num1 (fun t => ES.MinFromTime (LocalTime t)) d.
Definition getSeconds (d : Date) : number := num1 (fun t => ES.SecFromTime (LocalTime t)) d.

(** [getTimezoneOffset]: (t - LocalTime(t)) / msPerMinute *)
Definition getTimezoneOffset (d : Date) : number :=
  num1 (fun t => (t - LocalTime t) / ES.msPerMinute) d.

(** [new Date(year, month, date)], read in the system zone. *)
Definition newDateLocal (year month date : number) : Date :=
  match year, month, date with
  | Some y, Some m, Some dt =>
      ES.TimeClip (UTCofLocal h (ES.MakeDate (ES.MakeDay (ES.MakeFullYear y) m dt) 0))
  | _, _, _ => None
  end.

End WithHost.

Definition getUTCFullYear (d : Date) : number := num1 ES.YearFromTime d.
Definition getUTCMonth (d : Date) : number := num1 ES.MonthFromTime d.
Definition getUTCDate (d : Date) : number := num1 ES.DateFromTime d.
Definition getUTCDay (d : Date) : number := num1 ES.WeekDay d.
Definition getUTCHours (d : Date) : number := num1 ES.HourFromTime d.
Definition getUTCMinutes (d : Date) : number := num1 ES.MinFromTime d.
Definition getUTCSeconds (d : Date) : number := num1 ES.SecFromTime d.

(** [Date.UTC(year, month, date)] *)
Definition UTC (year month date : number) : number :=
  match year, month, date with
  | Some y, Some m, Some dt =>
      ES.TimeClip (ES.MakeDate (ES.MakeDay (ES.MakeFullYear y) m dt) 0)
  | _, _, _ => None
  end.

(** [new Date(value)] for a number (integral here, so clipping is all).
    Where the value is a sum of two integral doubles the exact sum is
    taken: rounding it to a double does not change what [TimeClip] makes of
    it. *)
Definition newDate (v : number) : Date :=
  match v with
  | Some t => ES.TimeClip t
  | None => None
  end.

(** [d.setUTCDate(dt)]: the new time value of [d]. *)
Definition setUTCDate (d : Date) (dt : number) : Date :=
  match d, dt with
  | Some t, Some n =>
      ES.TimeClip (ES.MakeDate (ES.MakeDay (ES.YearFromTime t) (ES.MonthFromTime t) n)
                               (ES.TimeWithinDay t))
  | _, _ => None
  end.

End DateAPI.

(** [ToIntegerOrInfinity] on a finite rational: truncation towards zero. *)
Definition Qtrunc (q : Q) : Z := Z.quot (Qnum q) (Z.pos (Qden q)).

(** The double nearest to [q], a multiple of one half: halving a double is
    exact, so it is half the double nearest to the integer [2 q]. *)
Definition toDoubleQ (q : Q) : Q := (inject_Z (toDouble (Qfloor (q * 2))) / 2)%Q.

(** ** Strings *)

Definition Z_toString (z : Z) : string := NilEmpty.string_of_int (Z.to_int z).

(** [Number.prototype.toString] for an integer or NaN. *)
Definition Number_toString (n : number) : string :=
  match n with
  | Some z => Z_toString z
  | None => "NaN"
  end.

(** The first [n] characters of [filler] repeated; [rest] is what is left of
    the current copy. *)
Fixpoint fillString (filler rest : string) (n : nat) : string :=
  match n with
  | O => ""
  | S n' =>
      match rest with
      | String c r => String c (fillString filler r n')
      | EmptyString =>
          match filler with
          | String c r => String c (fillString filler r n')
          | EmptyString => ""
          end
      end
  end.

(** [s.padStart(targetLength, filler)] *)
Definition padStart (s : string) (targetLength : nat) (filler : string) : string :=
  let len := String.length s in
  if (targetLength <=? len)%nat then s
  else fillString filler filler (targetLength - len) +:+ s.

(** [`${v}`] for a value that is a string or [undefined]. *)
Definition String_ofOpt (v : option string) : string :=
  match v with
  | Some s => s
  | None => "undefined"
  end.

(** [s.includes(needle)] *)
Fixpoint includes (s needle : string) : bool :=
  String.prefix needle s ||
  match s with
  | String _ r => includes r needle
  | EmptyString => false
  end.

(** [new Date(q)] for a finite, possibly fractional number of milliseconds. *)
Definition newDateQ (q : Q) : Date := ES.TimeClip (Qtrunc q).

(** A time value that a Date can hold; [new Date()] always yields one. *)
Definition validTime (t : Z) : Prop := Z.abs t <= ES.maxTime.

(** Values that reach [calculateOffset]: a Date object, or something else. *)
Inductive JsValue :=
| JDate (d : Date)
| JString (s : string)
| JNumber (n : number)
| JNull
| JUndefined.

(** ** js/services/NTPService.js *)

Module NTPService.

(** The JSON body of a time service, as far as [parseTimeResponse] reads it.
    A field that is absent is [None]. *)
Record TimeData := {
  datetime : option string;
  utc_datetime : option string;
  dateTime : option string;
  status : option string;
  timestamp : number
}.

(** What one [fetch] of an endpoint comes to. *)
Inductive FetchReply :=
| Rejected (e : JsError)
| Response (ok : bool) (httpStatus : Z) (statusText : string) (json : result TimeData).

Record State := {
  primaryEndpoint : string;
  fallbackEndpoints : list string;
  timeOffset : number;
  lastSyncTime : option Date;   (* [None] is null *)
  syncInterval : Z;
  syncTimer : bool;             (* is an interval timer installed? *)
  isOnlineMode : bool
}.

Definition set_sync (s : State) (off : number) (last : option Date) (online : bool) : State :=
  {| primaryEndpoint := primaryEndpoint s;
     fallbackEndpoints := fallbackEndpoints s;
     timeOffset := off;
     lastSyncTime := last;
     syncInterval := syncInterval s;
     syncTimer := syncTimer s;
     isOnlineMode := online |}.

Definition set_timer (s : State) (interval : Z) (timer : bool) : State :=
  {| primaryEndpoint := primaryEndpoint s;
     fallbackEndpoints := fallbackEndpoints s;
     timeOffset := timeOffset s;
     lastSyncTime := lastSyncTime s;
     syncInterval := interval;
     syncTimer := timer;
     isOnlineMode := isOnlineMode s |}.

(** [constructor()]; [encodedTimezone] is [encodeURIComponent(userTimezone)]. *)
Definition constructor (userTimezone encodedTimezone : string) : State :=
  {| primaryEndpoint := "https://worldtimeapi.org/api/timezone/" +:+ userTimezone;
     fallbackEndpoints :=
       [ "https://timeapi.io/api/Time/current/zone?timeZone=" +:+ encodedTimezone;
         "https://worldtimeapi.org/api/timezone/Etc/UTC" ]%string;
     timeOffset := Some 0;
     lastSyncTime := None;
     syncInterval := 15 * 60 * 1000;
     syncTimer := false;
     isOnlineMode := true |}.

(** A string is truthy when it is present and not empty. *)
Definition truthy (v : option string) : bool :=
  match v with
  | Some (String _ _) => true
  | _ => false
  end.

Definition str_or (a b : option string) : option string :=
  if truthy a then a else b.

Section WithHost.
Context (h : Host).

(** The tail of [parseTimeResponse], after the [switch]. *)
Definition parseTimeString (timeString : option string) : result Date :=
  match timeString with
  | Some (String c r) =>
      let parsedTime := parseDate h (String c r) in
      match DateAPI.getTime parsedTime with
      | None => Throw (Error "Invalid time format received")
      | Some _ => Ok parsedTime
      end
  | _ => Throw (Error "Invalid time response format")
  end.

Definition parseTimeResponse (data : TimeData) (type : string) : result Date :=
  if String.eqb type "worldtime" then
    parseTimeString (str_or (datetime data) (utc_datetime data))
  else if String.eqb type "timeapi" then
    parseTimeString (dateTime data)
  else if String.eqb type "timezonedb" then
    match status data with
    | Some st =>
        if String.eqb st "OK"
        then Ok (DateAPI.newDate (num1 (fun t => t * 1000) (timestamp data)))
        else parseTimeString None
    | None => parseTimeString None
    end
  else Throw (Error ("Unknown API type: " +:+ type)).

Definition fetchTimeFromEndpoint (reply : FetchReply) (type : string) : result Date :=
  try_catch
    (match reply with
     | Rejected e => Throw e
     | Response ok httpStatus statusText json =>
         if negb ok
         then Throw (Error ("HTTP " +:+ Z_toString httpStatus +:+ ": " +:+ statusText))
         else try! data := json in parseTimeResponse data type
     end)
    (fun error =>
       if String.eqb (name error) "AbortError"
       then Throw (Error "Request timeout")
       else Throw error).

(** [lastError?.message || 'Unknown error'] *)
Definition lastMessage (lastError : option JsError) : string :=
  match lastError with
  | Some e => match message e with
              | String c r => String c r
              | EmptyString => "Unknown error"
              end
  | None => "Unknown error"
  end.

(** The [for] loop of [fetchNTPTime] over the fallback endpoints, and the
    [throw] after it. *)
Fixpoint fetchFallbacks (net : string -> FetchReply) (endpoints : list string)
    (lastError : option JsError) : result Date :=
  match endpoints with
  | [] => Throw (Error ("All time endpoints failed. Last error: " +:+ lastMessage lastError))
  | endpoint :: rest =>
      let type :=
        if includes endpoint "timeapi.io" then Some "timeapi"%string
        else if includes endpoint "timezonedb.com" then Some "timezonedb"%string
        else if includes endpoint "worldtimeapi.org" then Some "worldtime"%string
        else None in
      match type with
      | Some ty =>
          match fetchTimeFromEndpoint (net endpoint) ty with
          | Ok d => Ok d
          | Throw error => fetchFallbacks net rest (Some error)
          end
      | None => fetchFallbacks net rest lastError
      end
  end.

Definition fetchNTPTime (s : State) (net : string -> FetchReply) : result Date :=
  match fetchTimeFromEndpoint (net (primaryEndpoint s)) "worldtime" with
  | Ok d => Ok d
  | Throw error => fetchFallbacks net (fallbackEndpoints s) (Some error)
  end.

End WithHost.

Definition calculateOffset (ntpTime localTime : JsValue) : result number :=
  match ntpTime, localTime with
  | JDate n, JDate l => Ok (dsub (DateAPI.getTime n) (DateAPI.getTime l))
  | _, _ => Throw (Error "Invalid date objects provided for offset calculation")
  end.

Definition stopPeriodicSync (s : State) : State :=
  if syncTimer s then set_timer s (syncInterval s) false else s.

Definition handleSyncFailure (s : State) : State :=
  set_sync s
    (match lastSyncTime s with
     | None => Some 0
     | Some _ => timeOffset s
     end)
    (lastSyncTime s) false.

(** The surroundings of one [performSync] call: [navigator.onLine], what the
    network answers per endpoint, and the three readings of the local clock
    (before the request, after it, and when the sync is recorded). *)
Record SyncEnv := {
  navigatorOnLine : bool;
  net : string -> FetchReply;
  clockBefore : Z;
  clockAfter : Z;
  clockDone : Z
}.

Section WithHost.
Context (h : Host).

(** [performSync()]: the state it leaves and the boolean it resolves to.
    The clock readings are time values; their difference and the sum of
    the first reading and the delay are rounded as doubles. *)
Definition performSync (s : State) (env : SyncEnv) : State * bool :=
  if negb (navigatorOnLine env) then (s, false)
  else
    let attempt : result State :=
      let localTimeBeforeRequest : Date := Some (clockBefore env) in
      try! ntpTime := fetchNTPTime h s (net env) in
      let localTimeAfterRequest : Date := Some (clockAfter env) in
      let networkDelay : Q :=
        (inject_Z (toDouble (clockAfter env - clockBefore env)) / 2)%Q in
      let adjustedLocalTime :=
        newDateQ (toDoubleQ (inject_Z (clockBefore env) + networkDelay)%Q) in
      try! offset := calculateOffset (JDate ntpTime) (JDate adjustedLocalTime) in
      Ok (set_sync s offset (Some (Some (clockDone env))) true)
    in
    match attempt with
    | Ok s' => (s', true)
    | Throw error =>
        ((if isOnlineMode s then handleSyncFailure s else s), false)
    end.

End WithHost.

(** [startPeriodicSync(intervalMinutes)], without the [performSync] call it
    launches: that call completes later, as a step of its own. *)
Definition startPeriodicSync (s : State) (intervalMinutes : Z) : State :=
  let s1 := set_timer s (intervalMinutes * 60 * 1000) (syncTimer s) in
  let s2 := stopPeriodicSync s1 in
  set_timer s2 (syncInterval s2) true.

Definition onOnline (s : State) : State :=
  startPeriodicSync (set_sync s (timeOffset s) (lastSyncTime s) true) 15.

Definition onOffline (s : State) : State :=
  stopPeriodicSync (set_sync s (timeOffset s) (lastSyncTime s) false).

Definition setSyncInterval (s : State) (intervalMinutes : Z) : result State :=
  if intervalMinutes <? 1 then Throw (Error "Sync interval must be at least 1 minute")
  else
    let s1 := set_timer s (intervalMinutes * 60 * 1000) (syncTimer s) in
    Ok (if syncTimer s1 then startPeriodicSync s1 intervalMinutes else s1).

(** [getCurrentTime()], the local clock reading [now]. *)
Definition getCurrentTime (s : State) (now : Z) : Date :=
  let localTime : Date := Some now in
  if isOnlineMode s || bool_decide (lastSyncTime s <> None) then
    DateAPI.newDate (nadd (DateAPI.getTime localTime) (timeOffset s))
  else localTime.

Record SyncStatus := {
  isOnline : bool;
  status_lastSyncTime : option Date;
  status_timeOffset : number;
  status_syncInterval : Z;
  isUsingNTPTime : bool
}.

Definition getSyncStatus (s : State) : SyncStatus :=
  {| isOnline := isOnlineMode s;
     status_lastSyncTime := lastSyncTime s;
     status_timeOffset := timeOffset s;
     status_syncInterval := syncInterval s;
     isUsingNTPTime := isOnlineMode s || bool_decide (lastSyncTime s <> None) |}.

(** *** Reachable states *)

Inductive Action :=
| SyncCompletes (env : SyncEnv)
| OnlineEvent
| OfflineEvent
| StartPeriodicSync (intervalMinutes : Z)
| StopPeriodicSync
| SetSyncInterval (intervalMinutes : Z).

Definition validEnv (env : SyncEnv) : Prop :=
  validTime (clockBefore env) /\ validTime (clockAfter env) /\ validTime (clockDone env).

Definition validAction (a : Action) : Prop :=
  match a with
  | SyncCompletes env => validEnv env
  | _ => True
  end.

Definition act (h : Host) (s : State) (a : Action) : State :=
  match a with
  | SyncCompletes env => fst (performSync h s env)
  | OnlineEvent => onOnline s
  | OfflineEvent => onOffline s
  | StartPeriodicSync m => startPeriodicSync s m
  | StopPeriodicSync => stopPeriodicSync s
  | SetSyncInterval m =>
      match setSyncInterval s m with
      | Ok s' => s'
      | Throw _ => s
      end
  end.

Inductive reachable (h : Host) : State -> Prop :=
| reach_init userTimezone encodedTimezone :
    reachable h (constructor userTimezone encodedTimezone)
| reach_step s a :
    reachable h s -> validAction a -> reachable h (act h s a).

(** [validateTimeResponse(time)], the local clock reading [now].  For an
    invalid date the difference is NaN, and [NaN > maxDiff] is false. *)
Definition validateTimeResponse (time : Date) (now : Z) : bool :=
  let timeDiff := num1 Z.abs (nsub (DateAPI.getTime time) (Some now)) in
  let maxDiff := 24 * 60 * 60 * 1000 in
  match timeDiff with
  | Some diff => if maxDiff <? diff then false else true
  | None => true
  end.

(** [getAccurateTime(cachedOffset)], the local clock reading [now]. *)
Definition getAccurateTime (cachedOffset : number) (now : Z) : Date :=
  let localTime : Date := Some now in
  DateAPI.newDate (nadd (DateAPI.getTime localTime) cachedOffset).

(** [testConnectivity()] *)
Definition testConnectivity (h : Host) (s : State) (net : string -> FetchReply) : bool :=
  match fetchNTPTime h s net with
  | Ok _ => true
  | Throw error => false
  end.

End NTPService.

(** ** js/controllers/TimeController.js *)

(** What the settings manager answers for the two display preferences. *)
Record Settings := {
  showSeconds : bool;
  use24HourFormat : bool
}.

Module TimeController.

Record State := {
  timeOffset : number;
  isNTPSynced : bool;
  lastSyncTime : option Date;   (* [None] is null *)
  syncIntervalMinutes : Z
}.

Definition constructor : State :=
  {| timeOffset := Some 0;
     isNTPSynced := false;
     lastSyncTime := None;
     syncIntervalMinutes := 15 |}.

Record FormattedTime := {
  timeString : string;
  ampm : string;
  ft_showSeconds : bool;
  ft_use24Hour : bool;
  ft_isNTPSynced : bool;
  lastSync : option Date
}.

Record FormattedDate := {
  dateString : string;
  dayName : option string;      (* [None] is undefined *)
  day : number;
  monthName : option string;
  year : number;
  weekNumber : number;
  fullDate : Date
}.

Definition dayNames : list string :=
  [ "Sunday"; "Monday"; "Tuesday"; "Wednesday"; "Thursday"; "Friday"; "Saturday" ]%string.

Definition monthNames : list string :=
  [ "January"; "February"; "March"; "April"; "May"; "June";
    "July"; "August"; "September"; "October"; "November"; "December" ]%string.

(** [names[i]] for a number [i]: undefined for NaN and outside the array. *)
Definition index (names : list string) (i : number) : option string :=
  match i with
  | Some z => if z <? 0 then None else names !! Z.to_nat z
  | None => None
  end.

(** [hours >= 12]: false for NaN. *)
Definition num_geb (a : number) (b : Z) : bool :=
  match a with
  | Some x => b <=? x
  | None => false
  end.

(** [hours === 0] *)
Definition num_is (a : number) (b : Z) : bool :=
  match a with
  | Some x => x =? b
  | None => false
  end.

Definition handleOfflineMode (s : State) : State :=
  {| timeOffset := Some 0;
     isNTPSynced := false;
     lastSyncTime := lastSyncTime s;
     syncIntervalMinutes := syncIntervalMinutes s |}.

(** [getCurrentTime()], the local clock reading [now].  The stored offset
    is a number, never null, so the second half of the source's condition
    ([this.timeOffset !== null]) is always true. *)
Definition getCurrentTime (s : State) (now : Z) : Date :=
  let localTime : Date := Some now in
  if isNTPSynced s
  then DateAPI.newDate (nadd (DateAPI.getTime localTime) (timeOffset s))
  else localTime.

Section WithHost.
Context (h : Host).

(** [syncWithNTP()]: [fetched] is what [ntpService.fetchNTPTime()] settles
    to, [clock1] and [clock2] are the two readings of the local clock. *)
Definition syncWithNTP (s : State) (fetched : result Date) (clock1 clock2 : Z)
    : State * result unit :=
  let attempt : result State :=
    try! ntpTime := fetched in
    let localTime : Date := Some clock1 in
    try! offset := NTPService.calculateOffset (JDate ntpTime) (JDate localTime) in
    Ok {| timeOffset := offset;
          isNTPSynced := true;
          lastSyncTime := Some (Some clock2);
          syncIntervalMinutes := syncIntervalMinutes s |}
  in
  match attempt with
  | Ok s' => (s', Ok tt)
  | Throw error => (handleOfflineMode s, Throw error)
  end.

Definition formatTime (s : State) (prefs : Settings) (date : Date) : FormattedTime :=
  let showSeconds := showSeconds prefs in
  let use24Hour := use24HourFormat prefs in
  let hours := DateAPI.getHours h date in
  let minutes := DateAPI.getMinutes h date in
  let seconds := DateAPI.getSeconds h date in
  let ampm := if negb use24Hour then (if num_geb hours 12 then "PM" else "AM") else "" in
  let hours :=
    if negb use24Hour then
      let hours := num1 (fun x => Z.rem x 12) hours in
      if num_is hours 0 then Some 12 else hours
    else hours in
  let formattedHours := padStart (Number_toString hours) 2 "0" in
  let formattedMinutes := padStart (Number_toString minutes) 2 "0" in
  let formattedSeconds := padStart (Number_toString seconds) 2 "0" in
  let timeString := formattedHours +:+ ":" +:+ formattedMinutes in
  let timeString :=
    if showSeconds then timeString +:+ ":" +:+ formattedSeconds else timeString in
  {| timeString := timeString;
     ampm := ampm;
     ft_showSeconds := showSeconds;
     ft_use24Hour := use24Hour;
     ft_isNTPSynced := isNTPSynced s;
     lastSync := lastSyncTime s |}.

Definition getWeekNumber (date : Date) : number :=
  let d := DateAPI.newDate
             (DateAPI.UTC (DateAPI.getFullYear h date) (DateAPI.getMonth h date)
                          (DateAPI.getDate h date)) in
  let dayNum := num_or (DateAPI.getUTCDay d) 7 in
  let d := DateAPI.setUTCDate d (nsub (nadd (DateAPI.getUTCDate d) (Some 4)) dayNum) in
  let yearStart := DateAPI.newDate (DateAPI.UTC (DateAPI.getUTCFullYear d) (Some 0) (Some 1)) in
  match nsub d yearStart with
  | Some diff => Some (Qceiling (((inject_Z diff / 86400000) + 1) / 7)%Q)
  | None => None
  end.

Definition formatDate (date : Date) : FormattedDate :=
  let dayName := index dayNames (DateAPI.getDay h date) in
  let day := DateAPI.getDate h date in
  let monthName := index monthNames (DateAPI.getMonth h date) in
  let year := DateAPI.getFullYear h date in
  let weekNumber := getWeekNumber date in
  let dateString :=
    String_ofOpt dayName +:+ ", " +:+ Number_toString day +:+ " " +:+
    String_ofOpt monthName +:+ ", " +:+ Number_toString year +:+ ", week " +:+
    Number_toString weekNumber in
  {| dateString := dateString;
     dayName := dayName;
     day := day;
     monthName := monthName;
     year := year;
     weekNumber := weekNumber;
     fullDate := date |}.

Definition isLeapYear (year : Z) : bool :=
  ((Z.rem year 4 =? 0) && negb (Z.rem year 100 =? 0)) || (Z.rem year 400 =? 0).

Definition getDaysInMonth (date : Date) : number :=
  DateAPI.getDate h
    (DateAPI.newDateLocal h (DateAPI.getFullYear h date)
       (nadd (DateAPI.getMonth h date) (Some 1)) (Some 0)).

End WithHost.

(** The object that [formatTime12Hour] and [formatTime24Hour] return. *)
Record ClockParts := {
  cp_timeString : string;
  cp_ampm : string;
  cp_hours : number;
  cp_minutes : number;
  cp_seconds : number
}.

(** What [getDateCalculations] returns. *)
Record DateCalculations := {
  dc_weekNumber : number;
  dc_dayOfYear : number;
  dc_isLeapYear : bool;
  dc_daysInMonth : number;
  dc_daysInYear : Z
}.

Section WithHost.
Context (h : Host).

(** [formatTime12Hour(date, showSeconds)] *)
Definition formatTime12Hour (date : Date) (showSeconds : bool) : ClockParts :=
  let hours := DateAPI.getHours h date in
  let minutes := DateAPI.getMinutes h date in
  let seconds := DateAPI.getSeconds h date in
  let ampm := if num_geb hours 12 then "PM" else "AM" in
  let hours := num1 (fun x => Z.rem x 12) hours in
  let hours := if num_is hours 0 then Some 12 else hours in
  let formattedHours := padStart (Number_toString hours) 2 "0" in
  let formattedMinutes := padStart (Number_toString minutes) 2 "0" in
  let formattedSeconds := padStart (Number_toString seconds) 2 "0" in
  let timeString := formattedHours +:+ ":" +:+ formattedMinutes in
  let timeString :=
    if showSeconds then timeString +:+ ":" +:+ formattedSeconds else timeString in
  {| cp_timeString := timeString;
     cp_ampm := ampm;
     cp_hours := hours;
     cp_minutes := minutes;
     cp_seconds := seconds |}.

(** [formatTime24Hour(date, showSeconds)] *)
Definition formatTime24Hour (date : Date) (showSeconds : bool) : ClockParts :=
  let hours := DateAPI.getHours h date in
  let minutes := DateAPI.getMinutes h date in
  let seconds := DateAPI.getSeconds h date in
  let formattedHours := padStart (Number_toString hours) 2 "0" in
  let formattedMinutes := padStart (Number_toString minutes) 2 "0" in
  let formattedSeconds := padStart (Number_toString seconds) 2 "0" in
  let timeString := formattedHours +:+ ":" +:+ formattedMinutes in
  let timeString :=
    if showSeconds then timeString +:+ ":" +:+ formattedSeconds else timeString in
  {| cp_timeString := timeString;
     cp_ampm := "";
     cp_hours := hours;
     cp_minutes := minutes;
     cp_seconds := seconds |}.

(** [getDayOfYear(date)]: whole days since day 0 of January, local time. *)
Definition getDayOfYear (date : Date) : number :=
  let start := DateAPI.newDateLocal h (DateAPI.getFullYear h date) (Some 0) (Some 0) in
  let oneDay := 1000 * 60 * 60 * 24 in
  match nsub date start with
  | Some diff => Some (diff / oneDay)
  | None => None
  end.

(** [getDateCalculations(date)]; [isLeapYear(NaN)] is false. *)
Definition getDateCalculations (date : Date) : DateCalculations :=
  let weekNumber := getWeekNumber h date in
  let dayOfYear := getDayOfYear date in
  let isLeapYear :=
    match DateAPI.getFullYear h date with
    | Some y => isLeapYear y
    | None => false
    end in
  {| dc_weekNumber := weekNumber;
     dc_dayOfYear := dayOfYear;
     dc_isLeapYear := isLeapYear;
     dc_daysInMonth := getDaysInMonth h date;
     dc_daysInYear := if isLeapYear then 366 else 365 |}.

End WithHost.

End TimeController.

(** Some time values, for the examples: UTC midnight of a calendar day. *)
Definition utcMidnight (y m d : Z) : Z := ES.MakeDate (ES.MakeDay y (m - 1) d) 0.
Definition utcTime (y m d hh mm ss : Z) : Z :=
  ES.MakeDate (ES.MakeDay y (m - 1) d) (ES.MakeTime hh mm ss 0).

(** ** The [Intl] formatter of the host

    [new Intl.DateTimeFormat('en-US', { timeZone, ... })] throws a RangeError
    for an identifier the database does not know, and [formatToParts] throws
    a RangeError for an invalid date.  The parts are the calendar fields of
    the instant shifted by the zone's offset (hours on the 0..23 cycle); the
    year part is the year of the era. *)

Module Intl.

(** The year a formatter without an era field prints: the year of the era,
    1 for the year 0 (1 BC) and 2 for the year -1. *)
Definition eraYear (y : Z) : Z := if y <=? 0 then 1 - y else y.

(** The year [new Date(string)] reads from a string that is not in the ISO
    format: a year below 50 is taken in 2000..2049, a year from 50 to 99 in
    1950..1999. *)
Definition legacyYear (y : Z) : Z :=
  if y <? 50 then 2000 + y else if y <? 100 then 1900 + y else y.

Section WithHost.
Context (h : Host).

Definition DateTimeFormat (timeZone : string) : result string :=
  if zoneSupported h timeZone then Ok timeZone
  else Throw (RangeError ("Invalid time zone specified: " +:+ timeZone)).

(** The wall-clock time value of [date] in the zone of the formatter. *)
Definition formatToParts (formatter : string) (date : Date) : result Z :=
  match date with
  | Some t => Ok (t + zoneTZA h formatter t)
  | None => Throw (RangeError "Invalid time value")
  end.

(** [date.toLocaleString("en-US", { timeZone })] followed by [new Date(...)]
    of the string.  An invalid date prints as "Invalid Date" before the time
    zone is looked at, and that string does not parse.  A valid date prints
    as the zone's wall clock, to the second, with the year of the era; the
    string is read back as a time of the system zone, its year by
    [legacyYear]. *)
Definition reparseInZone (date : Date) (timeZone : string) : result Date :=
  match date with
  | None => Ok None
  | Some t =>
      try! formatter := DateTimeFormat timeZone in
      let wall := t + zoneTZA h formatter t in
      let year := legacyYear (eraYear (ES.YearFromTime wall)) in
      let day := ES.MakeDay year (ES.MonthFromTime wall) (ES.DateFromTime wall) in
      let time := ES.TimeWithinDay wall - wall mod ES.msPerSecond in
      Ok (ES.TimeClip (UTCofLocal h (ES.MakeDate day time)))
  end.

End WithHost.

Definition weekdays : list string :=
  [ "Sunday"; "Monday"; "Tuesday"; "Wednesday"; "Thursday"; "Friday"; "Saturday" ]%string.

Definition months : list string :=
  [ "January"; "February"; "March"; "April"; "May"; "June";
    "July"; "August"; "September"; "October"; "November"; "December" ]%string.

Definition weekdayLong (wall : Z) : string :=
  nth (Z.to_nat (ES.WeekDay wall)) weekdays ""%string.

Definition monthLong (wall : Z) : string :=
  nth (Z.to_nat (ES.MonthFromTime wall)) months ""%string.

End Intl.

(** ** js/managers/WorldClockManager.js *)

Module WorldClockManager.

(** The object [getTimeForTimezone] returns. *)
Record ZoneTime := {
  hours : number;
  hours12 : number;
  minutes : number;
  seconds : number;
  ampm : string;
  timezone : string;
  isError : bool;
  isFallback : bool;              (* an absent property reads as false *)
  errorMessage : option string
}.

(** The object [formatDateForTimezone] returns. *)
Record ZoneDate := {
  dayName : string;
  day : number;
  monthName : string;
  year : number;
  weekNumber : number
}.

(** A property that holds a number in a live result and the string '--' in
    the error state. *)
Inductive Cell :=
| Num (n : number)
| Str (s : string).

Record DateCells := {
  c_dayName : string;
  c_day : Cell;
  c_monthName : string;
  c_year : Cell;
  c_weekNumber : Cell
}.

(** [worldClock.timeData] once it has been set. *)
Record TimeData := {
  c_hours : Cell;
  c_hours12 : option Cell;
  c_minutes : Cell;
  c_seconds : Cell;
  c_ampm : string;
  c_timezone : option string;
  c_isError : bool;
  c_isFallback : bool;
  c_errorMessage : option string;
  c_date : DateCells
}.

Record WorldClock := {
  id : string;
  cityName : string;
  wc_timezone : string;
  isEnabled : bool;
  timeData : option TimeData      (* [None] is null *)
}.

Definition availableTimezones : list (string * string * string) :=
  [ ("America/New_York", "New York", "North America");
    ("America/Los_Angeles", "Los Angeles", "North America");
    ("America/Chicago", "Chicago", "North America");
    ("America/Toronto", "Toronto", "North America");
    ("America/Mexico_City", "Mexico City", "North America");
    ("America/Sao_Paulo", "São Paulo", "South America");
    ("America/Buenos_Aires", "Buenos Aires", "South America");
    ("Europe/London", "London", "Europe");
    ("Europe/Paris", "Paris", "Europe");
    ("Europe/Berlin", "Berlin", "Europe");
    ("Europe/Rome", "Rome", "Europe");
    ("Europe/Madrid", "Madrid", "Europe");
    ("Europe/Amsterdam", "Amsterdam", "Europe");
    ("Europe/Moscow", "Moscow", "Europe");
    ("Asia/Tokyo", "Tokyo", "Asia");
    ("Asia/Shanghai", "Shanghai", "Asia");
    ("Asia/Hong_Kong", "Hong Kong", "Asia");
    ("Asia/Singapore", "Singapore", "Asia");
    ("Asia/Seoul", "Seoul", "Asia");
    ("Asia/Mumbai", "Mumbai", "Asia");
    ("Asia/Dubai", "Dubai", "Asia");
    ("Australia/Sydney", "Sydney", "Australia");
    ("Australia/Melbourne", "Melbourne", "Australia");
    ("Pacific/Auckland", "Auckland", "Pacific");
    ("Africa/Cairo", "Cairo", "Africa");
    ("Africa/Johannesburg", "Johannesburg", "Africa") ]%string.

(** The 12-hour conversion shared by the three formatting paths: the hour
    shown and the meridiem.  Every comparison with NaN is false. *)
Definition to12Hour (hours24 : number) : number * string :=
  match hours24 with
  | Some x =>
      if x =? 0 then (Some 12, "AM"%string)
      else if 12 <? x then (Some (x - 12), "PM"%string)
      else if x =? 12 then (Some x, "PM"%string)
      else (Some x, "AM"%string)
  | None => (None, "AM"%string)
  end.

(** The fixed offsets (hours from UTC) of [getFallbackTimeForTimezone]. *)
Definition timezoneOffsets : gmap string Q :=
  list_to_map
    [ ("America/New_York"%string, (-5) # 1);
      ("America/Los_Angeles"%string, (-8) # 1);
      ("America/Chicago"%string, (-6) # 1);
      ("America/Denver"%string, (-7) # 1);
      ("Europe/London"%string, 0 # 1);
      ("Europe/Paris"%string, 1 # 1);
      ("Europe/Berlin"%string, 1 # 1);
      ("Europe/Rome"%string, 1 # 1);
      ("Europe/Madrid"%string, 1 # 1);
      ("Asia/Tokyo"%string, 9 # 1);
      ("Asia/Shanghai"%string, 8 # 1);
      ("Asia/Hong_Kong"%string, 8 # 1);
      ("Asia/Singapore"%string, 8 # 1);
      ("Asia/Dubai"%string, 4 # 1);
      ("Asia/Kolkata"%string, 11 # 2);
      ("Australia/Sydney"%string, 11 # 1);
      ("Australia/Melbourne"%string, 11 # 1);
      ("Pacific/Auckland"%string, 13 # 1);
      ("America/Sao_Paulo"%string, (-3) # 1);
      ("America/Mexico_City"%string, (-6) # 1) ]%Q.

(** Property names every object literal inherits from [Object.prototype];
    a lookup of one of them yields a function or an object, not a number. *)
Definition objectPrototypeKeys : list string :=
  [ "constructor"; "__proto__"; "hasOwnProperty"; "isPrototypeOf";
    "propertyIsEnumerable"; "toLocaleString"; "toString"; "valueOf";
    "__defineGetter__"; "__defineSetter__"; "__lookupGetter__";
    "__lookupSetter__" ]%string.

(** [timezoneOffsets[timezone] || 0], then used as a number: NaN ([None])
    for an inherited property. *)
Definition fallbackOffset (timezone : string) : option Q :=
  match timezoneOffsets !! timezone with
  | Some q => if Qeq_bool q 0 then Some (0 # 1)%Q else Some q
  | None =>
      if bool_decide (timezone ∈ objectPrototypeKeys) then None
      else Some (0 # 1)%Q
  end.

Section WithHost.
Context (h : Host).

(** [getFallbackTimeForTimezone(date, timezone)] *)
Definition getFallbackTimeForTimezone (date : Date) (timezone : string) : result ZoneTime :=
  try_catch
    (let utcTime :=
       nadd (DateAPI.getTime date)
            (num1 (fun m => m * 60000) (DateAPI.getTimezoneOffset h date)) in
     let offset := fallbackOffset timezone in
     let timezoneTime : Date :=
       match utcTime, offset with
       | Some u, Some o => newDateQ (inject_Z u + o * 3600000)%Q
       | _, _ => None
       end in
     let hours24 := DateAPI.getUTCHours timezoneTime in
     let minutes := DateAPI.getUTCMinutes timezoneTime in
     let seconds := DateAPI.getUTCSeconds timezoneTime in
     let '(hours12, ampm) := to12Hour hours24 in
     Ok {| hours := hours24;
           hours12 := hours12;
           minutes := minutes;
           seconds := seconds;
           ampm := ampm;
           timezone := timezone;
           isError := false;
           isFallback := true;
           errorMessage := None |})
    (fun error =>
       let localTime := date in
       let hours24 := DateAPI.getHours h localTime in
       let minutes := DateAPI.getMinutes h localTime in
       let seconds := DateAPI.getSeconds h localTime in
       let '(hours12, ampm) := to12Hour hours24 in
       Ok {| hours := hours24;
             hours12 := hours12;
             minutes := minutes;
             seconds := seconds;
             ampm := ampm;
             timezone := timezone;
             isError := true;
             isFallback := false;
             errorMessage := Some "Using local time - timezone unavailable"%string |}).

(** [getTimeForTimezone(date, timezone)] *)
Definition getTimeForTimezone (date : Date) (timezone : string) : result ZoneTime :=
  try_catch
    (try! formatter := Intl.DateTimeFormat h timezone in
     try! parts := Intl.formatToParts h formatter date in
     let hours24 := Some (ES.HourFromTime parts) in
     let minutes := Some (ES.MinFromTime parts) in
     let seconds := Some (ES.SecFromTime parts) in
     let '(hours12, ampm) := to12Hour hours24 in
     Ok {| hours := hours24;
           hours12 := hours12;
           minutes := minutes;
           seconds := seconds;
           ampm := ampm;
           timezone := timezone;
           isError := false;
           isFallback := false;
           errorMessage := None |})
    (fun error => getFallbackTimeForTimezone date timezone).

(** [getWeekNumberForTimezone(date, timezone)] *)
Definition getWeekNumberForTimezone (date : Date) (timezone : string) : number :=
  match
    (try! tzDate := Intl.reparseInZone h date timezone in
     let startOfYear :=
       DateAPI.newDateLocal h (DateAPI.getFullYear h tzDate) (Some 0) (Some 1) in
     Ok (match nsub tzDate startOfYear, DateAPI.getDay h startOfYear with
         | Some diff, Some startDay =>
             let pastDaysOfYear := (inject_Z diff / 86400000)%Q in
             Some (Qceiling ((pastDaysOfYear + inject_Z startDay + 1) / 7)%Q)
         | _, _ => None
         end))
  with
  | Ok weekNumber => weekNumber
  | Throw error => Some 1
  end.

(** [formatDateForTimezone(date, timezone)]; its [catch] rethrows. *)
Definition formatDateForTimezone (date : Date) (timezone : string) : result ZoneDate :=
  try_catch
    (try! formatter := Intl.DateTimeFormat h timezone in
     try! parts := Intl.formatToParts h formatter date in
     let dayName := Intl.weekdayLong parts in
     let day := Some (ES.DateFromTime parts) in
     let monthName := Intl.monthLong parts in
     let year := Some (Intl.eraYear (ES.YearFromTime parts)) in
     let weekNumber := getWeekNumberForTimezone date timezone in
     Ok {| dayName := dayName;
           day := day;
           monthName := monthName;
           year := year;
           weekNumber := weekNumber |})
    (fun error => Throw error).

(** [isValidTimezone(timezone)] *)
Definition isValidTimezone (timezone : string) : bool :=
  isOk (Intl.DateTimeFormat h timezone).

End WithHost.

(** [timezone.split('/').pop()]: what follows the last slash. *)
Fixpoint splitPop (s acc : string) : string :=
  match s with
  | EmptyString => acc
  | String c r =>
      if Ascii.eqb c "/" then splitPop r ""
      else splitPop r (acc +:+ String c "")
  end.

(** [s.replace(/_/g, ' ')] *)
Fixpoint replaceUnderscores (s : string) : string :=
  match s with
  | EmptyString => ""
  | String c r =>
      String (if Ascii.eqb c "_" then " "%char else c) (replaceUnderscores r)
  end.

Definition getCityNameForTimezone (timezone : string) : string :=
  match List.find (fun tz => String.eqb (fst (fst tz)) timezone) availableTimezones with
  | Some found => snd (fst found)
  | None => replaceUnderscores (splitPop timezone "")
  end.

Definition liveCells (t : ZoneTime) (d : ZoneDate) : TimeData :=
  {| c_hours := Num (hours t);
     c_hours12 := Some (Num (hours12 t));
     c_minutes := Num (minutes t);
     c_seconds := Num (seconds t);
     c_ampm := ampm t;
     c_timezone := Some (timezone t);
     c_isError := isError t;
     c_isFallback := isFallback t;
     c_errorMessage := errorMessage t;
     c_date := {| c_dayName := dayName d;
                  c_day := Num (day d);
                  c_monthName := monthName d;
                  c_year := Num (year d);
                  c_weekNumber := Num (weekNumber d) |} |}.

(** The error state that [updateWorldClockTime] stores in its [catch]. *)
Definition errorCells : TimeData :=
  {| c_hours := Str "--";
     c_hours12 := None;
     c_minutes := Str "--";
     c_seconds := Str "--";
     c_ampm := "";
     c_timezone := None;
     c_isError := true;
     c_isFallback := false;
     c_errorMessage := None;
     c_date := {| c_dayName := "--";
                  c_day := Str "--";
                  c_monthName := "--";
                  c_year := Str "--";
                  c_weekNumber := Str "--" |} |}.

Definition set_timeData (wc : WorldClock) (td : TimeData) : WorldClock :=
  {| id := id wc;
     cityName := cityName wc;
     wc_timezone := wc_timezone wc;
     isEnabled := isEnabled wc;
     timeData := Some td |}.

(** What the settings manager answers to a save or a removal: true, false,
    or an exception. *)
Definition Saved := result bool.

(** The surroundings of one [addWorldClock] call: the identifier that
    [generateWorldClockId] produces, the settings manager's answer, and the
    reading of the clock in [updateWorldClockTime]. *)
Record AddEnv := {
  newId : string;
  saved : Saved;
  now : Date
}.

Section WithHost.
Context (h : Host).

(** [updateWorldClockTime(worldClock)]: the clock object after the call; the
    call itself never throws.  [now] is the reading [new Date()] of the
    clock, a valid date. *)
Definition updateWorldClockTime (worldClock : WorldClock) (now : Date) : WorldClock :=
  match
    (try! timeData := getTimeForTimezone h now (wc_timezone worldClock) in
     try! dateData := formatDateForTimezone h now (wc_timezone worldClock) in
     Ok (liveCells timeData dateData))
  with
  | Ok td => set_timeData worldClock td
  | Throw error => set_timeData worldClock errorCells
  end.

(** [addWorldClock(timezone, cityName)]: the array it leaves and what it
    returns ([None] is false). *)
Definition addWorldClock (worldClocks : list WorldClock) (timezone : string)
    (cityName : option string) (env : AddEnv)
    : list WorldClock * option WorldClock :=
  if (3 <=? length worldClocks)%nat then (worldClocks, None)
  else if existsb (fun wc => String.eqb (wc_timezone wc) timezone) worldClocks
  then (worldClocks, None)
  else if negb (isValidTimezone h timezone) then (worldClocks, None)
  else
    let id := newId env in
    let worldClockConfig :=
      {| id := id;
         cityName := match cityName with
                     | Some (String c r) => String c r
                     | _ => getCityNameForTimezone timezone
                     end;
         wc_timezone := timezone;
         isEnabled := true;
         timeData := None |} in
    let pushed := worldClocks ++ [worldClockConfig] in
    match saved env with
    | Ok true =>
        let updated := updateWorldClockTime worldClockConfig (now env) in
        (worldClocks ++ [updated], Some updated)
    | Ok false =>
        (List.filter (fun wc => negb (String.eqb (WorldClockManager.id wc) id)) pushed, None)
    | Throw error => (pushed, None)
    end.

(** [removeWorldClock(id)] *)
Definition removeWorldClock (worldClocks : list WorldClock) (id : string)
    (saved : Saved) : list WorldClock * bool :=
  let initialLength := length worldClocks in
  let worldClocks' :=
    List.filter (fun wc => negb (String.eqb (WorldClockManager.id wc) id)) worldClocks in
  match saved with
  | Ok success => (worldClocks', success && (length worldClocks' <? initialLength)%nat)
  | Throw error => (worldClocks', false)
  end.

End WithHost.

(** Sequences of additions and removals, from the empty array. *)
Inductive Op :=
| Add (timezone : string) (cityName : option string) (env : AddEnv)
| Remove (id : string) (saved : Saved).

Definition apply (h : Host) (worldClocks : list WorldClock) (op : Op) : list WorldClock :=
  match op with
  | Add timezone cityName env => fst (addWorldClock h worldClocks timezone cityName env)
  | Remove id saved => fst (removeWorldClock worldClocks id saved)
  end.

Definition run (h : Host) (ops : list Op) : list WorldClock :=
  fold_left (apply h) ops [].

(** [isTimezoneAdded(timezone)] *)
Definition isTimezoneAdded (worldClocks : list WorldClock) (timezone : string) : bool :=
  existsb (fun wc => String.eqb (wc_timezone wc) timezone) worldClocks.

(** [getWorldClockById(id)]; [None] is undefined. *)
Definition getWorldClockById (worldClocks : list WorldClock) (id : string)
    : option WorldClock :=
  List.find (fun wc => String.eqb (WorldClockManager.id wc) id) worldClocks.

(** [getEnabledWorldClocks()] *)
Definition getEnabledWorldClocks (worldClocks : list WorldClock) : list WorldClock :=
  List.filter isEnabled worldClocks.

(** [value.toString()] and [`${value}`] for a property that holds a number
    or a string. *)
Definition Cell_toString (c : Cell) : string :=
  match c with
  | Num n => Number_toString n
  | Str s => s
  end.

(** [getFormattedTimeString(worldClock, use24HourFormat, showSeconds)];
    calling [toString] on an absent [hours12] is a TypeError. *)
Definition getFormattedTimeString (worldClock : WorldClock)
    (use24HourFormat showSeconds : bool) : result string :=
  let placeholder := "--:--" +:+ (if showSeconds then ":--" else "") in
  match timeData worldClock with
  | None => Ok placeholder
  | Some td =>
      if c_isError td then Ok placeholder
      else
        let displayHours := if use24HourFormat then Some (c_hours td) else c_hours12 td in
        match displayHours with
        | None =>
            Throw (TypeError "Cannot read properties of undefined (reading 'toString')")
        | Some shown =>
            let hoursStr := padStart (Cell_toString shown) 2 "0" in
            let minutesStr := padStart (Cell_toString (c_minutes td)) 2 "0" in
            let secondsStr := padStart (Cell_toString (c_seconds td)) 2 "0" in
            let timeStr := hoursStr +:+ ":" +:+ minutesStr in
            let timeStr := if showSeconds then timeStr +:+ ":" +:+ secondsStr else timeStr in
            let timeStr := if negb use24HourFormat then timeStr +:+ " " +:+ c_ampm td
                           else timeStr in
            Ok timeStr
        end
  end.

(** [getFormattedDateString(worldClock)] *)
Definition getFormattedDateString (worldClock : WorldClock) : string :=
  match timeData worldClock with
  | None => "--"
  | Some td =>
      if c_isError td then "--"
      else
        let d := c_date td in
        c_dayName d +:+ ", " +:+ Cell_toString (c_day d) +:+ " " +:+ c_monthName d
        +:+ ", " +:+ Cell_toString (c_year d) +:+ ", week " +:+ Cell_toString (c_weekNumber d)
  end.

Section WithHost.
Context (h : Host).

(** The [forEach] of [updateAllWorldClocks] over the array, disabled clocks
    being skipped; [clock i] is the reading of the clock in the [i]-th call
    of [updateWorldClockTime]. *)
Fixpoint updateEach (clock : nat -> Date) (i : nat) (worldClocks : list WorldClock)
    : list WorldClock :=
  match worldClocks with
  | [] => []
  | wc :: rest =>
      if isEnabled wc
      then updateWorldClockTime h wc (clock i) :: updateEach clock (S i) rest
      else wc :: updateEach clock i rest
  end.

(** [updateAllWorldClocks()]: the array and the [isUpdating] flag it
    leaves. *)
Definition updateAllWorldClocks (isUpdating : bool) (worldClocks : list WorldClock)
    (clock : nat -> Date) : list WorldClock * bool :=
  if isUpdating then (worldClocks, isUpdating)
  else (updateEach clock 0 worldClocks, false).

End WithHost.

(** [reorderWorldClocks(newOrder)] for an array of clock objects; [saved] is
    what [saveSetting] comes to. *)
Definition reorderWorldClocks (worldClocks newOrder : list WorldClock)
    (saved : result unit) : list WorldClock * bool :=
  if negb (length newOrder =? length worldClocks)%nat then (worldClocks, false)
  else
    let currentIds := map id worldClocks in
    let newOrderIds := map id newOrder in
    if negb (forallb (fun i => existsb (String.eqb i) newOrderIds) currentIds)
    then (worldClocks, false)
    else
      match saved with
      | Ok _ => (newOrder, true)
      | Throw error => (newOrder, false)
      end.

(** [clearAllWorldClocks()]; [saved] is what [clearWorldClocks] comes to. *)
Definition clearAllWorldClocks (worldClocks : list WorldClock) (saved : result unit)
    : list WorldClock * bool :=
  match saved with
  | Ok _ => ([], true)
  | Throw error => ([], false)
  end.

Definition set_cityName (wc : WorldClock) (name : string) : WorldClock :=
  {| id := id wc;
     cityName := name;
     wc_timezone := wc_timezone wc;
     isEnabled := isEnabled wc;
     timeData := timeData wc |}.

(** The array after an assignment to a property of the first clock that
    [find] returns for [id]. *)
Fixpoint updateFirst (f : WorldClock -> WorldClock) (id : string)
    (worldClocks : list WorldClock) : list WorldClock :=
  match worldClocks with
  | [] => []
  | wc :: rest =>
      if String.eqb (WorldClockManager.id wc) id then f wc :: rest
      else wc :: updateFirst f id rest
  end.

(** [updateWorldClockCityName(id, newCityName)]; [saved] is what the
    settings manager's [updateWorldClock] comes to. *)
Definition updateWorldClockCityName (worldClocks : list WorldClock) (id newCityName : string)
    (saved : Saved) : list WorldClock * bool :=
  match getWorldClockById worldClocks id with
  | None => (worldClocks, false)
  | Some worldClock =>
      let renamed := updateFirst (fun wc => set_cityName wc newCityName) id worldClocks in
      match saved with
      | Ok true => (renamed, true)
      | Ok false =>
          (updateFirst
             (fun wc => set_cityName wc (getCityNameForTimezone (wc_timezone wc)))
             id renamed, false)
      | Throw error => (renamed, false)
      end
  end.

End WorldClockManager.

(** ** The world-clock manager together with the settings manager

    [js/managers/WorldClockManager.js] hands the clock objects it creates to
    [js/managers/SettingsManager.js], which keeps them in its own array: the
    two arrays hold the same objects.  Here objects and arrays live in a
    heap and are named by locations, so that an assignment through one
    array is seen through the other. *)

Module Composite.

Definition loc := nat.

Record World := {
  objects : gmap loc WorldClockManager.WorldClock;   (* the clock objects *)
  arrays : gmap loc (list loc);                      (* the array objects *)
  nextLoc : loc;                                     (* the next fresh location *)
  managerClocks : loc;        (* [this.worldClocks] of the world-clock manager *)
  ownClocks : option loc;     (* [settings.worldClocks], when it is an own property *)
  defaultClocks : loc;        (* [defaultSettings.worldClocks] *)
  backgroundImage : bool      (* is [settings.backgroundImage] truthy? *)
}.

(** After [new SettingsManager()] and [new WorldClockManager(settingsManager)]:
    [settings] is empty, the default array and the manager's array are two
    empty arrays. *)
Definition initial : World :=
  {| objects := ∅;
     arrays := <[1%nat := []]> (<[0%nat := []]> ∅);
     nextLoc := 2%nat;
     managerClocks := 1%nat;
     ownClocks := None;
     defaultClocks := 0%nat;
     backgroundImage := false |}.

Definition noClock : WorldClockManager.WorldClock :=
  {| WorldClockManager.id := "";
     WorldClockManager.cityName := "";
     WorldClockManager.wc_timezone := "";
     WorldClockManager.isEnabled := false;
     WorldClockManager.timeData := None |}.

(** The object at a location, the elements of an array. *)
Definition deref (w : World) (r : loc) : WorldClockManager.WorldClock :=
  default noClock (objects w !! r).

Definition elements (w : World) (a : loc) : list loc :=
  default [] (arrays w !! a).

Definition set_objects (w : World) (objs : gmap loc WorldClockManager.WorldClock) : World :=
  {| objects := objs;
     arrays := arrays w;
     nextLoc := nextLoc w;
     managerClocks := managerClocks w;
     ownClocks := ownClocks w;
     defaultClocks := defaultClocks w;
     backgroundImage := backgroundImage w |}.

Definition set_array (w : World) (a : loc) (els : list loc) : World :=
  {| objects := objects w;
     arrays := <[a := els]> (arrays w);
     nextLoc := nextLoc w;
     managerClocks := managerClocks w;
     ownClocks := ownClocks w;
     defaultClocks := defaultClocks w;
     backgroundImage := backgroundImage w |}.

(** A new array object with the given elements; its location. *)
Definition newArray (w : World) (els : list loc) : World * loc :=
  ({| objects := objects w;
      arrays := <[nextLoc w := els]> (arrays w);
      nextLoc := S (nextLoc w);
      managerClocks := managerClocks w;
      ownClocks := ownClocks w;
      defaultClocks := defaultClocks w;
      backgroundImage := backgroundImage w |}, nextLoc w).

(** A new clock object; its location. *)
Definition newObject (w : World) (o : WorldClockManager.WorldClock) : World * loc :=
  ({| objects := <[nextLoc w := o]> (objects w);
      arrays := arrays w;
      nextLoc := S (nextLoc w);
      managerClocks := managerClocks w;
      ownClocks := ownClocks w;
      defaultClocks := defaultClocks w;
      backgroundImage := backgroundImage w |}, nextLoc w).

Definition set_managerClocks (w : World) (a : loc) : World :=
  {| objects := objects w;
     arrays := arrays w;
     nextLoc := nextLoc w;
     managerClocks := a;
     ownClocks := ownClocks w;
     defaultClocks := defaultClocks w;
     backgroundImage := backgroundImage w |}.

Definition set_settings (w : World) (own : option loc) (image : bool) : World :=
  {| objects := objects w;
     arrays := arrays w;
     nextLoc := nextLoc w;
     managerClocks := managerClocks w;
     ownClocks := own;
     defaultClocks := defaultClocks w;
     backgroundImage := image |}.

Definition set_isEnabled (o : WorldClockManager.WorldClock) (b : bool)
    : WorldClockManager.WorldClock :=
  {| WorldClockManager.id := WorldClockManager.id o;
     WorldClockManager.cityName := WorldClockManager.cityName o;
     WorldClockManager.wc_timezone := WorldClockManager.wc_timezone o;
     WorldClockManager.isEnabled := b;
     WorldClockManager.timeData := WorldClockManager.timeData o |}.

(** [o.isEnabled = !o.isEnabled] on the object at [r]. *)
Definition flip (w : World) (r : loc) : World :=
  set_objects w
    (<[r := set_isEnabled (deref w r) (negb (WorldClockManager.isEnabled (deref w r)))]>
       (objects w)).

(** *** js/managers/SettingsManager.js, as far as the clocks reach it *)

(** What the three accesses to [localStorage] in [saveSetting] and its
    quota handler come to: the first [setItem], the [setItem] after the
    background image was dropped, and the [removeItem] of
    [clearAllSettings]. *)
Record Storage := {
  firstWrite : result unit;
  secondWrite : result unit;
  removal : result unit
}.

(** [clearAllSettings()]: [settings] becomes a shallow copy of the
    defaults, whose [worldClocks] is the default array itself. *)
Definition clearAllSettings (w : World) (st : Storage) : World :=
  match removal st with
  | Ok _ => set_settings w (Some (defaultClocks w)) false
  | Throw error => w
  end.

(** [handleStorageQuotaExceeded()] *)
Definition handleStorageQuotaExceeded (w : World) (st : Storage) : World :=
  if backgroundImage w then
    let w1 := set_settings w (ownClocks w) false in
    match secondWrite st with
    | Ok _ => w1
    | Throw error => clearAllSettings w1 st
    end
  else w.

(** The [try]/[catch] of [saveSetting] after the assignment to [settings]. *)
Definition persist (w : World) (st : Storage) : World :=
  match firstWrite st with
  | Ok _ => w
  | Throw error =>
      if String.eqb (name error) "QuotaExceededError"
      then handleStorageQuotaExceeded w st
      else w
  end.

(** [saveSetting('worldClocks', array)] *)
Definition saveWorldClocks (w : World) (a : loc) (st : Storage) : World :=
  persist (set_settings w (Some a) (backgroundImage w)) st.

(** [saveSetting('backgroundImage', value)], [image] telling whether the
    value is truthy. *)
Definition saveBackgroundImage (w : World) (image : bool) (st : Storage) : World :=
  persist (set_settings w (ownClocks w) image) st.

(** [getSetting('worldClocks', [])]: the own property, else the default
    array. *)
Definition getWorldClocks (w : World) : loc :=
  match ownClocks w with
  | Some a => a
  | None => defaultClocks w
  end.

(** The index search [findIndex(wc => wc.id === id)], as the location of
    the element found. *)
Definition findById (w : World) (els : list loc) (id : string) : option loc :=
  List.find (fun r => String.eqb (WorldClockManager.id (deref w r)) id) els.

(** The index that [findIndex(wc => wc.id === id)] returns; [None] is -1. *)
Fixpoint findIndex (w : World) (els : list loc) (id : string) : option nat :=
  match els with
  | [] => None
  | r :: rest =>
      if String.eqb (WorldClockManager.id (deref w r)) id then Some 0%nat
      else option_map S (findIndex w rest id)
  end.

Definition hasTimezone (w : World) (els : list loc) (timezone : string) : bool :=
  existsb (fun r => String.eqb (WorldClockManager.wc_timezone (deref w r)) timezone) els.

Module SettingsManager.

(** [addWorldClock(worldClockConfig)], the configuration being the object
    at [r].  [isValidWorldClock] holds of every clock object here: its
    [id], [cityName] and [timezone] are strings and [isEnabled] a boolean. *)
Definition addWorldClock (w : World) (r : loc) (st : Storage) : World * bool :=
  let worldClocks := getWorldClocks w in
  if (3 <=? length (elements w worldClocks))%nat then (w, false)
  else if hasTimezone w (elements w worldClocks)
            (WorldClockManager.wc_timezone (deref w r))
  then (w, false)
  else
    let w1 := set_array w worldClocks (elements w worldClocks ++ [r]) in
    (saveWorldClocks w1 worldClocks st, true).

(** [removeWorldClock(worldClockId)] *)
Definition removeWorldClock (w : World) (id : string) (st : Storage) : World * bool :=
  let worldClocks := getWorldClocks w in
  let '(w1, filteredClocks) :=
    newArray w
      (List.filter (fun r => negb (String.eqb (WorldClockManager.id (deref w r)) id))
         (elements w worldClocks)) in
  if negb (length (elements w1 filteredClocks) =? length (elements w1 worldClocks))%nat
  then (saveWorldClocks w1 filteredClocks st, true)
  else (w1, false).

(** [toggleWorldClock(worldClockId)] *)
Definition toggleWorldClock (w : World) (id : string) (st : Storage) : World * bool :=
  let worldClocks := getWorldClocks w in
  match findById w (elements w worldClocks) id with
  | None => (w, false)
  | Some r => (saveWorldClocks (flip w r) worldClocks st, true)
  end.

(** [updateWorldClock(worldClockId, updates)] for the update object
    [{ cityName: newCityName }], the one its caller passes: the array
    element is replaced by a new object, a copy with the new city name,
    of which [isValidWorldClock] holds. *)
Definition updateWorldClock (w : World) (id newCityName : string) (st : Storage)
    : World * bool :=
  let worldClocks := getWorldClocks w in
  match findIndex w (elements w worldClocks) id with
  | None => (w, false)
  | Some clockIndex =>
      let '(w1, updatedClock) :=
        newObject w
          (WorldClockManager.set_cityName
             (deref w (nth clockIndex (elements w worldClocks) 0%nat)) newCityName) in
      let w2 :=
        set_array w1 worldClocks (<[clockIndex := updatedClock]> (elements w1 worldClocks)) in
      (saveWorldClocks w2 worldClocks st, true)
  end.

(** [clearWorldClocks()] *)
Definition clearWorldClocks (w : World) (st : Storage) : World :=
  let '(w1, empty) := newArray w [] in
  saveWorldClocks w1 empty st.

End SettingsManager.

(** *** js/managers/WorldClockManager.js over the heap *)

Section WithHost.
Context (h : Host).

(** [updateWorldClockTime(worldClock)] on the object at [r]. *)
Definition updateWorldClockTime (w : World) (r : loc) (now : Date) : World :=
  set_objects w
    (<[r := WorldClockManager.updateWorldClockTime h (deref w r) now]> (objects w)).

(** [addWorldClock(timezone, cityName)]: the world it leaves and the
    location of the clock it returns ([None] is false). *)
Definition addWorldClock (w : World) (timezone : string) (cityName : option string)
    (newId : string) (now : Date) (st : Storage) : World * option loc :=
  let worldClocks := managerClocks w in
  if (3 <=? length (elements w worldClocks))%nat then (w, None)
  else if hasTimezone w (elements w worldClocks) timezone then (w, None)
  else if negb (WorldClockManager.isValidTimezone h timezone) then (w, None)
  else
    let '(w1, worldClockConfig) :=
      newObject w
        {| WorldClockManager.id := newId;
           WorldClockManager.cityName :=
             match cityName with
             | Some (String c r) => String c r
             | _ => WorldClockManager.getCityNameForTimezone timezone
             end;
           WorldClockManager.wc_timezone := timezone;
           WorldClockManager.isEnabled := true;
           WorldClockManager.timeData := None |} in
    let w2 := set_array w1 worldClocks (elements w1 worldClocks ++ [worldClockConfig]) in
    let '(w3, success) := SettingsManager.addWorldClock w2 worldClockConfig st in
    if success then (updateWorldClockTime w3 worldClockConfig now, Some worldClockConfig)
    else
      let '(w4, filtered) :=
        newArray w3
          (List.filter
             (fun r => negb (String.eqb (WorldClockManager.id (deref w3 r)) newId))
             (elements w3 (managerClocks w3))) in
      (set_managerClocks w4 filtered, None).

End WithHost.

(** [removeWorldClock(id)] *)
Definition removeWorldClock (w : World) (id : string) (st : Storage) : World * bool :=
  let initialLength := length (elements w (managerClocks w)) in
  let '(w1, filtered) :=
    newArray w
      (List.filter (fun r => negb (String.eqb (WorldClockManager.id (deref w r)) id))
         (elements w (managerClocks w))) in
  let w2 := set_managerClocks w1 filtered in
  let '(w3, success) := SettingsManager.removeWorldClock w2 id st in
  (w3, success && (length (elements w3 (managerClocks w3)) <? initialLength)%nat).

(** [toggleWorldClock(id)] *)
Definition toggleWorldClock (w : World) (id : string) (st : Storage) : World * bool :=
  match findById w (elements w (managerClocks w)) id with
  | None => (w, false)
  | Some worldClock =>
      let w1 := flip w worldClock in
      let '(w2, success) := SettingsManager.toggleWorldClock w1 id st in
      if success then (w2, true)
      else (flip w2 worldClock, false)
  end.

(** [updateWorldClockCityName(id, newCityName)] *)
Definition updateWorldClockCityName (w : World) (id newCityName : string) (st : Storage)
    : World * bool :=
  match findById w (elements w (managerClocks w)) id with
  | None => (w, false)
  | Some worldClock =>
      let w1 :=
        set_objects w
          (<[worldClock := WorldClockManager.set_cityName (deref w worldClock) newCityName]>
             (objects w)) in
      let '(w2, success) := SettingsManager.updateWorldClock w1 id newCityName st in
      if success then (w2, true)
      else
        (set_objects w2
           (<[worldClock :=
                WorldClockManager.set_cityName (deref w2 worldClock)
                  (WorldClockManager.getCityNameForTimezone
                     (WorldClockManager.wc_timezone (deref w2 worldClock)))]>
              (objects w2)), false)
  end.

(** [reorderWorldClocks(newOrder)] for an array of clock objects of the
    heap: the copy [[...newOrder]] becomes the manager's array and, through
    [saveSetting], the settings' array as well. *)
Definition reorderWorldClocks (w : World) (newOrder : list loc) (st : Storage)
    : World * bool :=
  if negb (length newOrder =? length (elements w (managerClocks w)))%nat then (w, false)
  else
    let currentIds :=
      map (fun r => WorldClockManager.id (deref w r)) (elements w (managerClocks w)) in
    let newOrderIds := map (fun r => WorldClockManager.id (deref w r)) newOrder in
    if negb (forallb (fun i => existsb (String.eqb i) newOrderIds) currentIds)
    then (w, false)
    else
      let '(w1, copy) := newArray w newOrder in
      let w2 := set_managerClocks w1 copy in
      (saveWorldClocks w2 (managerClocks w2) st, true).

(** [clearAllWorldClocks()] *)
Definition clearAllWorldClocks (w : World) (st : Storage) : World * bool :=
  let '(w1, empty) := newArray w [] in
  let w2 := set_managerClocks w1 empty in
  (SettingsManager.clearWorldClocks w2 st, true).

(** [getWorldClocks()] and [getEnabledWorldClocks()] of the manager, as
    the objects they hold. *)
Definition managerView (w : World) : list WorldClockManager.WorldClock :=
  map (deref w) (elements w (managerClocks w)).

Definition settingsView (w : World) : list WorldClockManager.WorldClock :=
  map (deref w) (elements w (getWorldClocks w)).

(** The calls a user interface makes. *)
Inductive Op :=
| Add (timezone : string) (cityName : option string) (newId : string) (now : Date)
      (st : Storage)
| Remove (id : string) (st : Storage)
| Toggle (id : string) (st : Storage)
| Rename (id newCityName : string) (st : Storage)
| Reorder (newOrder : list loc) (st : Storage)
| Clear (st : Storage)
| SaveBackgroundImage (image : bool) (st : Storage).

Definition apply (h : Host) (w : World) (op : Op) : World :=
  match op with
  | Add timezone cityName newId now st =>
      fst (addWorldClock h w timezone cityName newId now st)
  | Remove id st => fst (removeWorldClock w id st)
  | Toggle id st => fst (toggleWorldClock w id st)
  | Rename id newCityName st => fst (updateWorldClockCityName w id newCityName st)
  | Reorder newOrder st => fst (reorderWorldClocks w newOrder st)
  | Clear st => fst (clearAllWorldClocks w st)
  | SaveBackgroundImage image st => saveBackgroundImage w image st
  end.

(** [generateWorldClockId] yields an id that no clock object has yet. *)
Definition freshId (w : World) (op : Op) : Prop :=
  match op with
  | Add _ _ newId _ _ =>
      forall r o, objects w !! r = Some o -> WorldClockManager.id o <> newId
  | _ => True
  end.

Definition storageOf (op : Op) : Storage :=
  match op with
  | Add _ _ _ _ st => st
  | Remove _ st => st
  | Toggle _ st => st
  | Rename _ _ st => st
  | Reorder _ st => st
  | Clear st => st
  | SaveBackgroundImage _ st => st
  end.

(** The accesses to storage that end in [clearAllSettings] replacing
    [settings], when a background image is set. *)
Definition clears (st : Storage) : bool :=
  match firstWrite st, secondWrite st, removal st with
  | Throw error, Throw _, Ok _ => String.eqb (name error) "QuotaExceededError"
  | _, _, _ => false
  end.

(** The worlds that calls admitted by [allowed] lead to. *)
Inductive reachable (h : Host) (allowed : World -> Op -> Prop) : World -> Prop :=
| reach_initial : reachable h allowed initial
| reach_apply w op :
    reachable h allowed w -> allowed w op -> reachable h allowed (apply h w op).

End Composite.

(** The host of the examples: every zone is UTC, and the database knows the
    identifiers "UTC" and "Europe/London" only. *)
Definition exampleHost : Host := utcHost ["UTC"; "Europe/London"]%string.

(** * Reference definitions

    What the specification says, in its own words, for the statements below
    to compare the code with. *)

(** The calendar day that a Date shows in the system zone (month 1..12). *)
Definition localDay (h : Host) (date : Date) (y m d : Z) : Prop :=
  DateAPI.getFullYear h date = Some y /\
  DateAPI.getMonth h date = Some (m - 1) /\
  DateAPI.getDate h date = Some d.

(** The wall-clock time that a Date shows in the system zone. *)
Definition localClock (h : Host) (date : Date) (H M S : Z) : Prop :=
  DateAPI.getHours h date = Some H /\
  DateAPI.getMinutes h date = Some M /\
  DateAPI.getSeconds h date = Some S.

(** A number below 100 as two decimal digits, zero-padded. *)
Definition twoDigits (n : Z) : string :=
  String (ascii_of_nat (48 + Z.to_nat (n / 10)))
    (String (ascii_of_nat (48 + Z.to_nat (n mod 10))) "").

(** "AM" for hours 0..11, "PM" otherwise. *)
Definition meridiem (H : Z) : string :=
  if (0 <=? H) && (H <=? 11) then "AM" else "PM".

(** The hour mod 12, with 0 shown as 12. *)
Definition hourOn12 (H : Z) : Z :=
  if H mod 12 =? 0 then 12 else H mod 12.

(** The time string of the specification. *)
Definition specTimeString (use24Hour showSeconds : bool) (H M S : Z) : string :=
  twoDigits (if use24Hour then H else hourOn12 H) +:+ ":" +:+ twoDigits M +:+
  (if showSeconds then ":" +:+ twoDigits S else "").

Definition specMeridiem (use24Hour : bool) (H : Z) : string :=
  if use24Hour then "" else meridiem H.

(** An endpoint that the loop of [fetchNTPTime] does not read as a
    timezonedb endpoint. *)
Definition notTimezonedb (endpoint : string) : Prop :=
  includes endpoint "timeapi.io" = true \/ includes endpoint "timezonedb.com" = false.

(** The local reference point of a sync, as a time value: half the double
    nearest to before + after', truncated, where after' - before is the
    double nearest to after - before. *)
Definition adjustedTime (before after : Z) : Z :=
  Z.quot (toDouble (2 * before + toDouble (after - before))) 2.

(** What every reachable state of the sync engine satisfies: the stored
    offset is a proper number, it is 0 as long as no sync has succeeded, and
    no fallback endpoint is read as a timezonedb endpoint. *)
Definition syncInvariant (s : NTPService.State) : Prop :=
  (exists offset, NTPService.timeOffset s = Some offset) /\
  (NTPService.lastSyncTime s = None -> NTPService.timeOffset s = Some 0) /\
  Forall notTimezonedb (NTPService.fallbackEndpoints s).

(** A controller that has synced once, 5 seconds ahead of the local clock. *)
Definition syncedController : TimeController.State :=
  fst (TimeController.syncWithNTP TimeController.constructor
         (Ok (Some 1760443205000)) 1760443200000 1760443200010).

(** A sync attempt in which every request is rejected. *)
Definition deadNetwork : NTPService.SyncEnv :=
  {| NTPService.navigatorOnLine := true;
     NTPService.net := fun _ => NTPService.Rejected (TypeError "Failed to fetch");
     NTPService.clockBefore := 1760444100000;
     NTPService.clockAfter := 1760444100040;
     NTPService.clockDone := 1760444100041 |}.

(** A sync attempt whose primary endpoint answers 12:00:05 while the local
    clock reads 12:00:00. *)
Definition goodNetwork : NTPService.SyncEnv :=
  {| NTPService.navigatorOnLine := true;
     NTPService.net := fun _ =>
       NTPService.Response true 200 "OK"
         (Ok {| NTPService.datetime := None;
                NTPService.utc_datetime := Some "2025-10-14T12:00:05.000000+00:00"%string;
                NTPService.dateTime := None;
                NTPService.status := None;
                NTPService.timestamp := NaN |});
     NTPService.clockBefore := 1760443200000;
     NTPService.clockAfter := 1760443200000;
     NTPService.clockDone := 1760443200001 |}.

(** A host that parses the one string of [goodNetwork]. *)
Definition parsingHost : Host :=
  {| LocalTZA := fun _ => 0;
     UTCofLocal := fun t => t;
     zoneSupported := fun _ => true;
     zoneTZA := fun _ _ => 0;
     parseDate := fun str =>
       if String.eqb str "2025-10-14T12:00:05.000000+00:00"
       then Some 1760443205000 else None |}.

(** The invariant of the world-clock array: at most three clocks, no
    time-zone identifier twice. *)
Definition clockInvariant (worldClocks : list WorldClockManager.WorldClock) : Prop :=
  (length worldClocks <= 3)%nat /\
  List.NoDup (map WorldClockManager.wc_timezone worldClocks).

(** An addition that the settings manager accepts. *)
Definition accepted (newId : string) : WorldClockManager.AddEnv :=
  {| WorldClockManager.newId := newId;
     WorldClockManager.saved := Ok true;
     WorldClockManager.now := Some (utcTime 2025 10 14 14 30 45) |}.

(** The Thursday of the Monday-to-Sunday week of a day number (day 0,
    January 1 of 1970, is a Thursday). *)
Definition thursdayOf (day : Z) : Z := day + 3 - (day + 3) mod 7.

(** The lengths of the twelve months of year [y]. *)
Definition monthLengths (y : Z) : list Z :=
  [31; if ES.isLeap y then 29 else 28; 31; 30; 31; 30; 31; 31; 30; 31; 30; 31].

(** Does the character occur in the string? *)
Fixpoint hasChar (c : ascii) (s : string) : bool :=
  match s with
  | EmptyString => false
  | String c' r => Ascii.eqb c' c || hasChar c r
  end.

(** What holds of the heap in every world the calls lead to: arrays hold
    existing objects, an id names one object, every clock is enabled,
    locations in use lie below the next fresh one, the three arrays exist,
    and the manager's array is neither the settings' array nor the default
    one. *)
Definition heapInvariant (w : Composite.World) : Prop :=
  (forall a els r,
     Composite.arrays w !! a = Some els -> In r els ->
     is_Some (Composite.objects w !! r)) /\
  (forall r r' o o',
     Composite.objects w !! r = Some o -> Composite.objects w !! r' = Some o' ->
     WorldClockManager.id o = WorldClockManager.id o' -> r = r') /\
  (forall r o, Composite.objects w !! r = Some o -> WorldClockManager.isEnabled o = true) /\
  (forall r, is_Some (Composite.objects w !! r) -> (r < Composite.nextLoc w)%nat) /\
  (forall a, is_Some (Composite.arrays w !! a) -> (a < Composite.nextLoc w)%nat) /\
  (is_Some (Composite.arrays w !! Composite.managerClocks w) /\
   is_Some (Composite.arrays w !! Composite.defaultClocks w) /\
   is_Some (Composite.arrays w !! Composite.getWorldClocks w)) /\
  (Composite.managerClocks w <> Composite.getWorldClocks w /\
   Composite.managerClocks w <> Composite.defaultClocks w).

(** The manager's array and the settings' array hold the same objects in
    the same order. *)
Definition inStep (w : Composite.World) : Prop :=
  Composite.elements w (Composite.managerClocks w)
  = Composite.elements w (Composite.getWorldClocks w).

(** A call other than a renaming or a reordering, with a fresh id when it
    is an addition. *)
Definition plainCall (w : Composite.World) (op : Composite.Op) : Prop :=
  Composite.freshId w op /\
  match op with
  | Composite.Rename _ _ _ | Composite.Reorder _ _ => False
  | _ => True
  end.

(** Such a call whose accesses to storage do not end in
    [clearAllSettings]. *)
Definition storageKept (w : Composite.World) (op : Composite.Op) : Prop :=
  plainCall w op /\ Composite.clears (Composite.storageOf op) = false.

(** A storage that takes every write, and one that is full. *)
Definition working : Composite.Storage :=
  {| Composite.firstWrite := Ok tt;
     Composite.secondWrite := Ok tt;
     Composite.removal := Ok tt |}.

Definition quotaExceeded : JsError :=
  {| name := "QuotaExceededError"; message := "The quota has been exceeded." |}.

Definition exhausted : Composite.Storage :=
  {| Composite.firstWrite := Throw quotaExceeded;
     Composite.secondWrite := Throw quotaExceeded;
     Composite.removal := Ok tt |}.

(** * Properties *)

(** ** Doubles *)

Lemma toDouble_exact (z : Z) : Z.abs z <= 2 ^ 53 -> toDouble z = z.
Proof.
  intros Hz. unfold toDouble.
  destruct (Z.eq_dec (Z.abs z) (2 ^ 53)) as [E | NE].
  - rewrite E. change (Z.log2 (2 ^ 53) - 52) with 1.
    cbv beta iota zeta. change (1 <=? 0) with false. cbv iota.
    change (2 ^ 1) with 2. change (2 ^ 53 mod 2) with 0. change (2 * 0 <? 2) with true.
    cbv iota. change (2 ^ 53 / 2 * 2) with (2 ^ 53). rewrite <- E.
    destruct (Z.sgn_spec z) as [(? & ->) | [(? & ->) | (? & ->)]]; lia.
  - assert (Hlog : Z.log2 (Z.abs z) - 52 <= 0).
    { destruct (Z.eq_dec (Z.abs z) 0) as [E0 | N0].
      - rewrite E0. cbn. lia.
      - assert (Z.log2 (Z.abs z) < 53); [| lia].
        apply Z.log2_lt_pow2; lia. }
    apply Z.leb_le in Hlog. rewrite Hlog. reflexivity.
Qed.

(** Between 2^53 and 2^54 the doubles are the even integers; an odd
    integer goes to the neighbour that is a multiple of 4. *)
Lemma toDouble_even (z : Z) :
  2 ^ 53 <= Z.abs z < 2 ^ 54 ->
  (z mod 2 = 0 -> toDouble z = z) /\
  (z mod 2 = 1 -> Z.abs (toDouble z - z) = 1 /\ toDouble z mod 4 = 0).
Proof.
  intros Hz. unfold toDouble.
  assert (Hlog : Z.log2 (Z.abs z) = 53) by (apply Z.log2_unique; lia).
  rewrite Hlog. change (53 - 52 <=? 0) with false. cbv beta iota zeta.
  change (2 ^ (53 - 52)) with 2.
  set (a := Z.abs z) in *.
  assert (Hsgn : (Z.sgn z = 1 /\ z = a) \/ (Z.sgn z = -1 /\ z = - a)).
  { destruct (Z.sgn_spec z) as [(? & ->) | [(? & ->) | (? & ->)]]; subst a; lia. }
  pose proof (Z.div_mod a 2 ltac:(lia)) as Hdm.
  pose proof (Z.mod_pos_bound a 2 ltac:(lia)) as Hmb.
  assert (Hpar : exists k, a / 2 = 2 * k + (if Z.even (a / 2) then 0 else 1)).
  { destruct (Z.even (a / 2)) eqn:Ee.
    - apply Z.even_spec in Ee. destruct Ee as (k & Ek). exists k. lia.
    - assert (Ho : Z.odd (a / 2) = true) by (rewrite <- Z.negb_even, Ee; reflexivity).
      apply Z.odd_spec in Ho. destruct Ho as (k & Ek). exists k. lia. }
  destruct Hpar as (k & Hk).
  set (q := a / 2) in *. set (r := a mod 2) in *.
  assert (Hzr : z mod 2 = r).
  { destruct Hsgn as [(_ & E) | (_ & E)]; rewrite E; subst r;
      Z.to_euclidean_division_equations; lia. }
  rewrite Hzr.
  destruct (Z.ltb_spec (2 * r) 2) as [H1 | H1];
    [| destruct (Z.ltb_spec 2 (2 * r)) as [H2 | H2]; [lia |]].
  - split; intros Hm; [| lia].
    destruct Hsgn as [(-> & E) | (-> & E)]; lia.
  - split; intros Hm; [lia |].
    destruct (Z.even q); destruct Hsgn as [(-> & E) | (-> & E)];
      (split; [lia |]); Z.to_euclidean_division_equations; lia.
Qed.

(** Below 2^54 rounding moves an integer by at most 1 and never beyond an
    even bound. *)
Lemma toDouble_near (z bound : Z) :
  Z.abs z <= bound + 1 -> bound + 1 < 2 ^ 54 -> bound mod 4 = 0 ->
  Z.abs (toDouble z - z) <= 1 /\ (Z.abs z <= bound -> Z.abs (toDouble z) <= bound) /\
  Z.abs (toDouble z) <= bound + 1 /\
  (2 ^ 53 < Z.abs z -> Z.abs (toDouble z) <= bound).
Proof.
  intros Hz Hb Hm.
  destruct (Z.le_gt_cases (Z.abs z) (2 ^ 53)) as [Hs | Hl].
  - rewrite (toDouble_exact z Hs). lia.
  - destruct (toDouble_even z ltac:(lia)) as (He & Ho).
    pose proof (Z.mod_pos_bound z 2 ltac:(lia)) as Hr.
    destruct (Z.eq_dec (z mod 2) 0) as [E | E].
    + rewrite (He E). Z.to_euclidean_division_equations. lia.
    + destruct (Ho ltac:(lia)) as (Hd & H4).
      Z.to_euclidean_division_equations. lia.
Qed.

(** Beyond 2^53 a double stays beyond the time range, so [new Date] of a
    sum of two integral doubles is [TimeClip] of the exact sum. *)
Lemma toDouble_large (z : Z) : 2 ^ 53 < Z.abs z -> 2 ^ 53 <= Z.abs (toDouble z).
Proof.
  intros Hz. unfold toDouble.
  set (a := Z.abs z) in *.
  assert (Ha : 0 < a) by lia.
  destruct (Z.log2_spec a Ha) as (Hlo & Hhi).
  assert (HL : 53 <= Z.log2 a) by (apply Z.log2_le_pow2; lia).
  destruct (Z.leb_spec (Z.log2 a - 52) 0); [lia |].
  set (d := Z.log2 a - 52) in *.
  assert (Hpow : 2 ^ Z.log2 a = 2 ^ 52 * 2 ^ d).
  { unfold d. rewrite <- Z.pow_add_r by lia. f_equal. lia. }
  assert (Hulp : 2 <= 2 ^ d).
  { change 2 with (2 ^ 1) at 1. apply Z.pow_le_mono_r; lia. }
  assert (Hq : 2 ^ 52 <= a / 2 ^ d) by (apply Z.div_le_lower_bound; lia).
  cbv zeta.
  set (sig := if 2 * (a mod 2 ^ d) <? 2 ^ d then a / 2 ^ d
              else if 2 ^ d <? 2 * (a mod 2 ^ d) then a / 2 ^ d + 1
              else if Z.even (a / 2 ^ d) then a / 2 ^ d else a / 2 ^ d + 1).
  assert (Hsig : a / 2 ^ d <= sig).
  { subst sig. destruct (_ <? _); [lia |]. destruct (_ <? _); [lia |].
    destruct (Z.even _); lia. }
  clearbody sig.
  assert (Hs : Z.abs (Z.sgn z * (sig * 2 ^ d)) = sig * 2 ^ d).
  { destruct (Z.sgn_spec z) as [(? & ->) | [(? & ->) | (? & ->)]]; subst a; nia. }
  rewrite Hs. change (2 ^ 53) with (2 ^ 52 * 2). nia.
Qed.

Lemma TimeClip_toDouble (z : Z) : ES.TimeClip (toDouble z) = ES.TimeClip z.
Proof.
  destruct (Z.le_gt_cases (Z.abs z) (2 ^ 53)) as [Hz | Hz].
  - rewrite (toDouble_exact z Hz). reflexivity.
  - pose proof (toDouble_large z Hz) as Hd. unfold ES.TimeClip, ES.maxTime.
    destruct (Z.leb_spec (Z.abs (toDouble z)) 8640000000000000); [lia |].
    destruct (Z.leb_spec (Z.abs z) 8640000000000000); [lia | reflexivity].
Qed.


(** ** ECMAScript time arithmetic *)

(** [YearFromDay] brackets the day: the year it returns starts on or before
    the day, and the next year starts after it. *)
Lemma YearFromDay_bracket (day : Z) :
  ES.DayFromYear (ES.YearFromDay day) <= day < ES.DayFromYear (ES.YearFromDay day + 1).
Proof.
  unfold ES.YearFromDay.
  set (y := 1970 + day * 400 / 146097).
  assert (Hy : 146097 * (y - 1970) <= day * 400 < 146097 * (y - 1970) + 146097).
  { subst y. pose proof (Z.div_mod (day * 400) 146097 ltac:(lia)).
    pose proof (Z.mod_pos_bound (day * 400) 146097 ltac:(lia)). lia. }
  clearbody y.
  destruct (Z.ltb_spec day (ES.DayFromYear y));
    [| destruct (Z.leb_spec (ES.DayFromYear (y + 1)) day)].
  all: unfold ES.DayFromYear in *.
  all: replace (y - 1 + 1) with y by lia.
  all: Z.to_euclidean_division_equations; lia.
Qed.

(** ** Offsets: [calculateOffset] *)

(** C4 (as stated, refuted): a Date object that holds NaN is not rejected;
    [calculateOffset] returns NaN for it instead of throwing. *)
Lemma calculateOffset_NaN_date_counterexample :
  NTPService.calculateOffset (JDate InvalidDate) (JDate (Some 1760443200000)) = Ok NaN.
Proof. reflexivity. Qed.

(** C4 (amended): for two Date objects with valid time values
    [calculateOffset] returns remote - local as the subtraction of doubles
    gives it: exactly remote - local when that is at most 2^53 in
    magnitude, and otherwise the nearest even integer, at most 1 away;
    when either argument is not a Date object it throws the error "Invalid
    date objects provided for offset calculation"; when both are Date
    objects and one of them holds NaN it does not throw and returns NaN. *)
Theorem calculateOffset_spec :
  (forall remote local : Z,
      validTime remote -> validTime local ->
      NTPService.calculateOffset (JDate (Some remote)) (JDate (Some local))
      = Ok (Some (toDouble (remote - local))) /\
      Z.abs (toDouble (remote - local) - (remote - local)) <= 1 /\
      (Z.abs (remote - local) <= 2 ^ 53 -> toDouble (remote - local) = remote - local) /\
      (2 ^ 53 < Z.abs (remote - local) -> toDouble (remote - local) mod 2 = 0)) /\
  (forall ntpTime localTime : JsValue,
      (forall d, ntpTime <> JDate d) \/ (forall d, localTime <> JDate d) ->
      NTPService.calculateOffset ntpTime localTime
      = Throw (Error "Invalid date objects provided for offset calculation")) /\
  (forall n l : Date,
      n = InvalidDate \/ l = InvalidDate ->
      NTPService.calculateOffset (JDate n) (JDate l) = Ok NaN).
Proof.
  split; [| split].
  - intros remote local Hr Hl. split; [reflexivity |].
    unfold validTime, ES.maxTime in Hr, Hl.
    destruct (toDouble_near (remote - local) 17280000000000000) as (Hnear & _);
      [lia | lia | reflexivity |].
    split; [exact Hnear |]. split; [apply toDouble_exact |].
    intros Hbig. destruct (toDouble_even (remote - local) ltac:(lia)) as (He & Ho).
    pose proof (Z.mod_pos_bound (remote - local) 2 ltac:(lia)) as Hm.
    destruct (Z.eq_dec ((remote - local) mod 2) 0) as [E | E].
    + rewrite (He E). exact E.
    + destruct (Ho ltac:(lia)) as (_ & H4). Z.to_euclidean_division_equations. lia.
  - intros ntpTime localTime [Hn | Hl].
    + destruct ntpTime; try reflexivity. exfalso; exact (Hn d eq_refl).
    + destruct localTime; try (destruct ntpTime; reflexivity).
      exfalso; exact (Hl d eq_refl).
  - intros n l [-> | ->]; [reflexivity | destruct n; reflexivity].
Qed.

Lemma calculateOffset_spec_witness :
  NTPService.calculateOffset (JDate (Some 1760443205000)) (JDate (Some 1760443200000))
    = Ok (Some 5000) /\
  NTPService.calculateOffset (JDate (Some 8640000000000000))
    (JDate (Some (- 8639999999999999)))
    = Ok (Some 17280000000000000) /\
  NTPService.calculateOffset (JString "invalid") (JDate (Some 1760443200000))
    = Throw (Error "Invalid date objects provided for offset calculation") /\
  NTPService.calculateOffset (JDate (Some 1760443200000)) (JDate InvalidDate) = Ok NaN.
Proof.
  destruct calculateOffset_spec as (Hvalid & Hother & Hnan).
  split; [| split; [| split]].
  - destruct (Hvalid 1760443205000 1760443200000) as (E & _); [unfold validTime, ES.maxTime; lia | unfold validTime, ES.maxTime; lia |].
    exact E.
  - destruct (Hvalid 8640000000000000 (- 8639999999999999)) as (E & _);
      [unfold validTime, ES.maxTime; lia | unfold validTime, ES.maxTime; lia |].
    exact E.
  - apply Hother. left. intros d Hd. discriminate Hd.
  - apply Hnan. right. reflexivity.
Defined.

(** ** Week numbers *)

Ltac week_of_day H :=
  destruct H as (Hy & Hm & Hd);
  unfold TimeController.getWeekNumber;
  rewrite Hy, Hm, Hd; vm_compute; reflexivity.

(** C6: [getWeekNumber] meets the ISO-8601 test vectors: a Date that shows
    2025-01-01 gives week 1, 2025-01-06 gives week 2, 2025-10-14 gives week
    42, and 2025-12-29 gives week 1 (of 2026). *)
Theorem getWeekNumber_test_vectors (h : Host) (date : Date) :
  (localDay h date 2025 1 1 -> TimeController.getWeekNumber h date = Some 1) /\
  (localDay h date 2025 1 6 -> TimeController.getWeekNumber h date = Some 2) /\
  (localDay h date 2025 10 14 -> TimeController.getWeekNumber h date = Some 42) /\
  (localDay h date 2025 12 29 -> TimeController.getWeekNumber h date = Some 1).
Proof.
  repeat split; intros H; week_of_day H.
Qed.

Lemma getWeekNumber_test_vectors_witness :
  TimeController.getWeekNumber (utcHost []) (Some (utcMidnight 2025 1 1)) = Some 1 /\
  TimeController.getWeekNumber (utcHost []) (Some (utcMidnight 2025 1 6)) = Some 2 /\
  TimeController.getWeekNumber (utcHost []) (Some (utcMidnight 2025 10 14)) = Some 42 /\
  TimeController.getWeekNumber (utcHost []) (Some (utcMidnight 2025 12 29)) = Some 1.
Proof.
  split; [| split; [| split]].
  - destruct (getWeekNumber_test_vectors (utcHost []) (Some (utcMidnight 2025 1 1)))
      as (H & _). apply H. repeat split; reflexivity.
  - destruct (getWeekNumber_test_vectors (utcHost []) (Some (utcMidnight 2025 1 6)))
      as (_ & H & _). apply H. repeat split; reflexivity.
  - destruct (getWeekNumber_test_vectors (utcHost []) (Some (utcMidnight 2025 10 14)))
      as (_ & _ & H & _). apply H. repeat split; reflexivity.
  - destruct (getWeekNumber_test_vectors (utcHost []) (Some (utcMidnight 2025 12 29)))
      as (_ & _ & _ & H). apply H. repeat split; reflexivity.
Defined.

(** C2 (the code departs from the claim): on a host whose zones are all UTC,
    for the instant 2025-12-29T00:00:00Z, [getWeekNumberForTimezone]
    answers 53 where the ISO rule of [getWeekNumber] answers 1; for
    2025-01-05 (a Sunday, ISO week 1) it answers 2. *)
Theorem getWeekNumberForTimezone_not_iso :
  WorldClockManager.getWeekNumberForTimezone exampleHost (Some (utcMidnight 2025 12 29)) "UTC"
    = Some 53 /\
  TimeController.getWeekNumber exampleHost (Some (utcMidnight 2025 12 29)) = Some 1 /\
  WorldClockManager.getWeekNumberForTimezone exampleHost (Some (utcMidnight 2025 1 5)) "UTC"
    = Some 2 /\
  TimeController.getWeekNumber exampleHost (Some (utcMidnight 2025 1 5)) = Some 1.
Proof. vm_compute. repeat split; reflexivity. Qed.

(** ** Time formatting *)

Lemma pad2_table :
  forallb (fun k => String.eqb (padStart (Number_toString (Some (Z.of_nat k))) 2 "0")
                               (twoDigits (Z.of_nat k)))
          (seq 0 100) = true.
Proof. vm_compute. reflexivity. Qed.

(** Padding the decimal form of a number below 100 to two places gives its
    two digits. *)
Lemma padStart_twoDigits (n : Z) :
  0 <= n < 100 -> padStart (Number_toString (Some n)) 2 "0" = twoDigits n.
Proof.
  intros Hn.
  pose proof pad2_table as T. rewrite forallb_forall in T.
  specialize (T (Z.to_nat n)).
  rewrite Z2Nat.id in T by lia.
  apply String.eqb_eq, T, in_seq. lia.
Qed.

Lemma localClock_range h date H M S :
  localClock h date H M S -> 0 <= H < 24 /\ 0 <= M < 60 /\ 0 <= S < 60.
Proof.
  intros (HH & HM & HS). destruct date as [t|]; [| discriminate HH].
  unfold DateAPI.getHours, DateAPI.getMinutes, DateAPI.getSeconds, num1 in *.
  injection HH as <-. injection HM as <-. injection HS as <-.
  unfold ES.HourFromTime, ES.MinFromTime, ES.SecFromTime.
  repeat split; apply Z.mod_pos_bound; lia.
Qed.

(** C7: for a Date that shows the wall-clock time H:M:S, [formatTime] gives
    the meridiem "AM" for hours 0..11 and "PM" otherwise in 12-hour mode
    (the hour shown being H mod 12, with 0 shown as 12), the empty meridiem
    and the raw hour in 24-hour mode, every field zero-padded to two digits,
    and the seconds appended exactly when [showSeconds] is set.  14:30:45 in
    12-hour mode with seconds is "02:30:45" with meridiem "PM". *)
Theorem formatTime_spec (h : Host) (s : TimeController.State) (prefs : Settings)
    (date : Date) (H M S : Z) :
  localClock h date H M S ->
  TimeController.ampm (TimeController.formatTime h s prefs date)
    = specMeridiem (use24HourFormat prefs) H /\
  TimeController.timeString (TimeController.formatTime h s prefs date)
    = specTimeString (use24HourFormat prefs) (showSeconds prefs) H M S /\
  (H = 14 -> M = 30 -> S = 45 ->
   use24HourFormat prefs = false -> showSeconds prefs = true ->
   TimeController.timeString (TimeController.formatTime h s prefs date) = "02:30:45"%string /\
   TimeController.ampm (TimeController.formatTime h s prefs date) = "PM"%string).
Proof.
  intros Hc. pose proof (localClock_range _ _ _ _ _ Hc) as (RH & RM & RS).
  destruct Hc as (HH & HM & HS).
  assert (Hampm : TimeController.ampm (TimeController.formatTime h s prefs date)
                  = specMeridiem (use24HourFormat prefs) H).
  { unfold TimeController.formatTime, specMeridiem, meridiem. cbn [TimeController.ampm].
    rewrite HH. destruct (use24HourFormat prefs); cbn; [reflexivity |].
    destruct (Z.leb_spec 12 H), (Z.leb_spec 0 H), (Z.leb_spec H 11); cbn; try reflexivity; lia. }
  assert (Hstr : TimeController.timeString (TimeController.formatTime h s prefs date)
                 = specTimeString (use24HourFormat prefs) (showSeconds prefs) H M S).
  { unfold TimeController.formatTime, specTimeString, hourOn12.
    cbn [TimeController.timeString]. rewrite HH, HM, HS.
    rewrite (padStart_twoDigits M), (padStart_twoDigits S) by lia.
    destruct (use24HourFormat prefs), (showSeconds prefs);
      cbn [negb num1 TimeController.num_is]; cbv zeta.
    1, 2: rewrite (padStart_twoDigits H) by lia;
      unfold twoDigits; cbn [String.append]; reflexivity.
    all: rewrite Z.rem_mod_nonneg by lia;
      destruct (Z.eqb_spec (H mod 12) 0);
      [ rewrite (padStart_twoDigits 12) by lia
      | rewrite (padStart_twoDigits (H mod 12))
          by (pose proof (Z.mod_pos_bound H 12); lia) ];
      unfold twoDigits; cbn [String.append]; reflexivity. }
  split; [exact Hampm | split; [exact Hstr |]].
  intros -> -> -> H24 Hsec. rewrite Hstr, Hampm, H24, Hsec. split; reflexivity.
Qed.

Lemma formatTime_spec_witness :
  localClock exampleHost (Some (utcTime 2025 10 14 14 30 45)) 14 30 45 /\
  TimeController.timeString
    (TimeController.formatTime exampleHost TimeController.constructor
       {| showSeconds := true; use24HourFormat := false |}
       (Some (utcTime 2025 10 14 14 30 45)))
    = "02:30:45"%string /\
  TimeController.ampm
    (TimeController.formatTime exampleHost TimeController.constructor
       {| showSeconds := true; use24HourFormat := false |}
       (Some (utcTime 2025 10 14 14 30 45)))
    = "PM"%string.
Proof.
  assert (Hc : localClock exampleHost (Some (utcTime 2025 10 14 14 30 45)) 14 30 45)
    by (repeat split; reflexivity).
  split; [exact Hc |].
  destruct (formatTime_spec exampleHost TimeController.constructor
              {| showSeconds := true; use24HourFormat := false |}
              (Some (utcTime 2025 10 14 14 30 45)) 14 30 45 Hc)
    as (_ & _ & Hex).
  apply Hex; reflexivity.
Defined.

(** ** Invalid instants *)

(** C5 (as stated, refuted): for an invalid Date, [formatTime] and
    [formatDate] return ordinary results whose text is built from NaN and
    undefined, not a placeholder result. *)
Lemma formatTime_invalid_counterexample :
  TimeController.timeString
    (TimeController.formatTime exampleHost TimeController.constructor
       {| showSeconds := true; use24HourFormat := false |} InvalidDate)
    = "NaN:NaN:NaN"%string /\
  TimeController.ampm
    (TimeController.formatTime exampleHost TimeController.constructor
       {| showSeconds := true; use24HourFormat := false |} InvalidDate)
    = "AM"%string /\
  TimeController.dateString (TimeController.formatDate exampleHost InvalidDate)
    = "undefined, NaN undefined, NaN, week NaN"%string.
Proof. repeat split; reflexivity. Qed.

(** C5 (amended): for an invalid Date, [formatTime] and [formatDate] do
    not raise: [formatTime] returns a result without an error mark whose
    time string is "NaN:NaN" (with ":NaN" appended when seconds are shown)
    and whose meridiem is "AM" in 12-hour mode; [formatDate] returns the
    date string "undefined, NaN undefined, NaN, week NaN" with NaN and
    undefined fields.  Of the per-zone operations, [getTimeForTimezone]
    does not raise either: it returns its fallback result, with NaN fields
    and no error mark; [formatDateForTimezone] raises, it rethrows the
    RangeError of [Intl].  The per-clock update is given no instant, it
    reads the clock, which is valid: it stores the '--' placeholder result
    with [isError] set when the time zone of the clock is unsupported, and
    a result with [isError] false when it is supported. *)
Theorem formatting_of_invalid_instant (h : Host) (s : TimeController.State)
    (prefs : Settings) (worldClock : WorldClockManager.WorldClock)
    (timezone : string) (t : Z) :
  TimeController.formatTime h s prefs InvalidDate
    = {| TimeController.timeString :=
           if showSeconds prefs then "NaN:NaN:NaN" else "NaN:NaN";
         TimeController.ampm := if use24HourFormat prefs then "" else "AM";
         TimeController.ft_showSeconds := showSeconds prefs;
         TimeController.ft_use24Hour := use24HourFormat prefs;
         TimeController.ft_isNTPSynced := TimeController.isNTPSynced s;
         TimeController.lastSync := TimeController.lastSyncTime s |} /\
  TimeController.formatDate h InvalidDate
    = {| TimeController.dateString := "undefined, NaN undefined, NaN, week NaN";
         TimeController.dayName := None;
         TimeController.day := NaN;
         TimeController.monthName := None;
         TimeController.year := NaN;
         TimeController.weekNumber := NaN;
         TimeController.fullDate := InvalidDate |} /\
  WorldClockManager.getTimeForTimezone h InvalidDate timezone
    = Ok {| WorldClockManager.hours := NaN;
            WorldClockManager.hours12 := NaN;
            WorldClockManager.minutes := NaN;
            WorldClockManager.seconds := NaN;
            WorldClockManager.ampm := "AM";
            WorldClockManager.timezone := timezone;
            WorldClockManager.isError := false;
            WorldClockManager.isFallback := true;
            WorldClockManager.errorMessage := None |} /\
  WorldClockManager.formatDateForTimezone h InvalidDate timezone
    = Throw (RangeError (if zoneSupported h timezone
                         then "Invalid time value"
                         else "Invalid time zone specified: " +:+ timezone)) /\
  (zoneSupported h (WorldClockManager.wc_timezone worldClock) = false ->
   WorldClockManager.updateWorldClockTime h worldClock (Some t)
   = WorldClockManager.set_timeData worldClock WorldClockManager.errorCells) /\
  (zoneSupported h (WorldClockManager.wc_timezone worldClock) = true ->
   exists cells,
     WorldClockManager.timeData
       (WorldClockManager.updateWorldClockTime h worldClock (Some t)) = Some cells /\
     WorldClockManager.c_isError cells = false) /\
  WorldClockManager.c_isError WorldClockManager.errorCells = true /\
  WorldClockManager.c_hours WorldClockManager.errorCells = WorldClockManager.Str "--".
Proof.
  split; [| split; [| split; [| split; [| split; [| split; [| split]]]]]];
    try reflexivity.
  - unfold TimeController.formatTime. cbn.
    destruct (use24HourFormat prefs), (showSeconds prefs); reflexivity.
  - unfold WorldClockManager.getTimeForTimezone, Intl.DateTimeFormat.
    destruct (zoneSupported h timezone); reflexivity.
  - unfold WorldClockManager.formatDateForTimezone, Intl.DateTimeFormat.
    destruct (zoneSupported h timezone); reflexivity.
  - intros Hzone.
    unfold WorldClockManager.updateWorldClockTime,
      WorldClockManager.getTimeForTimezone, WorldClockManager.formatDateForTimezone,
      Intl.DateTimeFormat.
    rewrite Hzone. cbn [bind try_catch].
    destruct (WorldClockManager.getFallbackTimeForTimezone h (Some t)
                (WorldClockManager.wc_timezone worldClock)); reflexivity.
  - intros Hzone.
    unfold WorldClockManager.updateWorldClockTime,
      WorldClockManager.getTimeForTimezone, WorldClockManager.formatDateForTimezone,
      Intl.DateTimeFormat, Intl.formatToParts.
    rewrite Hzone. cbn [bind try_catch].
    destruct (WorldClockManager.to12Hour _) as [hours12 ampm].
    cbn [bind try_catch]. eexists. split; reflexivity.
Qed.

(** ** Unsupported time zones *)




(** ** The sync engine *)

Lemma prefix_append (n s t : string) :
  String.prefix n s = true -> String.prefix n (s +:+ t) = true.
Proof.
  revert s. induction n as [| a n IH]; intros s Hp;
    [destruct (s +:+ t); reflexivity |].
  destruct s as [| b s]; [discriminate Hp |].
  change (String b s +:+ t) with (String b (s +:+ t)).
  simpl in Hp |- *.
  destruct (ascii_dec a b); [apply IH; exact Hp | discriminate Hp].
Qed.

Lemma includes_append (s t n : string) :
  includes s n = true -> includes (s +:+ t) n = true.
Proof.
  induction s as [| c s IH]; cbn [includes String.append]; intros Hi.
  - apply orb_true_iff in Hi as [Hp | Hf]; [| discriminate Hf].
    destruct n; [| discriminate Hp]. destruct t; reflexivity.
  - apply orb_true_iff in Hi as [Hp | Hr]; apply orb_true_iff.
    + left. exact (prefix_append n (String c s) t Hp).
    + right. apply IH. exact Hr.
Qed.

Lemma parseTimeString_valid h timeString d :
  NTPService.parseTimeString h timeString = Ok d -> exists t, d = Some t.
Proof.
  unfold NTPService.parseTimeString.
  destruct timeString as [[| c r] |]; try discriminate.
  destruct (DateAPI.getTime (parseDate h (String c r))) as [t |] eqn:E; [| discriminate].
  intros [= <-]. exists t. exact E.
Qed.

Lemma fetchTimeFromEndpoint_valid h reply type d :
  type <> "timezonedb"%string ->
  NTPService.fetchTimeFromEndpoint h reply type = Ok d -> exists t, d = Some t.
Proof.
  intros Hty. unfold NTPService.fetchTimeFromEndpoint, try_catch.
  destruct reply as [e | ok st txt json].
  - destruct (String.eqb (name e) "AbortError"); discriminate.
  - destruct (negb ok).
    + destruct (String.eqb _ "AbortError"); discriminate.
    + destruct json as [data | e]; cbn [bind].
      * destruct (NTPService.parseTimeResponse h data type) as [d' | e] eqn:E.
        -- intros [= <-]. unfold NTPService.parseTimeResponse in E.
           destruct (String.eqb type "worldtime");
             [exact (parseTimeString_valid _ _ _ E) |].
           destruct (String.eqb type "timeapi");
             [exact (parseTimeString_valid _ _ _ E) |].
           destruct (String.eqb_spec type "timezonedb"); [contradiction | discriminate E].
        -- destruct (String.eqb (name e) "AbortError"); discriminate.
      * destruct (String.eqb (name e) "AbortError"); discriminate.
Qed.

Lemma fetchFallbacks_valid h net endpoints lastError d :
  Forall notTimezonedb endpoints ->
  NTPService.fetchFallbacks h net endpoints lastError = Ok d -> exists t, d = Some t.
Proof.
  intros Hall. revert lastError.
  induction Hall as [| endpoint rest Hnot _ IH]; intros lastError; cbn [NTPService.fetchFallbacks].
  - discriminate.
  - destruct (includes endpoint "timeapi.io") eqn:E1.
    + destruct (NTPService.fetchTimeFromEndpoint h (net endpoint) "timeapi") eqn:F;
        [| apply IH].
      intros [= <-]. eapply fetchTimeFromEndpoint_valid; [| exact F]. discriminate.
    + destruct Hnot as [Hn | Hn]; [congruence |]. rewrite Hn.
      destruct (includes endpoint "worldtimeapi.org"); [| apply IH].
      destruct (NTPService.fetchTimeFromEndpoint h (net endpoint) "worldtime") eqn:F;
        [| apply IH].
      intros [= <-]. eapply fetchTimeFromEndpoint_valid; [| exact F]. discriminate.
Qed.

Lemma fetchNTPTime_valid h s net d :
  Forall notTimezonedb (NTPService.fallbackEndpoints s) ->
  NTPService.fetchNTPTime h s net = Ok d -> exists t, d = Some t.
Proof.
  intros Hall. unfold NTPService.fetchNTPTime.
  destruct (NTPService.fetchTimeFromEndpoint h (net (NTPService.primaryEndpoint s)) "worldtime")
    eqn:F.
  - intros [= <-]. eapply fetchTimeFromEndpoint_valid; [| exact F]. discriminate.
  - apply fetchFallbacks_valid. exact Hall.
Qed.

Lemma constructor_endpoints userTimezone encodedTimezone :
  Forall notTimezonedb
    (NTPService.fallbackEndpoints (NTPService.constructor userTimezone encodedTimezone)).
Proof.
  cbn [NTPService.constructor NTPService.fallbackEndpoints].
  constructor; [| constructor; [| constructor]].
  - left. apply includes_append. vm_compute. reflexivity.
  - right. vm_compute. reflexivity.
Qed.

(** The local reference point of a sync, [new Date(before + delay)], is a
    valid date when both clock readings are. *)
Lemma adjustedLocalTime_eq (before after : Z) :
  newDateQ (toDoubleQ (inject_Z before + inject_Z (toDouble (after - before)) / 2)%Q)
  = ES.TimeClip (adjustedTime before after).
Proof.
  unfold newDateQ, toDoubleQ, adjustedTime. f_equal.
  assert (E : Qfloor ((inject_Z before + inject_Z (toDouble (after - before)) / 2) * 2)%Q
              = 2 * before + toDouble (after - before)).
  { unfold Qfloor, Qmult, Qplus, Qdiv, Qinv, inject_Z. cbn.
    Z.to_euclidean_division_equations. lia. }
  rewrite E. unfold Qtrunc, Qdiv, Qmult, Qinv, inject_Z. cbn.
  rewrite Z.mul_1_r. reflexivity.
Qed.

Lemma adjustedTime_valid (before after : Z) :
  validTime before -> validTime after -> validTime (adjustedTime before after).
Proof.
  unfold validTime, ES.maxTime, adjustedTime. intros Hb Ha.
  destruct (toDouble_near (after - before) 17280000000000000) as (Hd & Hd' & _);
    [lia | lia | reflexivity |].
  set (D := toDouble (after - before)) in *.
  destruct (toDouble_near (2 * before + D) 17280000000000000) as (Hk & Hk' & _ & Hbig);
    [lia | lia | reflexivity |].
  set (K := 2 * before + D) in *.
  assert (HT : Z.abs (toDouble K) <= 17280000000000001).
  { destruct (Z.le_gt_cases (Z.abs K) (2 ^ 53)) as [Hs | Hl].
    - rewrite (toDouble_exact K Hs). lia.
    - specialize (Hbig Hl). lia. }
  pose proof (Z.quot_rem' (toDouble K) 2) as Hqr.
  pose proof (Z.rem_bound_abs (toDouble K) 2 ltac:(lia)) as Hr.
  lia.
Qed.

Lemma adjustedLocalTime_valid (before after : Z) :
  validTime before -> validTime after ->
  newDateQ (toDoubleQ (inject_Z before + inject_Z (toDouble (after - before)) / 2)%Q)
  = Some (adjustedTime before after).
Proof.
  intros Hb Ha. rewrite adjustedLocalTime_eq.
  pose proof (adjustedTime_valid before after Hb Ha) as Hv.
  unfold ES.TimeClip. apply Z.leb_le in Hv. rewrite Hv. reflexivity.
Qed.

Ltac valid_time := unfold validTime, ES.maxTime; lia.

Lemma performSync_cases h s env :
  (snd (NTPService.performSync h s env) = false /\
   (fst (NTPService.performSync h s env) = s \/
    fst (NTPService.performSync h s env) = NTPService.handleSyncFailure s)) \/
  (snd (NTPService.performSync h s env) = true /\
   exists ntp,
     NTPService.fetchNTPTime h s (NTPService.net env) = Ok ntp /\
     fst (NTPService.performSync h s env)
     = NTPService.set_sync s
         (dsub ntp
            (newDateQ
               (toDoubleQ
                  (inject_Z (NTPService.clockBefore env)
                   + inject_Z (toDouble (NTPService.clockAfter env
                                         - NTPService.clockBefore env)) / 2)%Q)))
         (Some (Some (NTPService.clockDone env))) true).
Proof.
  unfold NTPService.performSync.
  destruct (NTPService.navigatorOnLine env); cbn [negb]; [| left; split; [| left]; reflexivity].
  destruct (NTPService.fetchNTPTime h s (NTPService.net env)) as [ntp | e]; cbn [bind].
  - right. split; [reflexivity |]. exists ntp. split; reflexivity.
  - left. split; [reflexivity |].
    destruct (NTPService.isOnlineMode s); [right | left]; reflexivity.
Qed.

Lemma syncInvariant_act h s a :
  NTPService.validAction a -> syncInvariant s -> syncInvariant (NTPService.act h s a).
Proof.
  intros Hval (Hoff & Hzero & Hend).
  destruct a as [env | | | m | | m]; cbn [NTPService.act].
  - destruct (performSync_cases h s env) as [(_ & [-> | ->]) | (_ & ntp & Hfetch & ->)].
    + repeat split; assumption.
    + unfold NTPService.handleSyncFailure, syncInvariant. cbn.
      destruct (NTPService.lastSyncTime s); repeat split; eauto; discriminate.
    + destruct (fetchNTPTime_valid h s _ ntp Hend Hfetch) as (t & ->).
      destruct Hval as (Hb & Ha & _).
      rewrite (adjustedLocalTime_valid _ _ Hb Ha).
      unfold syncInvariant. cbn. repeat split; eauto; discriminate.
  - unfold NTPService.onOnline, NTPService.startPeriodicSync, NTPService.stopPeriodicSync.
    cbn. destruct (NTPService.syncTimer s); cbn; repeat split; assumption.
  - unfold NTPService.onOffline, NTPService.stopPeriodicSync.
    cbn. destruct (NTPService.syncTimer s); cbn; repeat split; assumption.
  - unfold NTPService.startPeriodicSync, NTPService.stopPeriodicSync.
    cbn. destruct (NTPService.syncTimer s); cbn; repeat split; assumption.
  - unfold NTPService.stopPeriodicSync.
    destruct (NTPService.syncTimer s); cbn; repeat split; assumption.
  - unfold NTPService.setSyncInterval, NTPService.startPeriodicSync,
      NTPService.stopPeriodicSync.
    destruct (m <? 1); [repeat split; assumption |].
    cbn. destruct (NTPService.syncTimer s); cbn; repeat split; assumption.
Qed.

Lemma reachable_syncInvariant h s : NTPService.reachable h s -> syncInvariant s.
Proof.
  induction 1 as [userTimezone encodedTimezone | s a _ IH Hval].
  - split; [eexists; reflexivity | split; [reflexivity | apply constructor_endpoints]].
  - apply syncInvariant_act; assumption.
Qed.

(** C1 (as stated, refuted): the controller's failure handler resets the
    offset.  A controller that has synced with offset 5000 and then sees a
    sync fail holds offset 0. *)
Lemma syncWithNTP_failure_counterexample :
  TimeController.timeOffset syncedController = Some 5000 /\
  TimeController.lastSyncTime syncedController <> None /\
  TimeController.timeOffset
    (fst (TimeController.syncWithNTP syncedController
            (Throw (Error "Request timeout")) 1760444100000 1760444100000))
  = Some 0.
Proof. split; [reflexivity | split; [discriminate | reflexivity]]. Qed.

(** C1 (amended): in the sync engine ([NTPService.performSync]) a sync
    attempt that fails after an earlier success leaves the stored offset as
    it was, and in a reachable never-synced state a failure leaves it at
    zero.  The controller ([TimeController.syncWithNTP]) falls back to local
    time instead: its failure handler sets the offset to 0 and clears
    [isNTPSynced], whatever was stored. *)
Theorem sync_failure_offset :
  (forall h s env,
      NTPService.lastSyncTime s <> None ->
      snd (NTPService.performSync h s env) = false ->
      NTPService.timeOffset (fst (NTPService.performSync h s env))
      = NTPService.timeOffset s) /\
  (forall h s env,
      NTPService.reachable h s ->
      NTPService.lastSyncTime s = None ->
      snd (NTPService.performSync h s env) = false ->
      NTPService.timeOffset (fst (NTPService.performSync h s env)) = Some 0) /\
  (forall s fetched clock1 clock2 error,
      snd (TimeController.syncWithNTP s fetched clock1 clock2) = Throw error ->
      TimeController.timeOffset (fst (TimeController.syncWithNTP s fetched clock1 clock2))
      = Some 0 /\
      TimeController.isNTPSynced (fst (TimeController.syncWithNTP s fetched clock1 clock2))
      = false).
Proof.
  split; [| split].
  - intros h s env Hsynced Hfail.
    destruct (performSync_cases h s env) as [(_ & [-> | ->]) | (Hok & _)].
    + reflexivity.
    + unfold NTPService.handleSyncFailure. cbn.
      destruct (NTPService.lastSyncTime s); [reflexivity | contradiction].
    + congruence.
  - intros h s env Hreach Hnever Hfail.
    destruct (reachable_syncInvariant h s Hreach) as (_ & Hzero & _).
    destruct (performSync_cases h s env) as [(_ & [-> | ->]) | (Hok & _)].
    + exact (Hzero Hnever).
    + unfold NTPService.handleSyncFailure. cbn. rewrite Hnever. reflexivity.
    + congruence.
  - intros s fetched clock1 clock2 error. unfold TimeController.syncWithNTP.
    destruct fetched as [ntpTime | e]; cbn; [discriminate |].
    intros _. split; reflexivity.
Qed.

Lemma sync_failure_offset_witness :
  NTPService.timeOffset
    (fst (NTPService.performSync parsingHost
            (fst (NTPService.performSync parsingHost
                    (NTPService.constructor "Europe/London" "Europe%2FLondon") goodNetwork))
            deadNetwork))
  = Some 5000 /\
  NTPService.timeOffset
    (fst (NTPService.performSync parsingHost
            (NTPService.constructor "Europe/London" "Europe%2FLondon") deadNetwork))
  = Some 0 /\
  TimeController.timeOffset
    (fst (TimeController.syncWithNTP syncedController
            (Throw (Error "Request timeout")) 1760444100000 1760444100000))
  = Some 0.
Proof.
  destruct sync_failure_offset as (Hkeep & Hnever & Hcontroller).
  split; [| split].
  - rewrite (Hkeep parsingHost
               (fst (NTPService.performSync parsingHost
                       (NTPService.constructor "Europe/London" "Europe%2FLondon") goodNetwork))
               deadNetwork);
      [vm_compute; reflexivity | vm_compute; discriminate | vm_compute; reflexivity].
  - apply Hnever; [constructor | reflexivity | vm_compute; reflexivity].
  - apply (Hcontroller syncedController (Throw (Error "Request timeout"))
             1760444100000 1760444100000 (Error "Request timeout")).
    reflexivity.
Defined.



(** C10 (as stated, refuted): the state that the constructor leaves is
    reachable; there the status reports [isUsingNTPTime] although no sync
    has happened, and [getCurrentTime] returns the raw local time.  After
    an offline event, still without a sync, the status no longer reports
    [isUsingNTPTime], although the time returned is, as before, the local
    time plus the stored offset. *)
Lemma isUsingNTPTime_counterexample :
  let s := NTPService.constructor "Europe/London" "Europe%2FLondon" in
  let s' := NTPService.act parsingHost s NTPService.OfflineEvent in
  NTPService.reachable parsingHost s /\
  NTPService.isUsingNTPTime (NTPService.getSyncStatus s) = true /\
  NTPService.status_lastSyncTime (NTPService.getSyncStatus s) = None /\
  NTPService.getCurrentTime s 1760443260000 = Some 1760443260000 /\
  NTPService.reachable parsingHost s' /\
  NTPService.isUsingNTPTime (NTPService.getSyncStatus s') = false /\
  NTPService.getCurrentTime s' 1760443260000
  = DateAPI.newDate
      (nadd (Some 1760443260000)
         (NTPService.status_timeOffset (NTPService.getSyncStatus s'))).
Proof.
  cbv zeta. split; [constructor |]. split; [reflexivity |]. split; [reflexivity |].
  split; [reflexivity |].
  split; [apply NTPService.reach_step; [constructor | exact I] |].
  split; reflexivity.
Qed.

(** C10 (amended): in every reachable state [getCurrentTime] and
    [getSyncStatus] branch on the same condition, online mode or a
    recorded sync.  When the status reports [isUsingNTPTime], the time
    returned is the local time plus the offset that the status reports;
    when it does not, the time returned is the local time, the reported
    offset is 0 and no sync is recorded.  So the time returned is the
    local time plus the reported offset in both cases, and it is the raw
    local time as long as no sync is recorded, whatever the status
    reports. *)
Theorem getCurrentTime_getSyncStatus_consistent (h : Host) (s : NTPService.State)
    (now : Z) :
  NTPService.reachable h s ->
  validTime now ->
  let status := NTPService.getSyncStatus s in
  NTPService.isUsingNTPTime status
  = NTPService.isOnline status
    || bool_decide (NTPService.status_lastSyncTime status <> None) /\
  (NTPService.isUsingNTPTime status = true ->
   NTPService.getCurrentTime s now
   = DateAPI.newDate (nadd (Some now) (NTPService.status_timeOffset status))) /\
  (NTPService.isUsingNTPTime status = false ->
   NTPService.getCurrentTime s now = Some now /\
   NTPService.status_timeOffset status = Some 0 /\
   NTPService.status_lastSyncTime status = None) /\
  (exists offset,
      NTPService.status_timeOffset status = Some offset /\
      NTPService.getCurrentTime s now = ES.TimeClip (now + offset)) /\
  (NTPService.status_lastSyncTime status = None ->
   NTPService.getCurrentTime s now = Some now).
Proof.
  intros Hreach Hnow status. subst status.
  destruct (reachable_syncInvariant h s Hreach) as ((offset & Hoff) & Hzero & _).
  assert (Hclip : ES.TimeClip now = Some now).
  { unfold ES.TimeClip. apply Z.leb_le in Hnow. rewrite Hnow. reflexivity. }
  unfold NTPService.getCurrentTime, NTPService.getSyncStatus.
  cbn [NTPService.isUsingNTPTime NTPService.status_timeOffset NTPService.isOnline
       NTPService.status_lastSyncTime DateAPI.getTime].
  split; [reflexivity |].
  destruct (NTPService.isOnlineMode s) eqn:Hmode; cbn [orb].
  - split; [reflexivity |]. split; [discriminate |]. split.
    + exists offset. split; [exact Hoff |]. rewrite Hoff. reflexivity.
    + intros Hnever. rewrite (Hzero Hnever). cbn. rewrite Z.add_0_r. exact Hclip.
  - destruct (NTPService.lastSyncTime s) as [last |] eqn:Hlast.
    + rewrite bool_decide_eq_true_2 by discriminate.
      split; [reflexivity |]. split; [discriminate |]. split.
      * exists offset. split; [exact Hoff |]. rewrite Hoff. reflexivity.
      * discriminate.
    + rewrite bool_decide_eq_false_2 by (intros H; apply H; reflexivity).
      split; [discriminate |].
      split; [intros _; split; [reflexivity | split; [apply Hzero |]]; reflexivity |].
      split; [| reflexivity].
      exists 0. split; [apply Hzero; reflexivity |].
      rewrite Z.add_0_r. symmetry. exact Hclip.
Qed.

Lemma getCurrentTime_getSyncStatus_consistent_witness :
  NTPService.getCurrentTime
    (NTPService.act parsingHost (NTPService.constructor "Europe/London" "Europe%2FLondon")
       (NTPService.SyncCompletes goodNetwork))
    1760443260000
  = Some 1760443265000 /\
  NTPService.getCurrentTime (NTPService.constructor "Europe/London" "Europe%2FLondon")
    1760443260000
  = Some 1760443260000.
Proof.
  assert (Hnow : validTime 1760443260000) by valid_time.
  split.
  - assert (Hreach : NTPService.reachable parsingHost
              (NTPService.act parsingHost
                 (NTPService.constructor "Europe/London" "Europe%2FLondon")
                 (NTPService.SyncCompletes goodNetwork))).
    { apply NTPService.reach_step; [constructor |].
      unfold NTPService.validAction, NTPService.validEnv. cbn.
      repeat split; valid_time. }
    destruct (getCurrentTime_getSyncStatus_consistent parsingHost _ 1760443260000
                Hreach Hnow) as (_ & Hntp & _).
    rewrite Hntp; vm_compute; reflexivity.
  - destruct (getCurrentTime_getSyncStatus_consistent parsingHost
                (NTPService.constructor "Europe/London" "Europe%2FLondon")
                1760443260000 (NTPService.reach_init _ _ _) Hnow) as (_ & _ & _ & _ & Hraw).
    apply Hraw. reflexivity.
Defined.

(** ** The world-clock array *)

Lemma ListNoDup_snoc {A} (l : list A) (a : A) :
  List.NoDup l -> ~ In a l -> List.NoDup (l ++ [a]).
Proof.
  induction 1 as [| x l Hx Hl IH]; intros Ha; cbn.
  - constructor; [intros [] | constructor].
  - constructor.
    + rewrite in_app_iff. intros [Hin | [-> | []]]; [exact (Hx Hin) |].
      apply Ha. left. reflexivity.
    + apply IH. intros Hin. apply Ha. right. exact Hin.
Qed.

Lemma ListNoDup_map_filter {A B} (f : A -> B) (p : A -> bool) (l : list A) :
  List.NoDup (map f l) -> List.NoDup (map f (List.filter p l)).
Proof.
  induction l as [| x l IH]; cbn; intros Hnd; [constructor |].
  inversion Hnd as [| y ys Hx Hl]; subst.
  destruct (p x); cbn; [constructor | apply IH; exact Hl].
  - intros Hin. apply Hx. apply in_map_iff in Hin as (z & Hz & Hin).
    apply filter_In in Hin as (Hin & _). apply in_map_iff. exists z. split; assumption.
  - apply IH. exact Hl.
Qed.

Lemma filter_length_bound {A} (p : A -> bool) (l : list A) :
  (length (List.filter p l) <= length l)%nat.
Proof.
  induction l as [| x l IH]; cbn; [lia |]. destruct (p x); cbn; lia.
Qed.

Lemma clockInvariant_filter p worldClocks :
  clockInvariant worldClocks -> clockInvariant (List.filter p worldClocks).
Proof.
  intros (Hlen & Hnd). split.
  - pose proof (filter_length_bound p worldClocks). lia.
  - apply ListNoDup_map_filter. exact Hnd.
Qed.

Lemma existsb_timezone worldClocks timezone :
  existsb (fun wc => String.eqb (WorldClockManager.wc_timezone wc) timezone) worldClocks = true
  <-> In timezone (map WorldClockManager.wc_timezone worldClocks).
Proof.
  rewrite existsb_exists, in_map_iff. split.
  - intros (wc & Hin & Heq). apply String.eqb_eq in Heq. exists wc. split; assumption.
  - intros (wc & Heq & Hin). exists wc. split; [exact Hin | apply String.eqb_eq; exact Heq].
Qed.

Lemma updateWorldClockTime_timezone h worldClock now :
  WorldClockManager.wc_timezone (WorldClockManager.updateWorldClockTime h worldClock now)
  = WorldClockManager.wc_timezone worldClock.
Proof.
  unfold WorldClockManager.updateWorldClockTime.
  destruct (bind _ _); reflexivity.
Qed.

Lemma clockInvariant_snoc worldClocks wc :
  (length worldClocks < 3)%nat ->
  ~ In (WorldClockManager.wc_timezone wc) (map WorldClockManager.wc_timezone worldClocks) ->
  clockInvariant worldClocks -> clockInvariant (worldClocks ++ [wc]).
Proof.
  intros Hlen Hnew (_ & Hnd). split.
  - rewrite length_app. cbn. lia.
  - rewrite map_app. cbn. apply ListNoDup_snoc; assumption.
Qed.

Lemma addWorldClock_invariant h worldClocks timezone cityName env :
  clockInvariant worldClocks ->
  clockInvariant (fst (WorldClockManager.addWorldClock h worldClocks timezone cityName env)).
Proof.
  intros Hinv. unfold WorldClockManager.addWorldClock.
  destruct (Nat.leb_spec 3 (length worldClocks)) as [| Hlen]; [exact Hinv |].
  destruct (existsb _ worldClocks) eqn:Hex; [exact Hinv |].
  assert (Hnew : ~ In timezone (map WorldClockManager.wc_timezone worldClocks)).
  { intros Hin. apply existsb_timezone in Hin. congruence. }
  destruct (negb (WorldClockManager.isValidTimezone h timezone)); [exact Hinv |].
  destruct (WorldClockManager.saved env) as [[|] | error]; cbn [fst].
  - apply clockInvariant_snoc; try assumption.
    rewrite updateWorldClockTime_timezone. exact Hnew.
  - apply clockInvariant_filter, clockInvariant_snoc; assumption.
  - apply clockInvariant_snoc; assumption.
Qed.

Lemma removeWorldClock_invariant worldClocks id saved :
  clockInvariant worldClocks ->
  clockInvariant (fst (WorldClockManager.removeWorldClock worldClocks id saved)).
Proof.
  intros Hinv. unfold WorldClockManager.removeWorldClock.
  destruct saved; cbn [fst]; apply clockInvariant_filter; exact Hinv.
Qed.

Lemma fold_apply_invariant h ops worldClocks :
  clockInvariant worldClocks ->
  clockInvariant (fold_left (WorldClockManager.apply h) ops worldClocks).
Proof.
  revert worldClocks. induction ops as [| op ops IH]; intros worldClocks Hinv; [exact Hinv |].
  cbn [fold_left]. apply IH. destruct op; cbn [WorldClockManager.apply].
  - apply addWorldClock_invariant. exact Hinv.
  - apply removeWorldClock_invariant. exact Hinv.
Qed.

(** C9: after every sequence of [addWorldClock] and [removeWorldClock]
    calls from the empty array, the array has at most three clocks and no
    time-zone identifier twice; and [addWorldClock] returns false, leaving
    the array as it is, when the array already has three clocks or already
    has the given time zone. *)
Theorem worldClocks_invariant (h : Host) (ops : list WorldClockManager.Op) :
  (length (WorldClockManager.run h ops) <= 3)%nat /\
  List.NoDup (map WorldClockManager.wc_timezone (WorldClockManager.run h ops)) /\
  (forall timezone cityName env,
      (3 <= length (WorldClockManager.run h ops))%nat \/
      In timezone (map WorldClockManager.wc_timezone (WorldClockManager.run h ops)) ->
      WorldClockManager.addWorldClock h (WorldClockManager.run h ops) timezone cityName env
      = (WorldClockManager.run h ops, None)).
Proof.
  assert (Hinv : clockInvariant (WorldClockManager.run h ops)).
  { apply fold_apply_invariant. split; [cbn; lia | constructor]. }
  destruct Hinv as (Hlen & Hnd). split; [exact Hlen | split; [exact Hnd |]].
  intros timezone cityName env Hfull. unfold WorldClockManager.addWorldClock.
  destruct (Nat.leb_spec 3 (length (WorldClockManager.run h ops))) as [| Hlt]; [reflexivity |].
  destruct Hfull as [Hge | Hin]; [lia |].
  apply existsb_timezone in Hin. rewrite Hin. reflexivity.
Qed.

Lemma worldClocks_invariant_witness :
  WorldClockManager.addWorldClock exampleHost
    (WorldClockManager.run exampleHost
       [WorldClockManager.Add "UTC" None (accepted "wc_1")])
    "UTC" (Some "Greenwich"%string) (accepted "wc_2")
  = (WorldClockManager.run exampleHost
       [WorldClockManager.Add "UTC" None (accepted "wc_1")], None).
Proof.
  destruct (worldClocks_invariant exampleHost
              [WorldClockManager.Add "UTC" None (accepted "wc_1")]) as (_ & _ & Hreject).
  apply Hreject. right. vm_compute. left. reflexivity.
Defined.

(** * Further properties of the sync engine *)

Lemma act_endpoints h s a :
  NTPService.primaryEndpoint (NTPService.act h s a) = NTPService.primaryEndpoint s /\
  NTPService.fallbackEndpoints (NTPService.act h s a) = NTPService.fallbackEndpoints s.
Proof.
  destruct a as [env | | | m | | m]; cbn [NTPService.act].
  - destruct (performSync_cases h s env) as [(_ & [-> | ->]) | (_ & ntp & _ & ->)];
      split; reflexivity.
  - unfold NTPService.onOnline, NTPService.startPeriodicSync, NTPService.stopPeriodicSync.
    cbn. destruct (NTPService.syncTimer s); split; reflexivity.
  - unfold NTPService.onOffline, NTPService.stopPeriodicSync.
    cbn. destruct (NTPService.syncTimer s); split; reflexivity.
  - unfold NTPService.startPeriodicSync, NTPService.stopPeriodicSync.
    cbn. destruct (NTPService.syncTimer s); split; reflexivity.
  - unfold NTPService.stopPeriodicSync. destruct (NTPService.syncTimer s); split; reflexivity.
  - unfold NTPService.setSyncInterval, NTPService.startPeriodicSync,
      NTPService.stopPeriodicSync.
    destruct (m <? 1); [split; reflexivity |].
    cbn. destruct (NTPService.syncTimer s); split; reflexivity.
Qed.

Lemma reachable_endpoints h s :
  NTPService.reachable h s ->
  exists userTimezone encodedTimezone,
    NTPService.primaryEndpoint s
    = NTPService.primaryEndpoint (NTPService.constructor userTimezone encodedTimezone) /\
    NTPService.fallbackEndpoints s
    = NTPService.fallbackEndpoints (NTPService.constructor userTimezone encodedTimezone).
Proof.
  induction 1 as [userTimezone encodedTimezone | s a _ (tz & enc & Hp & Hf) _].
  - exists userTimezone, encodedTimezone. split; reflexivity.
  - exists tz, enc. destruct (act_endpoints h s a) as (-> & ->). split; assumption.
Qed.

(** X1: Failover order of [fetchNTPTime]: in every reachable state there are two
    fallback endpoints; the primary endpoint is read as a worldtime answer,
    the first fallback as a timeapi answer, the second as a worldtime
    answer; the first one that yields a time wins and the later ones do not
    matter; when all three fail, the error thrown carries the message of the
    last endpoint's error. *)
Theorem fetchNTPTime_failover (h : Host) (s : NTPService.State)
    (net : string -> NTPService.FetchReply) :
  NTPService.reachable h s ->
  exists timeapi utc,
    NTPService.fallbackEndpoints s = [timeapi; utc] /\
    NTPService.fetchNTPTime h s net
    = match NTPService.fetchTimeFromEndpoint h (net (NTPService.primaryEndpoint s)) "worldtime" with
      | Ok d => Ok d
      | Throw _ =>
          match NTPService.fetchTimeFromEndpoint h (net timeapi) "timeapi" with
          | Ok d => Ok d
          | Throw _ =>
              match NTPService.fetchTimeFromEndpoint h (net utc) "worldtime" with
              | Ok d => Ok d
              | Throw e =>
                  Throw (Error ("All time endpoints failed. Last error: "
                                +:+ NTPService.lastMessage (Some e)))
              end
          end
      end.
Proof.
  intros Hreach. destruct (reachable_endpoints h s Hreach) as (tz & enc & _ & Hf).
  cbn [NTPService.constructor NTPService.fallbackEndpoints] in Hf.
  eexists _, _. split; [exact Hf |].
  unfold NTPService.fetchNTPTime. rewrite Hf.
  destruct (NTPService.fetchTimeFromEndpoint h (net (NTPService.primaryEndpoint s)) "worldtime");
    [reflexivity |].
  cbn [NTPService.fetchFallbacks].
  rewrite (includes_append "https://timeapi.io/api/Time/current/zone?timeZone=" enc
             "timeapi.io") by (vm_compute; reflexivity).
  destruct (NTPService.fetchTimeFromEndpoint h (net _) "timeapi"); [reflexivity |].
  replace (includes "https://worldtimeapi.org/api/timezone/Etc/UTC" "timeapi.io")
    with false by (vm_compute; reflexivity).
  replace (includes "https://worldtimeapi.org/api/timezone/Etc/UTC" "timezonedb.com")
    with false by (vm_compute; reflexivity).
  replace (includes "https://worldtimeapi.org/api/timezone/Etc/UTC" "worldtimeapi.org")
    with true by (vm_compute; reflexivity).
  destruct (NTPService.fetchTimeFromEndpoint h (net _) "worldtime"); reflexivity.
Qed.

Lemma fetchNTPTime_failover_witness :
  NTPService.fetchNTPTime parsingHost
    (NTPService.constructor "Europe/London" "Europe%2FLondon")
    (NTPService.net deadNetwork)
  = Throw (Error "All time endpoints failed. Last error: Failed to fetch").
Proof.
  destruct (fetchNTPTime_failover parsingHost
              (NTPService.constructor "Europe/London" "Europe%2FLondon")
              (NTPService.net deadNetwork) (NTPService.reach_init _ _ _))
    as (timeapi & utc & _ & ->).
  reflexivity.
Defined.

(** X2: A request that times out surfaces as the error "Request timeout":
    [fetchTimeFromEndpoint] never throws an error named AbortError, whatever
    the reply; every other rejection of [fetch] is rethrown as it is. *)
Theorem fetchTimeFromEndpoint_errors (h : Host) (type : string) :
  (forall reply e,
      NTPService.fetchTimeFromEndpoint h reply type = Throw e ->
      name e <> "AbortError"%string) /\
  NTPService.fetchTimeFromEndpoint h (NTPService.Rejected AbortError) type
    = Throw (Error "Request timeout") /\
  (forall e,
      name e <> "AbortError"%string ->
      NTPService.fetchTimeFromEndpoint h (NTPService.Rejected e) type = Throw e) /\
  (forall httpStatus statusText json,
      NTPService.fetchTimeFromEndpoint h
        (NTPService.Response false httpStatus statusText json) type
      = Throw (Error ("HTTP " +:+ Z_toString httpStatus +:+ ": " +:+ statusText))).
Proof.
  split; [| split; [reflexivity | split]].
  - intros reply e. unfold NTPService.fetchTimeFromEndpoint, try_catch.
    match goal with |- context [match ?b with Ok _ => _ | Throw _ => _ end] =>
      destruct b as [d | e0] end; [discriminate |].
    destruct (String.eqb_spec (name e0) "AbortError") as [| Hne].
    + intros [= <-]. discriminate.
    + intros [= <-]. exact Hne.
  - intros e Hne. unfold NTPService.fetchTimeFromEndpoint, try_catch.
    destruct (String.eqb_spec (name e) "AbortError"); [contradiction | reflexivity].
  - intros httpStatus statusText json. reflexivity.
Qed.

Lemma fetchTimeFromEndpoint_errors_witness :
  NTPService.fetchTimeFromEndpoint parsingHost
    (NTPService.Rejected (TypeError "Failed to fetch")) "worldtime"
  = Throw (TypeError "Failed to fetch").
Proof.
  destruct (fetchTimeFromEndpoint_errors parsingHost "worldtime") as (_ & _ & Hother & _).
  apply Hother. discriminate.
Defined.

(** In a reachable state a fetch that succeeds yields a valid date. *)
Lemma reachable_fetch_valid (h : Host) (s : NTPService.State) :
  NTPService.reachable h s ->
  forall net d, NTPService.fetchNTPTime h s net = Ok d -> exists t, d = Some t.
Proof.
  intros Hreach. destruct (reachable_syncInvariant h s Hreach) as (_ & _ & Hend).
  intros net d. apply fetchNTPTime_valid. exact Hend.
Qed.

(** X3: In every reachable state the stored offset is a number of milliseconds,
    never NaN, and a fetch that succeeds yields a valid date, never an
    invalid one. *)
Theorem reachable_offset_is_number (h : Host) (s : NTPService.State) :
  NTPService.reachable h s ->
  (exists offset, NTPService.timeOffset s = Some offset) /\
  (forall net d, NTPService.fetchNTPTime h s net = Ok d -> exists t, d = Some t).
Proof.
  intros Hreach. destruct (reachable_syncInvariant h s Hreach) as (Hoff & _ & Hend).
  split; [exact Hoff |]. intros net d. apply fetchNTPTime_valid. exact Hend.
Qed.

Lemma reachable_offset_is_number_witness :
  exists offset,
    NTPService.timeOffset
      (NTPService.act parsingHost (NTPService.constructor "Europe/London" "Europe%2FLondon")
         (NTPService.SyncCompletes goodNetwork))
    = Some offset.
Proof.
  apply (reachable_offset_is_number parsingHost).
  apply NTPService.reach_step; [constructor |].
  unfold NTPService.validAction, NTPService.validEnv. cbn. repeat split; valid_time.
Defined.

(** [performSync] resolves to true exactly when the browser reports being
    online and one endpoint yields a time.  While the browser reports being
    offline the call changes nothing, whatever the network would answer. *)
Theorem performSync_result (h : Host) (s : NTPService.State) (env : NTPService.SyncEnv) :
  (snd (NTPService.performSync h s env) = true <->
   NTPService.navigatorOnLine env = true /\
   NTPService.testConnectivity h s (NTPService.net env) = true) /\
  (NTPService.navigatorOnLine env = false -> NTPService.performSync h s env = (s, false)).
Proof.
  unfold NTPService.performSync, NTPService.testConnectivity.
  destruct (NTPService.navigatorOnLine env); cbn [negb].
  - destruct (NTPService.fetchNTPTime h s (NTPService.net env)); cbn; split;
      try (intros; discriminate); split; intuition congruence.
  - split; [| reflexivity]. cbn. split; [discriminate | intros (H & _); discriminate H].
Qed.

Lemma performSync_result_witness :
  NTPService.performSync parsingHost
    (NTPService.constructor "Europe/London" "Europe%2FLondon")
    {| NTPService.navigatorOnLine := false;
       NTPService.net := NTPService.net goodNetwork;
       NTPService.clockBefore := 1760443200000;
       NTPService.clockAfter := 1760443200000;
       NTPService.clockDone := 1760443200001 |}
  = (NTPService.constructor "Europe/London" "Europe%2FLondon", false).
Proof.
  apply (performSync_result parsingHost). reflexivity.
Defined.

(** Up to 2^52 ms after the epoch (the year 144683) no rounding occurs and
    the reference point is the midpoint of the two readings, rounded
    down. *)
Lemma adjustedTime_midpoint (before after : Z) :
  0 <= before <= after -> after <= 2 ^ 52 ->
  adjustedTime before after = before + (after - before) / 2.
Proof.
  intros Hb Ha. unfold adjustedTime.
  rewrite (toDouble_exact (after - before)) by lia.
  rewrite (toDouble_exact (2 * before + (after - before))) by lia.
  Z.to_euclidean_division_equations. lia.
Qed.

(** Above 2^52 the midpoint is rounded to a double: a half goes to the even
    neighbour. *)
Example adjustedTime_tie :
  adjustedTime 4503599627370497 4503599627370498 = 4503599627370498 /\
  adjustedTime 4503599627370496 4503599627370497 = 4503599627370496.
Proof. split; reflexivity. Qed.

(** X4: A successful sync compensates for the request latency and takes effect
    at once.  The offset stored is the remote time minus the local
    reference point, as the subtraction of doubles gives it; the sync time
    is recorded, the engine is in online mode, and [getCurrentTime] then
    returns the local time plus that offset.  For clock readings
    [0 <= before <= after <= 2^52] the reference point is the midpoint
    [before + (after - before) / 2] rounded down, and for a remote time
    of at most 2^52 in magnitude the offset is exactly the remote time
    minus that midpoint. *)
Theorem performSync_success (h : Host) (s : NTPService.State) (env : NTPService.SyncEnv)
    (now : Z) :
  NTPService.reachable h s ->
  validTime (NTPService.clockBefore env) ->
  validTime (NTPService.clockAfter env) ->
  snd (NTPService.performSync h s env) = true ->
  exists remote,
    NTPService.fetchNTPTime h s (NTPService.net env) = Ok (Some remote) /\
    let reference :=
      adjustedTime (NTPService.clockBefore env) (NTPService.clockAfter env) in
    let offset := toDouble (remote - reference) in
    let s' := fst (NTPService.performSync h s env) in
    NTPService.timeOffset s' = Some offset /\
    NTPService.lastSyncTime s' = Some (Some (NTPService.clockDone env)) /\
    NTPService.isOnlineMode s' = true /\
    NTPService.getCurrentTime s' now = ES.TimeClip (now + offset) /\
    (0 <= NTPService.clockBefore env <= NTPService.clockAfter env ->
     NTPService.clockAfter env <= 2 ^ 52 ->
     reference
     = NTPService.clockBefore env
       + (NTPService.clockAfter env - NTPService.clockBefore env) / 2 /\
     (Z.abs remote <= 2 ^ 52 ->
      offset
      = remote - (NTPService.clockBefore env
                  + (NTPService.clockAfter env - NTPService.clockBefore env) / 2))).
Proof.
  intros Hreach Hbefore Hafter Hok.
  destruct (performSync_cases h s env) as [(Hf & _) | (_ & ntp & Hfetch & Hs')];
    [congruence |].
  pose proof (reachable_fetch_valid h s Hreach) as Hfv.
  destruct (Hfv _ _ Hfetch) as (remote & ->).
  exists remote. split; [exact Hfetch |].
  rewrite (adjustedLocalTime_valid _ _ Hbefore Hafter) in Hs'.
  cbv zeta. rewrite Hs'. cbn.
  split; [reflexivity |]. split; [reflexivity |]. split; [reflexivity |].
  split; [reflexivity |].
  intros Hclock H52.
  pose proof (adjustedTime_midpoint _ _ Hclock H52) as Hmid.
  split; [exact Hmid |].
  intros Hremote. rewrite Hmid. apply toDouble_exact.
  assert (0 <= (NTPService.clockAfter env - NTPService.clockBefore env) / 2
          <= NTPService.clockAfter env - NTPService.clockBefore env).
  { split; [apply Z.div_pos; lia | apply Z.div_le_upper_bound; lia]. }
  lia.
Qed.

Lemma performSync_success_witness :
  NTPService.timeOffset
    (fst (NTPService.performSync parsingHost
            (NTPService.constructor "Europe/London" "Europe%2FLondon") goodNetwork))
  = Some 5000.
Proof.
  destruct (performSync_success parsingHost
              (NTPService.constructor "Europe/London" "Europe%2FLondon") goodNetwork 0)
    as (remote & Hfetch & Hoff & _).
  - constructor.
  - cbn. valid_time.
  - cbn. valid_time.
  - vm_compute. reflexivity.
  - assert (remote = 1760443205000) as -> by (vm_compute in Hfetch; congruence).
    rewrite Hoff. vm_compute. reflexivity.
Defined.

(** X5: A failed sync is sticky and harmless: it never touches [lastSyncTime],
    it leaves the engine out of online mode when the browser reported being
    online, and a second failure after it changes nothing more. *)
Theorem performSync_failure (h : Host) (s : NTPService.State)
    (env env' : NTPService.SyncEnv) :
  snd (NTPService.performSync h s env) = false ->
  let s1 := fst (NTPService.performSync h s env) in
  NTPService.lastSyncTime s1 = NTPService.lastSyncTime s /\
  (NTPService.navigatorOnLine env = true -> NTPService.isOnlineMode s1 = false) /\
  (NTPService.navigatorOnLine env = true ->
   snd (NTPService.performSync h s1 env') = false ->
   fst (NTPService.performSync h s1 env') = s1).
Proof.
  intros Hfail s1. subst s1.
  assert (Hs1 : fst (NTPService.performSync h s env) = s /\
                (NTPService.navigatorOnLine env = true -> NTPService.isOnlineMode s = false)
                \/ fst (NTPService.performSync h s env) = NTPService.handleSyncFailure s).
  { unfold NTPService.performSync in *.
    destruct (NTPService.navigatorOnLine env); cbn [negb] in *;
      [| left; split; [reflexivity | discriminate]].
    destruct (NTPService.fetchNTPTime h s (NTPService.net env)); cbn in *;
      [discriminate |].
    destruct (NTPService.isOnlineMode s); [right | left; split]; reflexivity. }
  destruct Hs1 as [(-> & Hoff) | ->].
  - split; [reflexivity | split; [exact Hoff |]].
    intros Hnav Hfail'. specialize (Hoff Hnav).
    destruct (performSync_cases h s env') as [(_ & [E | E]) | (Hok & _)];
      [exact E | | congruence].
    unfold NTPService.performSync in *.
    destruct (NTPService.navigatorOnLine env'); cbn [negb] in *; [| reflexivity].
    destruct (NTPService.fetchNTPTime h s (NTPService.net env')); cbn in *;
      [discriminate |].
    rewrite Hoff. reflexivity.
  - split; [reflexivity | split; [reflexivity |]].
    intros _ Hfail'.
    unfold NTPService.performSync in *.
    destruct (NTPService.navigatorOnLine env'); cbn [negb] in *; [| reflexivity].
    destruct (NTPService.fetchNTPTime h (NTPService.handleSyncFailure s) (NTPService.net env'));
      cbn in *; [discriminate | reflexivity].
Qed.

Lemma performSync_failure_witness :
  NTPService.isOnlineMode
    (fst (NTPService.performSync parsingHost
            (NTPService.constructor "Europe/London" "Europe%2FLondon") deadNetwork))
  = false.
Proof.
  destruct (performSync_failure parsingHost
              (NTPService.constructor "Europe/London" "Europe%2FLondon")
              deadNetwork deadNetwork) as (_ & Hmode & _).
  - vm_compute. reflexivity.
  - apply Hmode. reflexivity.
Defined.

(** X6: Only a sync writes the offset: network events and timer operations
    leave the stored offset and the sync time as they are.  No action at all
    resets the sync time to null, so once a sync has succeeded the status
    reports [isUsingNTPTime] after every later action. *)
Theorem offset_frame (h : Host) (s : NTPService.State) (a : NTPService.Action) :
  ((forall env, a <> NTPService.SyncCompletes env) ->
   NTPService.timeOffset (NTPService.act h s a) = NTPService.timeOffset s /\
   NTPService.lastSyncTime (NTPService.act h s a) = NTPService.lastSyncTime s) /\
  (NTPService.lastSyncTime s <> None ->
   NTPService.lastSyncTime (NTPService.act h s a) <> None /\
   NTPService.isUsingNTPTime (NTPService.getSyncStatus (NTPService.act h s a)) = true).
Proof.
  assert (Hframe : (forall env, a <> NTPService.SyncCompletes env) ->
            NTPService.timeOffset (NTPService.act h s a) = NTPService.timeOffset s /\
            NTPService.lastSyncTime (NTPService.act h s a) = NTPService.lastSyncTime s).
  { intros Hns. destruct a as [env | | | m | | m]; cbn [NTPService.act].
    - exfalso. exact (Hns env eq_refl).
    - unfold NTPService.onOnline, NTPService.startPeriodicSync, NTPService.stopPeriodicSync.
      cbn. destruct (NTPService.syncTimer s); split; reflexivity.
    - unfold NTPService.onOffline, NTPService.stopPeriodicSync.
      cbn. destruct (NTPService.syncTimer s); split; reflexivity.
    - unfold NTPService.startPeriodicSync, NTPService.stopPeriodicSync.
      cbn. destruct (NTPService.syncTimer s); split; reflexivity.
    - unfold NTPService.stopPeriodicSync. destruct (NTPService.syncTimer s); split; reflexivity.
    - unfold NTPService.setSyncInterval, NTPService.startPeriodicSync,
        NTPService.stopPeriodicSync.
      destruct (m <? 1); [split; reflexivity |].
      cbn. destruct (NTPService.syncTimer s); split; reflexivity. }
  split; [exact Hframe |].
  intros Hsynced.
  assert (Hkeep : NTPService.lastSyncTime (NTPService.act h s a) <> None).
  { destruct a as [env | | | m | | m];
      try (destruct Hframe as (_ & ->); [intros env'; discriminate | exact Hsynced]).
    cbn [NTPService.act].
    destruct (performSync_cases h s env) as [(_ & [-> | ->]) | (_ & ntp & _ & ->)].
    - exact Hsynced.
    - exact Hsynced.
    - discriminate. }
  split; [exact Hkeep |].
  unfold NTPService.getSyncStatus. cbn [NTPService.isUsingNTPTime].
  rewrite (bool_decide_eq_true_2 _ Hkeep). apply orb_true_r.
Qed.

Lemma offset_frame_witness :
  NTPService.timeOffset
    (NTPService.act parsingHost
       (NTPService.act parsingHost (NTPService.constructor "Europe/London" "Europe%2FLondon")
          (NTPService.SyncCompletes goodNetwork))
       NTPService.OfflineEvent)
  = Some 5000.
Proof.
  destruct (offset_frame parsingHost
              (NTPService.act parsingHost
                 (NTPService.constructor "Europe/London" "Europe%2FLondon")
                 (NTPService.SyncCompletes goodNetwork))
              NTPService.OfflineEvent) as (Hframe & _).
  destruct Hframe as (-> & _); [intros env; discriminate | vm_compute; reflexivity].
Defined.

(** The periodic timer: starting installs a timer with the given period
    whatever was installed before; stopping removes it and is idempotent;
    going offline removes it; coming back online installs it again with the
    default period of 15 minutes, whatever period had been configured. *)
Theorem periodic_timer (s : NTPService.State) (intervalMinutes : Z) :
  NTPService.syncTimer (NTPService.startPeriodicSync s intervalMinutes) = true /\
  NTPService.syncInterval (NTPService.startPeriodicSync s intervalMinutes)
    = intervalMinutes * 60 * 1000 /\
  NTPService.syncTimer (NTPService.stopPeriodicSync s) = false /\
  NTPService.stopPeriodicSync (NTPService.stopPeriodicSync s) = NTPService.stopPeriodicSync s /\
  NTPService.syncTimer (NTPService.onOffline s) = false /\
  NTPService.syncTimer (NTPService.onOnline s) = true /\
  NTPService.syncInterval (NTPService.onOnline s) = 900000.
Proof.
  unfold NTPService.onOnline, NTPService.onOffline, NTPService.startPeriodicSync,
    NTPService.stopPeriodicSync.
  cbn. destruct (NTPService.syncTimer s) eqn:E; cbn; rewrite ?E; repeat split; reflexivity.
Qed.

(** [setSyncInterval] rejects a period below one minute without touching the
    state; otherwise it stores the period in milliseconds and leaves the
    timer as it was: running with the new period if it was running, absent
    if it was absent. *)
Theorem setSyncInterval_spec (s : NTPService.State) (intervalMinutes : Z) :
  (intervalMinutes < 1 ->
   NTPService.setSyncInterval s intervalMinutes
   = Throw (Error "Sync interval must be at least 1 minute")) /\
  (1 <= intervalMinutes ->
   exists s',
     NTPService.setSyncInterval s intervalMinutes = Ok s' /\
     NTPService.syncInterval s' = intervalMinutes * 60 * 1000 /\
     NTPService.syncTimer s' = NTPService.syncTimer s /\
     NTPService.timeOffset s' = NTPService.timeOffset s /\
     NTPService.isOnlineMode s' = NTPService.isOnlineMode s).
Proof.
  unfold NTPService.setSyncInterval. split; intros Hm.
  - destruct (Z.ltb_spec intervalMinutes 1); [reflexivity | lia].
  - destruct (Z.ltb_spec intervalMinutes 1); [lia |].
    eexists. split; [reflexivity |].
    unfold NTPService.startPeriodicSync, NTPService.stopPeriodicSync.
    cbn. destruct (NTPService.syncTimer s) eqn:E; cbn; rewrite ?E; repeat split; reflexivity.
Qed.

Lemma setSyncInterval_spec_witness :
  NTPService.setSyncInterval (NTPService.constructor "Europe/London" "Europe%2FLondon") 0
  = Throw (Error "Sync interval must be at least 1 minute").
Proof.
  apply (setSyncInterval_spec (NTPService.constructor "Europe/London" "Europe%2FLondon") 0).
  lia.
Defined.

(** X7: [validateTimeResponse] accepts a valid time exactly when it lies within
    24 hours of the local clock, the bound included; an invalid date is
    accepted as well, the comparison with NaN being false. *)
Theorem validateTimeResponse_spec (now : Z) :
  (forall t, NTPService.validateTimeResponse (Some t) now = true <->
             Z.abs (t - now) <= 86400000) /\
  NTPService.validateTimeResponse InvalidDate now = true.
Proof.
  split; [| reflexivity].
  intros t. unfold NTPService.validateTimeResponse.
  cbn [num1 nsub num2 DateAPI.getTime].
  change (24 * 60 * 60 * 1000) with 86400000.
  destruct (Z.ltb_spec 86400000 (Z.abs (t - now))); split; intros; try lia; try discriminate;
    reflexivity.
Qed.

Lemma validateTimeResponse_spec_witness :
  NTPService.validateTimeResponse (Some 1760529600000) 1760443200000 = true.
Proof.
  destruct (validateTimeResponse_spec 1760443200000) as (Hiff & _).
  apply Hiff. cbn. lia.
Defined.

(** * Further properties of the time controller *)

(** [formatTime] shows what [formatTime24Hour] shows when the 24-hour
    preference is set and what [formatTime12Hour] shows otherwise, for every
    date, valid or not. *)
Theorem formatTime_variants (h : Host) (s : TimeController.State) (prefs : Settings)
    (date : Date) :
  let parts :=
    if use24HourFormat prefs
    then TimeController.formatTime24Hour h date (showSeconds prefs)
    else TimeController.formatTime12Hour h date (showSeconds prefs) in
  TimeController.timeString (TimeController.formatTime h s prefs date)
    = TimeController.cp_timeString parts /\
  TimeController.ampm (TimeController.formatTime h s prefs date)
    = TimeController.cp_ampm parts.
Proof.
  unfold TimeController.formatTime, TimeController.formatTime24Hour,
    TimeController.formatTime12Hour.
  destruct (use24HourFormat prefs); cbn; split; reflexivity.
Qed.

(** X8: The 12-hour conversion loses nothing: for a date that shows hour H,
    [formatTime12Hour] returns an hour between 1 and 12 and a meridiem from
    which H is recovered (hour mod 12, plus 12 for "PM"). *)
Theorem formatTime12Hour_roundtrip (h : Host) (date : Date) (showSec : bool) (H M S : Z) :
  localClock h date H M S ->
  exists hour12,
    TimeController.cp_hours (TimeController.formatTime12Hour h date showSec) = Some hour12 /\
    1 <= hour12 <= 12 /\
    ((TimeController.cp_ampm (TimeController.formatTime12Hour h date showSec) = "AM"%string /\
      hour12 mod 12 = H) \/
     (TimeController.cp_ampm (TimeController.formatTime12Hour h date showSec) = "PM"%string /\
      hour12 mod 12 + 12 = H)).
Proof.
  intros Hc. pose proof (localClock_range _ _ _ _ _ Hc) as (RH & _).
  destruct Hc as (HH & _ & _).
  unfold TimeController.formatTime12Hour.
  cbn [TimeController.cp_hours TimeController.cp_ampm]. rewrite HH.
  cbn [num1 TimeController.num_is TimeController.num_geb].
  rewrite Z.rem_mod_nonneg by lia.
  destruct (Z.eqb_spec (H mod 12) 0) as [E0 | E0].
  - exists 12. split; [reflexivity | split; [lia |]].
    destruct (Z.leb_spec 12 H); [right | left]; (split; [reflexivity |]);
      change (12 mod 12) with 0; Z.to_euclidean_division_equations; lia.
  - exists (H mod 12). split; [reflexivity |].
    pose proof (Z.mod_pos_bound H 12 ltac:(lia)).
    split; [lia |].
    rewrite Z.mod_mod by lia.
    destruct (Z.leb_spec 12 H); [right | left]; (split; [reflexivity |]);
      Z.to_euclidean_division_equations; lia.
Qed.

Lemma formatTime12Hour_roundtrip_witness :
  exists hour12,
    TimeController.cp_hours
      (TimeController.formatTime12Hour exampleHost (Some (utcTime 2025 10 14 14 30 45)) true)
    = Some hour12 /\
    1 <= hour12 <= 12.
Proof.
  destruct (formatTime12Hour_roundtrip exampleHost (Some (utcTime 2025 10 14 14 30 45))
              true 14 30 45) as (hour12 & Hh & Hr & _).
  - repeat split; reflexivity.
  - exists hour12. split; assumption.
Defined.

(** The leap-year rule, with the remainder that [%] yields, and the
    length of a year. *)
Lemma isLeapYear_isLeap (y : Z) : TimeController.isLeapYear y = ES.isLeap y.
Proof.
  unfold TimeController.isLeapYear, ES.isLeap.
  assert (R : forall k, 0 < k -> (Z.rem y k =? 0) = (y mod k =? 0)).
  { intros k Hk. destruct (Z.eqb_spec (Z.rem y k) 0), (Z.eqb_spec (y mod k) 0);
      try reflexivity; exfalso; Z.to_euclidean_division_equations; nia. }
  rewrite !R by lia. reflexivity.
Qed.

Lemma year_length (y : Z) :
  ES.DayFromYear (y + 1) - ES.DayFromYear y = (if ES.isLeap y then 366 else 365).
Proof.
  unfold ES.isLeap, ES.DayFromYear.
  destruct (Z.eqb_spec (y mod 4) 0), (Z.eqb_spec (y mod 100) 0), (Z.eqb_spec (y mod 400) 0);
    cbn; Z.to_euclidean_division_equations; lia.
Qed.

(** X9: [isLeapYear] is the leap-year rule of the calendar that Date objects
    use: it holds of a year exactly when that year has 366 days, that is,
    when January 1 of the next year is 366 days after January 1 of the
    year; otherwise the year has 365 days.  This includes years before
    year 0, where the remainder operator yields negative values. *)
Theorem isLeapYear_calendar (y : Z) :
  TimeController.isLeapYear y = ES.isLeap y /\
  ES.DayFromYear (y + 1) - ES.DayFromYear y
  = (if TimeController.isLeapYear y then 366 else 365).
Proof.
  split; [apply isLeapYear_isLeap |].
  rewrite isLeapYear_isLeap. apply year_length.
Qed.

(** ** The calendar of the week number *)

Lemma DayFromYear_mono (a b : Z) : a <= b -> ES.DayFromYear a <= ES.DayFromYear b.
Proof. unfold ES.DayFromYear. intros. Z.to_euclidean_division_equations. lia. Qed.

Lemma YearFromDay_unique (y day : Z) :
  ES.DayFromYear y <= day < ES.DayFromYear (y + 1) -> ES.YearFromDay day = y.
Proof.
  intros Hb. pose proof (YearFromDay_bracket day) as HY.
  destruct (Z.lt_trichotomy (ES.YearFromDay day) y) as [Hlt | [E | Hgt]]; [| exact E |].
  - pose proof (DayFromYear_mono (ES.YearFromDay day + 1) y ltac:(lia)). lia.
  - pose proof (DayFromYear_mono (y + 1) (ES.YearFromDay day) ltac:(lia)). lia.
Qed.

Lemma Day_of_midnight (day : Z) :
  ES.Day (day * ES.msPerDay) = day /\ ES.TimeWithinDay (day * ES.msPerDay) = 0.
Proof.
  unfold ES.Day, ES.TimeWithinDay, ES.msPerDay. split.
  - apply Z.div_mul. lia.
  - apply Z.mod_mul. lia.
Qed.

Lemma MakeDay_fields (t k : Z) :
  ES.MakeDay (ES.YearFromTime t) (ES.MonthFromTime t) (ES.DateFromTime t + k) = ES.Day t + k.
Proof.
  unfold ES.MakeDay, ES.DateFromTime, ES.MonthFromTime, ES.monthStart, ES.DayWithinYear, ES.InLeapYear.
  set (y := ES.YearFromTime t). set (d := ES.Day t - ES.DayFromYear y).
  assert (Hd : ES.Day t = ES.DayFromYear y + d) by (subst d; lia).
  rewrite Hd. clearbody d.
  repeat match goal with
  | |- context [?a <? ?b] => destruct (Z.ltb_spec a b)
  end;
  repeat match goal with
  | |- context [?a mod 12] =>
      let v := eval vm_compute in (a mod 12) in change (a mod 12) with v
  | |- context [?a / 12] =>
      let v := eval vm_compute in (a / 12) in change (a / 12) with v
  end;
  cbn; rewrite ?Z.add_0_r; destruct (ES.isLeap y); lia.
Qed.

Lemma week_ceiling (a b : Z) :
  Qceiling ((inject_Z (a * 86400000 - b * 86400000) / 86400000 + 1) / 7)%Q = (a - b) / 7 + 1.
Proof.
  assert (E : ((inject_Z (a * 86400000 - b * 86400000) / 86400000 + 1) / 7 == inject_Z (a - b + 1) / 7)%Q).
  { unfold Qeq, Qdiv, Qmult, Qplus, Qinv, inject_Z. cbn. lia. }
  rewrite (Qceiling_comp _ _ E).
  unfold Qceiling, Qfloor, Qdiv, Qmult, Qinv, Qopp, inject_Z. cbn.
  Z.to_euclidean_division_equations. lia.
Qed.

Lemma TimeClip_valid t : Z.abs t <= ES.maxTime -> ES.TimeClip t = Some t.
Proof. intros H. unfold ES.TimeClip. apply Z.leb_le in H. rewrite H. reflexivity. Qed.

(** The week number through the Thursday of the week. *)
Lemma getWeekNumber_thursday h date y m dt :
  DateAPI.getFullYear h date = Some y ->
  DateAPI.getMonth h date = Some m ->
  DateAPI.getDate h date = Some dt ->
  let day := ES.MakeDay (ES.MakeFullYear y) m dt in
  let year := ES.YearFromDay (thursdayOf day) in
  - 99000000 <= day <= 99999990 ->
  (year < 0 \/ 99 < year) ->
  TimeController.getWeekNumber h date
  = Some ((thursdayOf day - ES.DayFromYear year) / 7 + 1).
Proof.
  intros Hy Hm Hd day year Hday Hyear.
  unfold TimeController.getWeekNumber. rewrite Hy, Hm, Hd.
  unfold DateAPI.UTC. fold day.
  assert (E0 : ES.MakeDate day 0 = day * ES.msPerDay) by (unfold ES.MakeDate; lia).
  rewrite E0.
  rewrite (TimeClip_valid (day * ES.msPerDay)) by (unfold ES.maxTime, ES.msPerDay; lia).
  cbn [DateAPI.newDate].
  rewrite (TimeClip_valid (day * ES.msPerDay)) by (unfold ES.maxTime, ES.msPerDay; lia).
  destruct (Day_of_midnight day) as (HD & HT).
  cbn [DateAPI.getUTCDay DateAPI.getUTCDate num1].
  assert (HW : ES.WeekDay (day * ES.msPerDay) = (day + 4) mod 7)
    by (unfold ES.WeekDay; rewrite HD; reflexivity).
  rewrite HW.
  assert (Hnum : num_or (Some ((day + 4) mod 7)) 7 = Some (4 - (thursdayOf day - day))).
  { unfold num_or, thursdayOf.
    pose proof (Z.mod_pos_bound (day + 4) 7 ltac:(lia)).
    destruct ((day + 4) mod 7) eqn:E; f_equal; try lia.
    all: Z.to_euclidean_division_equations; lia. }
  rewrite Hnum. unfold nadd, nsub, num2.
  unfold DateAPI.setUTCDate.
  replace (ES.DateFromTime (day * ES.msPerDay) + 4 - (4 - (thursdayOf day - day)))
    with (ES.DateFromTime (day * ES.msPerDay) + (thursdayOf day - day)) by lia.
  rewrite MakeDay_fields, HD, HT.
  replace (day + (thursdayOf day - day)) with (thursdayOf day) by lia.
  assert (Hth : day - 3 <= thursdayOf day <= day + 3).
  { unfold thursdayOf. pose proof (Z.mod_pos_bound (day + 3) 7 ltac:(lia)). lia. }
  assert (E1 : ES.MakeDate (thursdayOf day) 0 = thursdayOf day * ES.msPerDay)
    by (unfold ES.MakeDate; lia).
  rewrite E1.
  rewrite (TimeClip_valid (thursdayOf day * ES.msPerDay))
    by (unfold ES.maxTime, ES.msPerDay; lia).
  cbn [DateAPI.getUTCFullYear num1].
  unfold ES.YearFromTime. destruct (Day_of_midnight (thursdayOf day)) as (HD' & _).
  rewrite HD'. fold year.
  assert (Hfull : ES.MakeFullYear year = year).
  { unfold ES.MakeFullYear. destruct (Z.leb_spec 0 year), (Z.leb_spec year 99); cbn; lia. }
  unfold DateAPI.UTC. rewrite Hfull.
  assert (E2 : ES.MakeDate (ES.MakeDay year 0 1) 0 = ES.DayFromYear year * ES.msPerDay).
  { unfold ES.MakeDate, ES.MakeDay, ES.monthStart.
    change (0 / 12) with 0. change (0 mod 12) with 0. rewrite Z.add_0_r.
    cbv beta iota zeta. replace (year + 0) with year by lia. lia. }
  rewrite E2.
  pose proof (YearFromDay_bracket (thursdayOf day)) as Hbr. fold year in Hbr.
  assert (Hlow : - 100000000 <= ES.DayFromYear year).
  { assert (Hc : ES.DayFromYear (-270000) = -99335003) by (vm_compute; reflexivity).
    destruct (Z.le_gt_cases (-270000) year) as [Hge | Hlt].
    - pose proof (DayFromYear_mono (-270000) year Hge). lia.
    - pose proof (DayFromYear_mono (year + 1) (-270000) ltac:(lia)). lia. }
  rewrite (TimeClip_valid (ES.DayFromYear year * ES.msPerDay))
    by (unfold ES.maxTime, ES.msPerDay; lia).
  cbn [DateAPI.newDate].
  rewrite (TimeClip_valid (ES.DayFromYear year * ES.msPerDay))
    by (unfold ES.maxTime, ES.msPerDay; lia).
  cbn [nsub num2]. unfold ES.msPerDay. rewrite week_ceiling. reflexivity.
Qed.



Lemma DayFromYear_step (y : Z) :
  365 <= ES.DayFromYear (y + 1) - ES.DayFromYear y <= 366.
Proof. unfold ES.DayFromYear. Z.to_euclidean_division_equations. lia. Qed.

(** X11: For every valid date after year 100 that lies well inside the range of
    time values, [getWeekNumber] is a number from 1 to 53. *)
Theorem getWeekNumber_range (h : Host) (t : Z) :
  100 < ES.YearFromTime (DateAPI.LocalTime h t) ->
  Z.abs (DateAPI.LocalTime h t) <= 8500000000000000 ->
  exists week, TimeController.getWeekNumber h (Some t) = Some week /\ 1 <= week <= 53.
Proof.
  intros Hyear Hrange.
  set (lt := DateAPI.LocalTime h t) in *.
  set (y := ES.YearFromTime lt) in *.
  assert (Hfull : ES.MakeFullYear y = y).
  { unfold ES.MakeFullYear. destruct (Z.leb_spec 0 y), (Z.leb_spec y 99); cbn; lia. }
  assert (Hday : ES.MakeDay (ES.MakeFullYear y) (ES.MonthFromTime lt) (ES.DateFromTime lt)
                 = ES.Day lt).
  { rewrite Hfull. pose proof (MakeDay_fields lt 0) as E.
    rewrite !Z.add_0_r in E. exact E. }
  assert (Hbound : - 99000000 <= ES.Day lt <= 99999990).
  { unfold ES.Day, ES.msPerDay. Z.to_euclidean_division_equations. lia. }
  pose proof (YearFromDay_bracket (ES.Day lt)) as HbrD. fold (ES.YearFromTime lt) in HbrD.
  fold y in HbrD.
  pose proof (YearFromDay_bracket (thursdayOf (ES.Day lt))) as Hbr.
  set (year := ES.YearFromDay (thursdayOf (ES.Day lt))) in *.
  assert (Hth : ES.Day lt - 3 <= thursdayOf (ES.Day lt) <= ES.Day lt + 3).
  { unfold thursdayOf. pose proof (Z.mod_pos_bound (ES.Day lt + 3) 7 ltac:(lia)). lia. }
  assert (Hy1 : y - 1 <= year).
  { destruct (Z.le_gt_cases (y - 1) year) as [Hle | Hgt]; [exact Hle | exfalso].
    pose proof (DayFromYear_mono (year + 1) (y - 1) ltac:(lia)).
    pose proof (DayFromYear_step (y - 1)) as Hs.
    replace (y - 1 + 1) with y in Hs by lia. lia. }
  rewrite (getWeekNumber_thursday h (Some t) y (ES.MonthFromTime lt) (ES.DateFromTime lt));
    try reflexivity.
  - rewrite Hday. fold year. eexists. split; [reflexivity |].
    pose proof (DayFromYear_step year). Z.to_euclidean_division_equations. lia.
  - rewrite Hday. exact Hbound.
  - rewrite Hday. fold year. right. lia.
Qed.

Lemma getWeekNumber_range_witness :
  exists week,
    TimeController.getWeekNumber exampleHost (Some (utcTime 2025 10 14 14 30 45)) = Some week /\
    1 <= week <= 53.
Proof.
  apply (getWeekNumber_range exampleHost (utcTime 2025 10 14 14 30 45)).
  - vm_compute. reflexivity.
  - vm_compute. discriminate.
Defined.

(** X12: January 4 is always in week 1 and December 28 is always in the last
    week of its year (52 or 53), for every year from 101 to 270000. *)
Theorem getWeekNumber_anchor_days (h : Host) (date : Date) (y : Z) :
  100 < y <= 270000 ->
  (localDay h date y 1 4 -> TimeController.getWeekNumber h date = Some 1) /\
  (localDay h date y 12 28 ->
   TimeController.getWeekNumber h date = Some 52 \/
   TimeController.getWeekNumber h date = Some 53).
Proof.
  intros Hy.
  assert (Hfull : ES.MakeFullYear y = y).
  { unfold ES.MakeFullYear. destruct (Z.leb_spec 0 y), (Z.leb_spec y 99); cbn; lia. }
  assert (Hlo : ES.DayFromYear 100 = -683003) by (vm_compute; reflexivity).
  assert (Hhi : ES.DayFromYear 270001 = 97896313) by (vm_compute; reflexivity).
  pose proof (DayFromYear_mono 100 y ltac:(lia)) as Hm1.
  pose proof (DayFromYear_mono (y + 1) 270001 ltac:(lia)) as Hm2.
  pose proof (DayFromYear_step y) as Hstep.
  split; intros (Hfy & Hfm & Hfd).
  - assert (Hday : ES.MakeDay (ES.MakeFullYear y) (1 - 1) 4 = ES.DayFromYear y + 3).
    { rewrite Hfull. unfold ES.MakeDay, ES.monthStart.
      change ((1 - 1) / 12) with 0. change ((1 - 1) mod 12) with 0.
      cbv beta iota zeta. replace (y + 0) with y by lia. lia. }
    assert (Hth : ES.DayFromYear y <= thursdayOf (ES.DayFromYear y + 3)
                  <= ES.DayFromYear y + 6).
    { unfold thursdayOf.
      pose proof (Z.mod_pos_bound (ES.DayFromYear y + 3 + 3) 7 ltac:(lia)). lia. }
    assert (Hyear : ES.YearFromDay (thursdayOf (ES.DayFromYear y + 3)) = y)
      by (apply YearFromDay_unique; lia).
    rewrite (getWeekNumber_thursday h date y (1 - 1) 4 Hfy Hfm Hfd);
      rewrite Hday, ?Hyear; [| lia | lia].
    f_equal. Z.to_euclidean_division_equations. lia.
  - assert (Hday : ES.MakeDay (ES.MakeFullYear y) (12 - 1) 28 = ES.DayFromYear (y + 1) - 4).
    { rewrite Hfull. unfold ES.MakeDay, ES.monthStart.
      change ((12 - 1) / 12) with 0. change ((12 - 1) mod 12) with 11.
      cbv beta iota zeta. replace (y + 0) with y by lia.
      pose proof (year_length y) as Hlen.
      destruct (ES.isLeap y); lia. }
    assert (Hth : ES.DayFromYear (y + 1) - 7 <= thursdayOf (ES.DayFromYear (y + 1) - 4)
                  <= ES.DayFromYear (y + 1) - 1).
    { unfold thursdayOf.
      pose proof (Z.mod_pos_bound (ES.DayFromYear (y + 1) - 4 + 3) 7 ltac:(lia)). lia. }
    assert (Hyear : ES.YearFromDay (thursdayOf (ES.DayFromYear (y + 1) - 4)) = y)
      by (apply YearFromDay_unique; lia).
    rewrite (getWeekNumber_thursday h date y (12 - 1) 28 Hfy Hfm Hfd);
      rewrite Hday, ?Hyear; [| lia | lia].
    assert (Hw : (thursdayOf (ES.DayFromYear (y + 1) - 4) - ES.DayFromYear y) / 7 + 1 = 52 \/
                 (thursdayOf (ES.DayFromYear (y + 1) - 4) - ES.DayFromYear y) / 7 + 1 = 53)
      by (Z.to_euclidean_division_equations; lia).
    destruct Hw as [-> | ->]; [left | right]; reflexivity.
Qed.

Lemma getWeekNumber_anchor_days_witness :
  TimeController.getWeekNumber exampleHost (Some (utcMidnight 2026 1 4)) = Some 1.
Proof.
  destruct (getWeekNumber_anchor_days exampleHost (Some (utcMidnight 2026 1 4)) 2026)
    as (Hjan & _).
  - lia.
  - apply Hjan. repeat split; reflexivity.
Defined.

(** ** Days of the month and of the year *)

Lemma calendar_of_day (t y d : Z) :
  ES.Day t = ES.DayFromYear y + d ->
  0 <= d < ES.DayFromYear (y + 1) - ES.DayFromYear y ->
  ES.YearFromTime t = y /\
  ES.DayWithinYear t = d /\
  ES.InLeapYear t = (if ES.isLeap y then 1 else 0).
Proof.
  intros HD Hd.
  assert (Hy : ES.YearFromTime t = y).
  { unfold ES.YearFromTime. apply YearFromDay_unique. lia. }
  unfold ES.DayWithinYear, ES.InLeapYear. rewrite Hy.
  split; [reflexivity | split; [lia | reflexivity]].
Qed.

Lemma MonthFromTime_range (t : Z) : 0 <= ES.MonthFromTime t <= 11.
Proof.
  unfold ES.MonthFromTime.
  repeat match goal with
  | |- context [?a <? ?b] => destruct (a <? b)
  end; lia.
Qed.

Lemma date_of_month_end (t y m : Z) :
  0 <= m <= 11 ->
  ES.Day t = ES.MakeDay y (m + 1) 0 ->
  ES.DateFromTime t = nth (Z.to_nat m) (monthLengths y) 0.
Proof.
  intros Hm HD.
  pose proof (isLeapYear_isLeap y) as Eleap. pose proof (year_length y) as Hlen.
  assert (Hcases : m = 0 \/ m = 1 \/ m = 2 \/ m = 3 \/ m = 4 \/ m = 5 \/ m = 6 \/
                   m = 7 \/ m = 8 \/ m = 9 \/ m = 10 \/ m = 11) by lia.
  unfold ES.MakeDay, ES.monthStart in HD.
  repeat (destruct Hcases as [-> | Hcases]); try subst m.
  all: repeat match type of HD with
       | context [?a mod 12] =>
           let v := eval vm_compute in (a mod 12) in change (a mod 12) with v in HD
       | context [?a / 12] =>
           let v := eval vm_compute in (a / 12) in change (a / 12) with v in HD
       end;
       cbv beta iota zeta in HD.
  all: try replace (y + 0) with y in HD by lia.
  all: unfold monthLengths; destruct (ES.isLeap y) eqn:El;
       try rewrite El in HD; try rewrite El in Hlen.
  all: match type of HD with
       | _ = ?rhs =>
           destruct (calendar_of_day t y (rhs - ES.DayFromYear y) ltac:(lia) ltac:(lia))
             as (_ & Hw & Hl)
       end.
  all: unfold ES.DateFromTime, ES.MonthFromTime; rewrite Hw, Hl, ?El.
  all: repeat match goal with
       | |- context [?a <? ?b] => destruct (Z.ltb_spec a b)
       end; cbn;
       match goal with
       | |- _ = ?r => let v := eval vm_compute in r in change r with v
       end; lia.
Qed.

(** X13: [getDaysInMonth] returns the Gregorian length of the month that the
    date shows, February having 29 days exactly when [isLeapYear] holds of
    the year.  The year must not lie in 0..99, which the Date constructor
    reads as 1900..1999, and the local midnight that begins the next month
    must be read back by the host on the same day. *)
Theorem getDaysInMonth_spec (h : Host) (date : Date) (y m : Z) :
  DateAPI.getFullYear h date = Some y ->
  DateAPI.getMonth h date = Some m ->
  y < 0 \/ 99 < y ->
  let midnight := ES.MakeDate (ES.MakeDay y (m + 1) 0) 0 in
  validTime (UTCofLocal h midnight) ->
  ES.Day (DateAPI.LocalTime h (UTCofLocal h midnight)) = ES.Day midnight ->
  TimeController.getDaysInMonth h date = Some (nth (Z.to_nat m) (monthLengths y) 0) /\
  (m = 1 ->
   TimeController.getDaysInMonth h date
   = Some (if TimeController.isLeapYear y then 29 else 28)).
Proof.
  intros Hy Hm Hyear midnight Hvalid Hday.
  assert (Hrange : 0 <= m <= 11).
  { destruct date as [t |]; [| discriminate Hm].
    cbn in Hm. injection Hm as <-. apply MonthFromTime_range. }
  assert (Hfull : ES.MakeFullYear y = y).
  { unfold ES.MakeFullYear. destruct (Z.leb_spec 0 y), (Z.leb_spec y 99); cbn; lia. }
  assert (E : TimeController.getDaysInMonth h date
              = Some (nth (Z.to_nat m) (monthLengths y) 0)).
  { unfold TimeController.getDaysInMonth. rewrite Hy, Hm.
    unfold nadd, num2, DateAPI.newDateLocal. rewrite Hfull. fold midnight.
    rewrite (TimeClip_valid _ Hvalid). cbn [DateAPI.getDate num1]. f_equal.
    apply date_of_month_end; [exact Hrange |].
    rewrite Hday. subst midnight. unfold ES.MakeDate. rewrite Z.add_0_r.
    apply Day_of_midnight. }
  split; [exact E |].
  intros ->. rewrite E. rewrite (isLeapYear_isLeap y).
  unfold monthLengths. reflexivity.
Qed.

Lemma getDaysInMonth_spec_witness :
  TimeController.getDaysInMonth exampleHost (Some (utcMidnight 2024 2 15)) = Some 29.
Proof.
  assert (Hyear : 2024 < 0 \/ 99 < 2024) by (right; lia).
  assert (Hvalid : validTime (UTCofLocal exampleHost
                                (ES.MakeDate (ES.MakeDay 2024 (1 + 1) 0) 0)))
    by (unfold validTime; vm_compute; discriminate).
  destruct (getDaysInMonth_spec exampleHost (Some (utcMidnight 2024 2 15)) 2024 1
              eq_refl eq_refl Hyear Hvalid eq_refl) as (_ & Hfeb).
  apply Hfeb. reflexivity.
Defined.

(** X14: [getDayOfYear] returns the 1-based day of the year, from 1 to 366, that
    the date shows, provided the system zone has the same offset at the date
    as at the local midnight that begins December 31 of the year before (no
    clock change in between) and the year does not lie in 0..99. *)
Theorem getDayOfYear_spec (h : Host) (t : Z) :
  let lt := DateAPI.LocalTime h t in
  let y := ES.YearFromTime lt in
  let start := ES.MakeDate (ES.MakeDay y 0 0) 0 in
  y < 0 \/ 99 < y ->
  validTime (UTCofLocal h start) ->
  t - UTCofLocal h start = lt - start ->
  TimeController.getDayOfYear h (Some t) = Some (ES.DayWithinYear lt + 1) /\
  1 <= ES.DayWithinYear lt + 1 <= 366.
Proof.
  intros lt y start Hyear Hvalid Hoffset.
  assert (Hfull : ES.MakeFullYear y = y).
  { unfold ES.MakeFullYear. destruct (Z.leb_spec 0 y), (Z.leb_spec y 99); cbn; lia. }
  assert (Hstart : start = (ES.DayFromYear y - 1) * ES.msPerDay).
  { subst start. unfold ES.MakeDate, ES.MakeDay, ES.monthStart.
    change (0 / 12) with 0. change (0 mod 12) with 0. cbv beta iota zeta.
    replace (y + 0) with y by lia. lia. }
  pose proof (YearFromDay_bracket (ES.Day lt)) as Hbr.
  fold (ES.YearFromTime lt) in Hbr. fold y in Hbr.
  pose proof (DayFromYear_step y) as Hstep.
  split.
  - unfold TimeController.getDayOfYear.
    cbn [DateAPI.getFullYear num1]. fold lt. fold y.
    unfold DateAPI.newDateLocal. rewrite Hfull. fold start.
    rewrite (TimeClip_valid _ Hvalid). cbn [nsub num2]. rewrite Hoffset. f_equal.
    change (1000 * 60 * 60 * 24) with ES.msPerDay.
    unfold ES.DayWithinYear. fold y. rewrite Hstart.
    unfold ES.Day, ES.msPerDay. Z.to_euclidean_division_equations. lia.
  - unfold ES.DayWithinYear. fold y. lia.
Qed.

Lemma getDayOfYear_spec_witness :
  TimeController.getDayOfYear exampleHost (Some (utcTime 2025 12 31 23 59 59)) = Some 365.
Proof.
  assert (Hyear : ES.YearFromTime
                    (DateAPI.LocalTime exampleHost (utcTime 2025 12 31 23 59 59)) < 0 \/
                  99 < ES.YearFromTime
                         (DateAPI.LocalTime exampleHost (utcTime 2025 12 31 23 59 59)))
    by (right; vm_compute; reflexivity).
  assert (Hvalid : validTime (UTCofLocal exampleHost
                     (ES.MakeDate
                        (ES.MakeDay
                           (ES.YearFromTime
                              (DateAPI.LocalTime exampleHost (utcTime 2025 12 31 23 59 59)))
                           0 0) 0)))
    by (unfold validTime; vm_compute; discriminate).
  destruct (getDayOfYear_spec exampleHost (utcTime 2025 12 31 23 59 59)
              Hyear Hvalid eq_refl) as (E & _).
  rewrite E. vm_compute. reflexivity.
Defined.

(** * Further properties of the world clocks *)

(** The 12-hour conversion of the world clocks is the one of the
    specification: hour mod 12 with 0 shown as 12, "AM" for hours 0..11. *)
Lemma to12Hour_spec (H : Z) :
  0 <= H < 24 ->
  WorldClockManager.to12Hour (Some H) = (Some (hourOn12 H), meridiem H).
Proof.
  intros HH. unfold WorldClockManager.to12Hour, hourOn12, meridiem.
  destruct (Z.eqb_spec H 0) as [-> | H0]; [reflexivity |].
  destruct (Z.ltb_spec 12 H) as [Hgt | Hle].
  - destruct (Z.eqb_spec (H mod 12) 0), (Z.leb_spec 0 H), (Z.leb_spec H 11); cbn;
      try lia; try (exfalso; Z.to_euclidean_division_equations; lia).
    do 2 f_equal. Z.to_euclidean_division_equations. lia.
  - destruct (Z.eqb_spec H 12) as [-> | H12]; [reflexivity |].
    destruct (Z.eqb_spec (H mod 12) 0), (Z.leb_spec 0 H), (Z.leb_spec H 11); cbn;
      try lia; try (exfalso; Z.to_euclidean_division_equations; lia).
    do 2 f_equal. Z.to_euclidean_division_equations. lia.
Qed.

Lemma HourFromTime_range (t : Z) :
  0 <= ES.HourFromTime t < 24 /\ 0 <= ES.MinFromTime t < 60 /\ 0 <= ES.SecFromTime t < 60.
Proof.
  unfold ES.HourFromTime, ES.MinFromTime, ES.SecFromTime.
  repeat split; apply Z.mod_pos_bound; lia.
Qed.

(** X15: A world clock set to the system's own zone shows what the main clock
    shows: for a supported zone whose offset at the instant is the system
    zone's, [getTimeForTimezone] returns without error the 24-hour fields of
    [formatTime24Hour] and the 12-hour hour and meridiem of
    [formatTime12Hour]. *)
Theorem getTimeForTimezone_matches_main_clock (h : Host) (t : Z) (tz : string)
    (showSec : bool) :
  zoneSupported h tz = true ->
  zoneTZA h tz t = LocalTZA h t ->
  exists r,
    WorldClockManager.getTimeForTimezone h (Some t) tz = Ok r /\
    WorldClockManager.isError r = false /\
    WorldClockManager.isFallback r = false /\
    WorldClockManager.hours r
      = TimeController.cp_hours (TimeController.formatTime24Hour h (Some t) showSec) /\
    WorldClockManager.minutes r
      = TimeController.cp_minutes (TimeController.formatTime24Hour h (Some t) showSec) /\
    WorldClockManager.seconds r
      = TimeController.cp_seconds (TimeController.formatTime24Hour h (Some t) showSec) /\
    WorldClockManager.hours12 r
      = TimeController.cp_hours (TimeController.formatTime12Hour h (Some t) showSec) /\
    WorldClockManager.ampm r
      = TimeController.cp_ampm (TimeController.formatTime12Hour h (Some t) showSec).
Proof.
  intros Hsup Hzone.
  unfold WorldClockManager.getTimeForTimezone, Intl.DateTimeFormat, Intl.formatToParts.
  rewrite Hsup. cbn [bind try_catch]. rewrite Hzone.
  fold (DateAPI.LocalTime h t). set (lt := DateAPI.LocalTime h t).
  destruct (HourFromTime_range lt) as (RH & _).
  rewrite (to12Hour_spec _ RH). cbn [try_catch].
  eexists. split; [reflexivity |].
  cbn [WorldClockManager.isError WorldClockManager.isFallback WorldClockManager.hours
       WorldClockManager.minutes WorldClockManager.seconds WorldClockManager.hours12
       WorldClockManager.ampm].
  unfold TimeController.formatTime24Hour, TimeController.formatTime12Hour.
  cbn [TimeController.cp_hours TimeController.cp_minutes TimeController.cp_seconds
       TimeController.cp_ampm DateAPI.getHours DateAPI.getMinutes DateAPI.getSeconds num1
       TimeController.num_is TimeController.num_geb].
  fold lt. rewrite Z.rem_mod_nonneg by lia.
  unfold hourOn12, meridiem.
  repeat split.
  - destruct (Z.eqb_spec (ES.HourFromTime lt mod 12) 0); reflexivity.
  - destruct (Z.leb_spec 12 (ES.HourFromTime lt)), (Z.leb_spec 0 (ES.HourFromTime lt)),
      (Z.leb_spec (ES.HourFromTime lt) 11); cbn; try reflexivity; lia.
Qed.

Lemma getTimeForTimezone_matches_main_clock_witness :
  exists r,
    WorldClockManager.getTimeForTimezone exampleHost
      (Some (utcTime 2025 10 14 14 30 45)) "Europe/London" = Ok r /\
    WorldClockManager.hours12 r = Some 2 /\
    WorldClockManager.ampm r = "PM"%string.
Proof.
  destruct (getTimeForTimezone_matches_main_clock exampleHost
              (utcTime 2025 10 14 14 30 45) "Europe/London" true eq_refl eq_refl)
    as (r & Hr & _ & _ & _ & _ & _ & H12 & Hampm).
  exists r. split; [exact Hr |]. split; [rewrite H12 | rewrite Hampm]; reflexivity.
Defined.

Lemma index_nth (names : list string) (k : Z) :
  0 <= k < Z.of_nat (length names) ->
  TimeController.index names (Some k) = Some (nth (Z.to_nat k) names ""%string).
Proof.
  intros Hk. unfold TimeController.index.
  destruct (Z.ltb_spec k 0); [lia |].
  destruct (lookup_lt_is_Some_2 names (Z.to_nat k) ltac:(lia)) as (x & Hx).
  rewrite Hx. f_equal. symmetry. exact (nth_lookup_Some _ _ _ _ Hx).
Qed.

(** X16: For the system's own zone the per-zone date formatting returns the day
    name, day and month name that [formatDate] returns, and for the year
    the year of the era of the year that [formatDate] returns: the same
    year from the year 1 on, and [1 - y] for a year [y] that is zero or
    negative (the week number is computed by a different rule and is not
    compared). *)
Theorem formatDateForTimezone_matches_formatDate (h : Host) (t : Z) (tz : string) :
  zoneSupported h tz = true ->
  zoneTZA h tz t = LocalTZA h t ->
  exists d y,
    WorldClockManager.formatDateForTimezone h (Some t) tz = Ok d /\
    TimeController.dayName (TimeController.formatDate h (Some t))
      = Some (WorldClockManager.dayName d) /\
    TimeController.day (TimeController.formatDate h (Some t)) = WorldClockManager.day d /\
    TimeController.monthName (TimeController.formatDate h (Some t))
      = Some (WorldClockManager.monthName d) /\
    TimeController.year (TimeController.formatDate h (Some t)) = Some y /\
    (0 < y -> WorldClockManager.year d = Some y) /\
    (y <= 0 -> WorldClockManager.year d = Some (1 - y)).
Proof.
  intros Hsup Hzone.
  unfold WorldClockManager.formatDateForTimezone, Intl.DateTimeFormat, Intl.formatToParts.
  rewrite Hsup. cbn [bind try_catch]. rewrite Hzone.
  fold (DateAPI.LocalTime h t). set (lt := DateAPI.LocalTime h t).
  eexists. exists (ES.YearFromTime lt). split; [reflexivity |].
  cbn [WorldClockManager.dayName WorldClockManager.day WorldClockManager.monthName
       WorldClockManager.year].
  unfold TimeController.formatDate.
  cbn [TimeController.dayName TimeController.day TimeController.monthName
       TimeController.year DateAPI.getDay DateAPI.getMonth DateAPI.getDate
       DateAPI.getFullYear num1].
  fold lt. unfold Intl.weekdayLong, Intl.monthLong, Intl.eraYear.
  split; [| split; [reflexivity | split; [| split; [reflexivity | split]]]].
  - apply index_nth. unfold ES.WeekDay.
    pose proof (Z.mod_pos_bound (ES.Day lt + 4) 7 ltac:(lia)). cbn. lia.
  - apply index_nth. pose proof (MonthFromTime_range lt). cbn. lia.
  - intros Hy. destruct (Z.leb_spec (ES.YearFromTime lt) 0); [lia | reflexivity].
  - intros Hy. destruct (Z.leb_spec (ES.YearFromTime lt) 0); [reflexivity | lia].
Qed.

Lemma formatDateForTimezone_matches_formatDate_witness :
  (exists d,
     WorldClockManager.formatDateForTimezone exampleHost
       (Some (utcTime 2025 10 14 14 30 45)) "UTC" = Ok d /\
     TimeController.dayName
       (TimeController.formatDate exampleHost (Some (utcTime 2025 10 14 14 30 45)))
     = Some (WorldClockManager.dayName d) /\
     WorldClockManager.year d = Some 2025) /\
  (exists d,
     WorldClockManager.formatDateForTimezone exampleHost
       (Some (utcTime 0 6 15 12 0 0)) "UTC" = Ok d /\
     TimeController.year
       (TimeController.formatDate exampleHost (Some (utcTime 0 6 15 12 0 0)))
     = Some 0 /\
     WorldClockManager.year d = Some 1).
Proof.
  split.
  - destruct (formatDateForTimezone_matches_formatDate exampleHost
                (utcTime 2025 10 14 14 30 45) "UTC" eq_refl eq_refl)
      as (d & y & Hd & Hname & _ & _ & Hy & Hpos & _).
    exists d. split; [exact Hd |]. split; [exact Hname |].
    assert (y = 2025) as -> by (vm_compute in Hy; congruence).
    apply Hpos. lia.
  - destruct (formatDateForTimezone_matches_formatDate exampleHost
                (utcTime 0 6 15 12 0 0) "UTC" eq_refl eq_refl)
      as (d & y & Hd & _ & _ & _ & Hy & _ & Hneg).
    exists d. split; [exact Hd |].
    assert (y = 0) as -> by (vm_compute in Hy; congruence).
    split; [reflexivity |]. apply (Hneg ltac:(lia)).
Defined.

(** X17: One row of the world-clock display.  For a time zone that the database
    does not know, the update stores the error state and the row reads
    "--:--" (with ":--" when seconds are shown) and "--", whatever the
    instant.  For a supported zone and a valid instant the row reads the
    zone's wall-clock time as the specification formats it, followed by a
    space and the meridiem in 12-hour mode. *)
Theorem worldClock_row (h : Host) (worldClock : WorldClockManager.WorldClock)
    (use24 showSec : bool) :
  (zoneSupported h (WorldClockManager.wc_timezone worldClock) = false ->
   forall now,
     WorldClockManager.getFormattedTimeString
       (WorldClockManager.updateWorldClockTime h worldClock now) use24 showSec
     = Ok ("--:--" +:+ (if showSec then ":--" else "")) /\
     WorldClockManager.getFormattedDateString
       (WorldClockManager.updateWorldClockTime h worldClock now) = "--"%string) /\
  (zoneSupported h (WorldClockManager.wc_timezone worldClock) = true ->
   forall t,
     let wall := t + zoneTZA h (WorldClockManager.wc_timezone worldClock) t in
     WorldClockManager.getFormattedTimeString
       (WorldClockManager.updateWorldClockTime h worldClock (Some t)) use24 showSec
     = Ok (specTimeString use24 showSec (ES.HourFromTime wall) (ES.MinFromTime wall)
             (ES.SecFromTime wall)
           +:+ (if use24 then "" else " " +:+ meridiem (ES.HourFromTime wall)))).
Proof.
  split.
  - intros Hun now.
    assert (E : WorldClockManager.updateWorldClockTime h worldClock now
                = WorldClockManager.set_timeData worldClock WorldClockManager.errorCells).
    { unfold WorldClockManager.updateWorldClockTime,
        WorldClockManager.getTimeForTimezone, WorldClockManager.formatDateForTimezone,
        Intl.DateTimeFormat.
      rewrite Hun. cbn [bind try_catch].
      destruct (WorldClockManager.getFallbackTimeForTimezone h now _); reflexivity. }
    rewrite E. split; reflexivity.
  - intros Hsup t wall.
    unfold WorldClockManager.updateWorldClockTime, WorldClockManager.getTimeForTimezone,
      WorldClockManager.formatDateForTimezone, Intl.DateTimeFormat, Intl.formatToParts.
    rewrite Hsup. cbn [bind try_catch]. fold wall.
    destruct (HourFromTime_range wall) as (RH & RM & RS).
    rewrite (to12Hour_spec _ RH). cbn [bind try_catch].
    unfold WorldClockManager.getFormattedTimeString.
    cbn [WorldClockManager.timeData WorldClockManager.set_timeData
         WorldClockManager.liveCells WorldClockManager.c_isError
         WorldClockManager.isError WorldClockManager.c_hours WorldClockManager.c_hours12
         WorldClockManager.c_minutes WorldClockManager.c_seconds WorldClockManager.c_ampm
         WorldClockManager.hours WorldClockManager.hours12 WorldClockManager.minutes
         WorldClockManager.seconds WorldClockManager.ampm WorldClockManager.Cell_toString].
    unfold specTimeString.
    assert (R12 : 0 <= hourOn12 (ES.HourFromTime wall) < 100).
    { unfold hourOn12. pose proof (Z.mod_pos_bound (ES.HourFromTime wall) 12 ltac:(lia)).
      destruct (ES.HourFromTime wall mod 12 =? 0); lia. }
    destruct use24, showSec; cbn [negb WorldClockManager.Cell_toString];
      rewrite ?(padStart_twoDigits (ES.HourFromTime wall)),
        ?(padStart_twoDigits (hourOn12 (ES.HourFromTime wall))),
        ?(padStart_twoDigits (ES.MinFromTime wall)),
        ?(padStart_twoDigits (ES.SecFromTime wall)) by lia;
      unfold twoDigits; cbn [String.append]; reflexivity.
Qed.

Lemma worldClock_row_witness :
  WorldClockManager.getFormattedTimeString
    (WorldClockManager.updateWorldClockTime exampleHost
       {| WorldClockManager.id := "wc_1";
          WorldClockManager.cityName := "Olympus Mons";
          WorldClockManager.wc_timezone := "Mars/Olympus_Mons";
          WorldClockManager.isEnabled := true;
          WorldClockManager.timeData := None |}
       (Some (utcTime 2025 10 14 14 30 45))) false true
  = Ok "--:--:--"%string.
Proof.
  destruct (worldClock_row exampleHost
              {| WorldClockManager.id := "wc_1";
                 WorldClockManager.cityName := "Olympus Mons";
                 WorldClockManager.wc_timezone := "Mars/Olympus_Mons";
                 WorldClockManager.isEnabled := true;
                 WorldClockManager.timeData := None |} false true) as (Hbad & _).
  destruct (Hbad eq_refl (Some (utcTime 2025 10 14 14 30 45))) as (Htime & _).
  exact Htime.
Defined.

Lemma updateWorldClockTime_fields h worldClock now :
  WorldClockManager.id (WorldClockManager.updateWorldClockTime h worldClock now)
    = WorldClockManager.id worldClock /\
  WorldClockManager.cityName (WorldClockManager.updateWorldClockTime h worldClock now)
    = WorldClockManager.cityName worldClock /\
  WorldClockManager.isEnabled (WorldClockManager.updateWorldClockTime h worldClock now)
    = WorldClockManager.isEnabled worldClock /\
  WorldClockManager.timeData (WorldClockManager.updateWorldClockTime h worldClock now)
    <> None.
Proof.
  unfold WorldClockManager.updateWorldClockTime.
  destruct (bind _ _); cbn; repeat split; discriminate.
Qed.

(** X18: When [addWorldClock] succeeds.  It returns a clock exactly when the
    array has fewer than three clocks, does not have the time zone, the
    database knows the zone and the settings manager answers true; the clock
    returned is then the new last element of the array, enabled, with the
    given zone and the generated id, and its time data is already set.  An
    unsupported zone is refused and leaves the array as it is.  When the
    settings manager throws, the call returns false but the new clock stays
    in the array. *)
Theorem addWorldClock_outcomes (h : Host) (worldClocks : list WorldClockManager.WorldClock)
    (timezone : string) (cityName : option string) (env : WorldClockManager.AddEnv) :
  let outcome := WorldClockManager.addWorldClock h worldClocks timezone cityName env in
  let admissible :=
    (length worldClocks <? 3)%nat &&
    negb (WorldClockManager.isTimezoneAdded worldClocks timezone) &&
    WorldClockManager.isValidTimezone h timezone in
  (forall wc,
      snd outcome = Some wc <->
      admissible = true /\ WorldClockManager.saved env = Ok true /\
      wc = WorldClockManager.updateWorldClockTime h
             {| WorldClockManager.id := WorldClockManager.newId env;
                WorldClockManager.cityName :=
                  match cityName with
                  | Some (String c r) => String c r
                  | _ => WorldClockManager.getCityNameForTimezone timezone
                  end;
                WorldClockManager.wc_timezone := timezone;
                WorldClockManager.isEnabled := true;
                WorldClockManager.timeData := None |}
             (WorldClockManager.now env)) /\
  (forall wc,
      snd outcome = Some wc ->
      fst outcome = worldClocks ++ [wc] /\
      WorldClockManager.wc_timezone wc = timezone /\
      WorldClockManager.id wc = WorldClockManager.newId env /\
      WorldClockManager.isEnabled wc = true /\
      WorldClockManager.timeData wc <> None /\
      WorldClockManager.isTimezoneAdded (fst outcome) timezone = true) /\
  (admissible = false -> outcome = (worldClocks, None)) /\
  (admissible = true ->
   forall error, WorldClockManager.saved env = Throw error ->
   snd outcome = None /\ length (fst outcome) = S (length worldClocks) /\
   WorldClockManager.isTimezoneAdded (fst outcome) timezone = true).
Proof.
  intros outcome admissible. subst outcome admissible.
  unfold WorldClockManager.addWorldClock, WorldClockManager.isTimezoneAdded.
  assert (Hleb : (3 <=? length worldClocks)%nat = negb (length worldClocks <? 3)%nat).
  { destruct (Nat.leb_spec 3 (length worldClocks)), (Nat.ltb_spec (length worldClocks) 3);
      try reflexivity; lia. }
  rewrite Hleb.
  assert (Hadded : forall l wc, WorldClockManager.wc_timezone wc = timezone ->
            existsb (fun wc0 => String.eqb (WorldClockManager.wc_timezone wc0) timezone)
                    (l ++ [wc]) = true).
  { intros l wc Htz. rewrite existsb_app. cbn. rewrite Htz, String.eqb_refl.
    rewrite orb_true_r. reflexivity. }
  destruct (length worldClocks <? 3)%nat; cbn [negb andb].
  2: { repeat split; try discriminate; intros; try discriminate.
       destruct H as (Hf & _); discriminate Hf. }
  destruct (existsb _ worldClocks); cbn [negb andb].
  1: { repeat split; try discriminate; intros; try discriminate.
       destruct H as (Hf & _); discriminate Hf. }
  destruct (WorldClockManager.isValidTimezone h timezone); cbn [negb andb].
  2: { repeat split; try discriminate; intros; try discriminate.
       destruct H as (Hf & _); discriminate Hf. }
  destruct (WorldClockManager.saved env) as [[|] | error] eqn:Hsaved; cbn [fst snd].
  - split; [| split; [| split]].
    + intros wc. split.
      * intros [= <-]. repeat split; reflexivity.
      * intros (_ & _ & ->). reflexivity.
    + intros wc [= <-].
      destruct (updateWorldClockTime_fields h
                  {| WorldClockManager.id := WorldClockManager.newId env;
                     WorldClockManager.cityName :=
                       match cityName with
                       | Some (String c r) => String c r
                       | _ => WorldClockManager.getCityNameForTimezone timezone
                       end;
                     WorldClockManager.wc_timezone := timezone;
                     WorldClockManager.isEnabled := true;
                     WorldClockManager.timeData := None |}
                  (WorldClockManager.now env)) as (Hid & _ & Hen & Htd).
      split; [reflexivity |]. rewrite updateWorldClockTime_timezone, Hid, Hen.
      repeat split; try assumption.
      apply Hadded. apply updateWorldClockTime_timezone.
    + discriminate.
    + intros _ error. discriminate.
  - split; [| split; [| split]].
    + intros wc. split; [discriminate | intros (_ & Hs & _); discriminate Hs].
    + discriminate.
    + discriminate.
    + intros _ error. discriminate.
  - split; [| split; [| split]].
    + intros wc. split; [discriminate | intros (_ & Hs & _); discriminate Hs].
    + discriminate.
    + discriminate.
    + intros _ error' _. split; [reflexivity |]. split.
      * rewrite length_app. cbn. lia.
      * apply Hadded. reflexivity.
Qed.

Lemma addWorldClock_outcomes_witness :
  snd (WorldClockManager.addWorldClock exampleHost [] "Mars/Olympus_Mons" None
         (accepted "wc_1")) = None.
Proof.
  destruct (addWorldClock_outcomes exampleHost [] "Mars/Olympus_Mons" None (accepted "wc_1"))
    as (_ & _ & Hrefused & _).
  rewrite Hrefused; reflexivity.
Defined.

Lemma find_filter_other (worldClocks : list WorldClockManager.WorldClock) (id id' : string) :
  id' <> id ->
  WorldClockManager.getWorldClockById
    (List.filter (fun wc => negb (String.eqb (WorldClockManager.id wc) id)) worldClocks) id'
  = WorldClockManager.getWorldClockById worldClocks id'.
Proof.
  intros Hne. unfold WorldClockManager.getWorldClockById.
  induction worldClocks as [| wc rest IH]; [reflexivity |]. cbn.
  destruct (String.eqb_spec (WorldClockManager.id wc) id) as [E | E]; cbn.
  - destruct (String.eqb_spec (WorldClockManager.id wc) id') as [E' | _]; [congruence | exact IH].
  - destruct (String.eqb (WorldClockManager.id wc) id'); [reflexivity | exact IH].
Qed.

Lemma find_filter_same (worldClocks : list WorldClockManager.WorldClock) (id : string) :
  WorldClockManager.getWorldClockById
    (List.filter (fun wc => negb (String.eqb (WorldClockManager.id wc) id)) worldClocks) id
  = None.
Proof.
  unfold WorldClockManager.getWorldClockById.
  induction worldClocks as [| wc rest IH]; [reflexivity |]. cbn.
  destruct (String.eqb (WorldClockManager.id wc) id) eqn:E; cbn; [exact IH |].
  rewrite E. exact IH.
Qed.

Lemma filter_length_eq_find (worldClocks : list WorldClockManager.WorldClock) (id : string) :
  WorldClockManager.getWorldClockById worldClocks id = None ->
  List.filter (fun wc => negb (String.eqb (WorldClockManager.id wc) id)) worldClocks
  = worldClocks.
Proof.
  unfold WorldClockManager.getWorldClockById.
  induction worldClocks as [| wc rest IH]; [reflexivity |]. cbn.
  destruct (String.eqb (WorldClockManager.id wc) id); cbn; [discriminate |].
  intros Hn. rewrite (IH Hn). reflexivity.
Qed.

(** X19: [removeWorldClock]: afterwards no clock has the id, whatever the
    settings manager answers, and every clock with another id is found as
    before; the call returns true only if a clock had the id and the
    settings manager answered true; removing an id that no clock has leaves
    the array as it is and returns false. *)
Theorem removeWorldClock_spec (worldClocks : list WorldClockManager.WorldClock)
    (id : string) (saved : WorldClockManager.Saved) :
  let outcome := WorldClockManager.removeWorldClock worldClocks id saved in
  WorldClockManager.getWorldClockById (fst outcome) id = None /\
  (forall id', id' <> id ->
     WorldClockManager.getWorldClockById (fst outcome) id'
     = WorldClockManager.getWorldClockById worldClocks id') /\
  (snd outcome = true ->
   saved = Ok true /\ WorldClockManager.getWorldClockById worldClocks id <> None) /\
  (WorldClockManager.getWorldClockById worldClocks id = None ->
   outcome = (worldClocks, false)).
Proof.
  intros outcome. subst outcome. unfold WorldClockManager.removeWorldClock.
  assert (Hfst : forall b,
            fst (match saved with
                 | Ok success =>
                     (List.filter (fun wc => negb (String.eqb (WorldClockManager.id wc) id))
                        worldClocks, b success)
                 | Throw _ =>
                     (List.filter (fun wc => negb (String.eqb (WorldClockManager.id wc) id))
                        worldClocks, false)
                 end)
            = List.filter (fun wc => negb (String.eqb (WorldClockManager.id wc) id))
                worldClocks)
    by (intros b; destruct saved; reflexivity).
  cbv zeta. rewrite Hfst.
  split; [apply find_filter_same |].
  split; [intros id' Hne; apply find_filter_other; exact Hne |].
  split.
  - destruct saved as [[|] | e]; cbn [snd andb]; try discriminate.
    intros Hlt. split; [reflexivity |]. intros Hnone.
    rewrite (filter_length_eq_find _ _ Hnone) in Hlt.
    apply Nat.ltb_lt in Hlt. lia.
  - intros Hnone. rewrite (filter_length_eq_find _ _ Hnone).
    destruct saved as [b | e]; [| reflexivity].
    rewrite Nat.ltb_irrefl, andb_false_r. reflexivity.
Qed.

Lemma removeWorldClock_spec_witness :
  WorldClockManager.removeWorldClock [] "wc_1" (Ok true) = ([], false).
Proof.
  destruct (removeWorldClock_spec [] "wc_1" (Ok true)) as (_ & _ & _ & Hnone).
  apply Hnone. reflexivity.
Defined.

(** X20: [updateAllWorldClocks] keeps the array's length, order, ids,
    time zones and enabled flags; it gives every enabled clock the
    result of its own update and leaves every disabled clock untouched, so
    one clock's failure cannot reach another clock.  While an update is
    already running the call changes nothing. *)
Theorem updateAllWorldClocks_frame (h : Host)
    (worldClocks : list WorldClockManager.WorldClock) (clock : nat -> Date) :
  WorldClockManager.updateAllWorldClocks h true worldClocks clock = (worldClocks, true) /\
  snd (WorldClockManager.updateAllWorldClocks h false worldClocks clock) = false /\
  Forall2
    (fun old new =>
       (WorldClockManager.isEnabled old = false /\ new = old) \/
       (WorldClockManager.isEnabled old = true /\
        exists now, new = WorldClockManager.updateWorldClockTime h old now))
    worldClocks
    (fst (WorldClockManager.updateAllWorldClocks h false worldClocks clock)) /\
  map WorldClockManager.id
      (fst (WorldClockManager.updateAllWorldClocks h false worldClocks clock))
    = map WorldClockManager.id worldClocks /\
  map WorldClockManager.wc_timezone
      (fst (WorldClockManager.updateAllWorldClocks h false worldClocks clock))
    = map WorldClockManager.wc_timezone worldClocks /\
  map WorldClockManager.isEnabled
      (fst (WorldClockManager.updateAllWorldClocks h false worldClocks clock))
    = map WorldClockManager.isEnabled worldClocks.
Proof.
  split; [reflexivity | split; [reflexivity |]].
  unfold WorldClockManager.updateAllWorldClocks. cbn [fst].
  generalize 0%nat as i.
  induction worldClocks as [| wc rest IH]; intros i; cbn [WorldClockManager.updateEach map].
  - split; [constructor | split; [reflexivity | split; reflexivity]].
  - destruct (WorldClockManager.isEnabled wc) eqn:Hen.
    + destruct (IH (S i)) as (HF & Hid & Htz & Hens).
      destruct (updateWorldClockTime_fields h wc (clock i)) as (Eid & _ & Een & _).
      cbn [map]. rewrite Hid, Htz, Hens, Eid, Een, updateWorldClockTime_timezone.
      split; [| split; [reflexivity | split; [reflexivity | rewrite Hen; reflexivity]]].
      constructor; [right; split; [exact Hen | eexists; reflexivity] | exact HF].
    + destruct (IH i) as (HF & Hid & Htz & Hens).
      cbn [map]. rewrite Hid, Htz, Hens.
      split; [| split; [reflexivity | split; [reflexivity | rewrite Hen; reflexivity]]].
      constructor; [left; split; [exact Hen | reflexivity] | exact HF].
Qed.

(** X21: [reorderWorldClocks] takes a new order when it has as many clocks as
    the array and names every id of the array: the array becomes the new
    order, whether the settings are saved or not, and the call returns true
    when they are saved and false when saving throws; when the ids of the
    array are distinct the new order's ids are a permutation of them.  Any
    other new order is refused: the call returns false and the array is
    unchanged.  So the call returns true exactly for a new order of the
    same length that names every id, saved without an exception. *)
Theorem reorderWorldClocks_spec
    (worldClocks newOrder : list WorldClockManager.WorldClock) (saved : result unit) :
  let outcome := WorldClockManager.reorderWorldClocks worldClocks newOrder saved in
  let taken :=
    length newOrder = length worldClocks /\
    (forall wc, In wc worldClocks ->
       In (WorldClockManager.id wc) (map WorldClockManager.id newOrder)) in
  (taken ->
   fst outcome = newOrder /\
   snd outcome = isOk saved /\
   (List.NoDup (map WorldClockManager.id worldClocks) ->
    Permutation (map WorldClockManager.id worldClocks) (map WorldClockManager.id newOrder))) /\
  (~ taken -> outcome = (worldClocks, false)) /\
  (snd outcome = true <-> taken /\ isOk saved = true).
Proof.
  intros outcome taken. subst outcome taken.
  unfold WorldClockManager.reorderWorldClocks.
  destruct (Nat.eqb_spec (length newOrder) (length worldClocks)) as [Hlen | Hlen];
    cbn [negb].
  2: { split; [intros (H & _); contradiction |].
       split; [reflexivity |].
       split; [discriminate | intros ((H & _) & _); contradiction]. }
  destruct (forallb _ (map WorldClockManager.id worldClocks)) eqn:Hall; cbn [negb].
  - assert (Hincl : incl (map WorldClockManager.id worldClocks)
                         (map WorldClockManager.id newOrder)).
    { intros i Hi. rewrite forallb_forall in Hall. specialize (Hall i Hi).
      apply existsb_exists in Hall as (j & Hj & Heq).
      apply String.eqb_eq in Heq. subst j. exact Hj. }
    assert (Htaken : forall wc, In wc worldClocks ->
              In (WorldClockManager.id wc) (map WorldClockManager.id newOrder)).
    { intros wc Hin. apply Hincl, in_map, Hin. }
    split; [| split].
    + intros _. split; [destruct saved; reflexivity |].
      split; [destruct saved; reflexivity |].
      intros Hnd. apply NoDup_Permutation_bis; [exact Hnd | | exact Hincl].
      rewrite !length_map. lia.
    + intros Hnot. exfalso. apply Hnot. split; assumption.
    + destruct saved; cbn [fst snd isOk].
      * split; [intros _; split; [split; assumption | reflexivity] | reflexivity].
      * split; [discriminate | intros (_ & H); discriminate H].
  - assert (Hmiss : ~ (forall wc, In wc worldClocks ->
              In (WorldClockManager.id wc) (map WorldClockManager.id newOrder))).
    { intros Hin.
      assert (Htrue : forallb
                (fun i => existsb (String.eqb i) (map WorldClockManager.id newOrder))
                (map WorldClockManager.id worldClocks) = true).
      { apply forallb_forall. intros i Hi.
        apply in_map_iff in Hi as (wc & <- & Hwc).
        apply existsb_exists. exists (WorldClockManager.id wc).
        split; [apply Hin, Hwc | apply String.eqb_refl]. }
      rewrite Htrue in Hall. discriminate Hall. }
    split; [intros (_ & H); contradiction |].
    split; [reflexivity |].
    split; [discriminate | intros ((_ & H) & _); contradiction].
Qed.

Lemma reorderWorldClocks_spec_witness :
  let worldClocks :=
    WorldClockManager.run exampleHost
      [WorldClockManager.Add "UTC" None (accepted "wc_1");
       WorldClockManager.Add "Europe/London" None (accepted "wc_2")] in
  map WorldClockManager.id worldClocks = ["wc_1"; "wc_2"]%string /\
  map WorldClockManager.id (rev worldClocks) = ["wc_2"; "wc_1"]%string /\
  WorldClockManager.reorderWorldClocks worldClocks (rev worldClocks) (Ok tt)
  = (rev worldClocks, true) /\
  WorldClockManager.reorderWorldClocks worldClocks (rev worldClocks)
    (Throw (Error "QuotaExceededError"))
  = (rev worldClocks, false) /\
  WorldClockManager.reorderWorldClocks worldClocks (worldClocks ++ worldClocks) (Ok tt)
  = (worldClocks, false).
Proof.
  intros worldClocks.
  assert (Htaken : length (rev worldClocks) = length worldClocks /\
            (forall wc, In wc worldClocks ->
               In (WorldClockManager.id wc)
                  (map WorldClockManager.id (rev worldClocks)))).
  { split; [reflexivity |].
    intros wc [<- | [<- | []]]; vm_compute; auto. }
  split; [reflexivity |]. split; [reflexivity |].
  split; [| split].
  - destruct (reorderWorldClocks_spec worldClocks (rev worldClocks) (Ok tt))
      as (Hacc & _).
    destruct (Hacc Htaken) as (Hfst & Hsnd & _).
    rewrite (surjective_pairing (WorldClockManager.reorderWorldClocks _ _ _)).
    rewrite Hfst, Hsnd. reflexivity.
  - destruct (reorderWorldClocks_spec worldClocks (rev worldClocks)
                (Throw (Error "QuotaExceededError")))
      as (Hacc & _).
    destruct (Hacc Htaken) as (Hfst & Hsnd & _).
    rewrite (surjective_pairing (WorldClockManager.reorderWorldClocks _ _ _)).
    rewrite Hfst, Hsnd. reflexivity.
  - destruct (reorderWorldClocks_spec worldClocks (worldClocks ++ worldClocks) (Ok tt))
      as (_ & Hrefused & _).
    apply Hrefused. intros (Hlen & _). vm_compute in Hlen. discriminate Hlen.
Defined.

Lemma updateFirst_split (f : WorldClockManager.WorldClock -> WorldClockManager.WorldClock)
    (id : string) (pre post : list WorldClockManager.WorldClock)
    (wc : WorldClockManager.WorldClock) :
  WorldClockManager.getWorldClockById pre id = None ->
  WorldClockManager.id wc = id ->
  WorldClockManager.updateFirst f id (pre ++ wc :: post) = pre ++ f wc :: post /\
  WorldClockManager.getWorldClockById (pre ++ wc :: post) id = Some wc.
Proof.
  intros Hpre Hid. unfold WorldClockManager.getWorldClockById in *.
  induction pre as [| p pre IH]; cbn in *.
  - rewrite Hid, String.eqb_refl. split; reflexivity.
  - destruct (String.eqb (WorldClockManager.id p) id); [discriminate |].
    destruct (IH Hpre) as (-> & ->). split; reflexivity.
Qed.

(** X22: [updateWorldClockCityName] renames the first clock that has the id and
    no other clock.  When the settings manager answers false the name is not
    put back: the clock gets the default city name of its time zone.  When
    the settings manager throws, the new name stays although the call
    returns false.  An unknown id changes nothing. *)
Theorem updateWorldClockCityName_spec
    (pre post : list WorldClockManager.WorldClock) (wc : WorldClockManager.WorldClock)
    (id newCityName : string) (saved : WorldClockManager.Saved) :
  WorldClockManager.getWorldClockById pre id = None ->
  WorldClockManager.id wc = id ->
  WorldClockManager.updateWorldClockCityName (pre ++ wc :: post) id newCityName saved
  = match saved with
    | Ok true => (pre ++ WorldClockManager.set_cityName wc newCityName :: post, true)
    | Ok false =>
        (pre ++ WorldClockManager.set_cityName wc
                  (WorldClockManager.getCityNameForTimezone
                     (WorldClockManager.wc_timezone wc)) :: post, false)
    | Throw _ => (pre ++ WorldClockManager.set_cityName wc newCityName :: post, false)
    end /\
  WorldClockManager.updateWorldClockCityName pre id newCityName saved = (pre, false).
Proof.
  intros Hpre Hid. unfold WorldClockManager.updateWorldClockCityName.
  rewrite Hpre.
  destruct (updateFirst_split (fun w => WorldClockManager.set_cityName w newCityName)
              id pre post wc Hpre Hid) as (-> & ->).
  split; [| reflexivity].
  destruct saved as [[|] | e]; try reflexivity.
  destruct (updateFirst_split
              (fun w => WorldClockManager.set_cityName w
                          (WorldClockManager.getCityNameForTimezone
                             (WorldClockManager.wc_timezone w)))
              id pre post (WorldClockManager.set_cityName wc newCityName) Hpre Hid)
    as (-> & _).
  reflexivity.
Qed.

Lemma updateWorldClockCityName_spec_witness :
  WorldClockManager.cityName
    (nth 0 (fst (WorldClockManager.updateWorldClockCityName
                   ([] ++ {| WorldClockManager.id := "wc_1";
                             WorldClockManager.cityName := "Big Apple";
                             WorldClockManager.wc_timezone := "America/New_York";
                             WorldClockManager.isEnabled := true;
                             WorldClockManager.timeData := None |} :: [])
                   "wc_1" "NYC" (Ok false)))
       {| WorldClockManager.id := "";
          WorldClockManager.cityName := "";
          WorldClockManager.wc_timezone := "";
          WorldClockManager.isEnabled := false;
          WorldClockManager.timeData := None |})
  = "New York"%string.
Proof.
  destruct (updateWorldClockCityName_spec [] []
              {| WorldClockManager.id := "wc_1";
                 WorldClockManager.cityName := "Big Apple";
                 WorldClockManager.wc_timezone := "America/New_York";
                 WorldClockManager.isEnabled := true;
                 WorldClockManager.timeData := None |}
              "wc_1" "NYC" (Ok false) eq_refl eq_refl) as (-> & _).
  reflexivity.
Defined.

Lemma hasChar_snoc (x c : ascii) (acc : string) :
  hasChar x (acc +:+ String c "") = hasChar x acc || Ascii.eqb c x.
Proof.
  induction acc as [| a acc IH]; simpl.
  - apply orb_false_r.
  - rewrite IH. apply orb_assoc.
Qed.

Lemma splitPop_no_slash (s acc : string) :
  hasChar "/" acc = false -> hasChar "/" (WorldClockManager.splitPop s acc) = false.
Proof.
  revert acc. induction s as [| c r IH]; intros acc Hacc; simpl; [exact Hacc |].
  destruct (Ascii.eqb c "/"%char) eqn:E; apply IH; [reflexivity |].
  rewrite hasChar_snoc, Hacc, E. reflexivity.
Qed.

Lemma replaceUnderscores_chars (s : string) :
  hasChar "_" (WorldClockManager.replaceUnderscores s) = false /\
  (hasChar "/" s = false -> hasChar "/" (WorldClockManager.replaceUnderscores s) = false).
Proof.
  induction s as [| c r (IH1 & IH2)]; cbn; [split; reflexivity |].
  destruct (Ascii.eqb_spec c "_"%char) as [-> | Hne]; cbn.
  - split; [exact IH1 | exact IH2].
  - split.
    + destruct (Ascii.eqb_spec c "_"%char); [contradiction | exact IH1].
    + intros H. apply orb_false_iff in H as (Hc & Hr). rewrite Hc. cbn. apply IH2. exact Hr.
Qed.

(** X23: [getCityNameForTimezone] returns the listed city name for each of the
    available time zones; for any other identifier it returns a name that
    contains neither a slash nor an underscore. *)
Theorem getCityNameForTimezone_spec (timezone : string) :
  (forall city region,
      In (timezone, city, region) WorldClockManager.availableTimezones ->
      WorldClockManager.getCityNameForTimezone timezone = city) /\
  ((forall city region,
       ~ In (timezone, city, region) WorldClockManager.availableTimezones) ->
   hasChar "/" (WorldClockManager.getCityNameForTimezone timezone) = false /\
   hasChar "_" (WorldClockManager.getCityNameForTimezone timezone) = false).
Proof.
  split.
  - intros city region Hin. cbn in Hin.
    repeat (destruct Hin as [Hin | Hin]; [injection Hin as <- <- <-; reflexivity |]).
    destruct Hin.
  - intros Hnot. unfold WorldClockManager.getCityNameForTimezone.
    destruct (List.find _ WorldClockManager.availableTimezones) as [[[tz city] region] |] eqn:E.
    + apply find_some in E as (Hin & Heq). cbn in Heq.
      apply String.eqb_eq in Heq. subst tz. exfalso. exact (Hnot city region Hin).
    + destruct (replaceUnderscores_chars (WorldClockManager.splitPop timezone "")) as (H1 & H2).
      split; [apply H2, splitPop_no_slash; reflexivity | exact H1].
Qed.

Lemma getCityNameForTimezone_spec_witness :
  WorldClockManager.getCityNameForTimezone "Asia/Hong_Kong" = "Hong Kong"%string.
Proof.
  destruct (getCityNameForTimezone_spec "Asia/Hong_Kong") as (Hlisted & _).
  apply (Hlisted "Hong Kong"%string "Asia"%string). vm_compute. tauto.
Defined.

(** ** The two managers together *)

Import Composite.

Lemma persist_frame w st :
  objects (persist w st) = objects w /\ arrays (persist w st) = arrays w /\
  nextLoc (persist w st) = nextLoc w /\ managerClocks (persist w st) = managerClocks w /\
  defaultClocks (persist w st) = defaultClocks w /\
  (ownClocks (persist w st) = ownClocks w \/
   ownClocks (persist w st) = Some (defaultClocks w)).
Proof.
  unfold persist, handleStorageQuotaExceeded, clearAllSettings.
  destruct (firstWrite st); [tauto |].
  destruct (String.eqb _ _); [| tauto].
  destruct (backgroundImage w); [| tauto].
  destruct (secondWrite st); cbn; [tauto |].
  destruct (removal st); cbn; tauto.
Qed.

Lemma set_isEnabled_same o :
  set_isEnabled o (WorldClockManager.isEnabled o) = o.
Proof. destruct o; reflexivity. Qed.

Lemma deref_flip_id w r x :
  WorldClockManager.id (deref (flip w r) x) = WorldClockManager.id (deref w x).
Proof.
  unfold deref, flip; cbn.
  destruct (decide (r = x)) as [-> | Hne].
  - rewrite lookup_insert_eq. reflexivity.
  - rewrite lookup_insert_ne by exact Hne. reflexivity.
Qed.

Lemma findById_flip w r els id :
  findById (flip w r) els id = findById w els id.
Proof.
  unfold findById. induction els as [| x els IH]; cbn; [reflexivity |].
  rewrite deref_flip_id, IH. reflexivity.
Qed.

Lemma findById_Some w els id r :
  findById w els id = Some r ->
  In r els /\ WorldClockManager.id (deref w r) = id.
Proof.
  intros H. apply find_some in H as [Hin Heq].
  split; [exact Hin | apply String.eqb_eq, Heq].
Qed.

Lemma flip_flip w r o :
  objects w !! r = Some o -> objects (flip (flip w r) r) = objects w.
Proof.
  intros Ho. unfold flip, deref. cbn [objects set_objects].
  rewrite insert_insert_eq, lookup_insert_eq, Ho. cbn.
  rewrite negb_involutive.
  apply insert_id. rewrite Ho. f_equal. symmetry. destruct o; reflexivity.
Qed.

Lemma toggleWorldClock_frame w id st :
  heapInvariant w ->
  objects (fst (toggleWorldClock w id st)) = objects w /\
  arrays (fst (toggleWorldClock w id st)) = arrays w /\
  nextLoc (fst (toggleWorldClock w id st)) = nextLoc w /\
  managerClocks (fst (toggleWorldClock w id st)) = managerClocks w /\
  defaultClocks (fst (toggleWorldClock w id st)) = defaultClocks w /\
  (ownClocks (fst (toggleWorldClock w id st)) = ownClocks w \/
   ownClocks (fst (toggleWorldClock w id st)) = Some (getWorldClocks w) \/
   ownClocks (fst (toggleWorldClock w id st)) = Some (defaultClocks w)) /\
  snd (toggleWorldClock w id st) =
    bool_decide (is_Some (findById w (elements w (managerClocks w)) id)) &&
    bool_decide (is_Some (findById w (elements w (getWorldClocks w)) id)).
Proof.
  intros (Hels & Hids & _).
  unfold toggleWorldClock.
  destruct (findById w (elements w (managerClocks w)) id) as [r |] eqn:Hm;
    [| cbn; tauto].
  destruct (findById_Some _ _ _ _ Hm) as [Hin Hid].
  assert (Hr : is_Some (objects w !! r)).
  { unfold elements in Hin.
    destruct (arrays w !! managerClocks w) as [els |] eqn:Ha; [| destruct Hin].
    exact (Hels _ _ _ Ha Hin). }
  destruct Hr as [o Ho].
  unfold SettingsManager.toggleWorldClock.
  change (getWorldClocks (flip w r)) with (getWorldClocks w).
  change (elements (flip w r) (getWorldClocks w)) with (elements w (getWorldClocks w)).
  rewrite findById_flip.
  destruct (findById w (elements w (getWorldClocks w)) id) as [r' |] eqn:Hs.
  - destruct (findById_Some _ _ _ _ Hs) as [Hin' Hid'].
    assert (Hr' : is_Some (objects w !! r')).
    { unfold elements in Hin'.
      destruct (arrays w !! getWorldClocks w) as [els |] eqn:Ha; [| destruct Hin'].
      exact (Hels _ _ _ Ha Hin'). }
    destruct Hr' as [o' Ho'].
    assert (r' = r) as ->.
    { apply (Hids r' r o' o Ho' Ho).
      unfold deref in Hid, Hid'. rewrite Ho in Hid. rewrite Ho' in Hid'. cbn in *.
      congruence. }
    cbn [fst snd]. unfold saveWorldClocks.
    destruct (persist_frame
                (set_settings (flip (flip w r) r) (Some (getWorldClocks w))
                   (backgroundImage (flip (flip w r) r))) st)
      as (-> & -> & -> & -> & -> & Hown).
    cbn [objects arrays nextLoc managerClocks defaultClocks ownClocks set_settings] in *.
    rewrite (flip_flip _ _ _ Ho).
    repeat split; try reflexivity.
    destruct Hown as [Hown | Hown]; rewrite Hown; auto.
  - cbn [fst snd]. rewrite (flip_flip _ _ _ Ho).
    repeat split; try reflexivity; auto.
Qed.

Ltac heap_simpl :=
  cbn [fst snd objects arrays nextLoc managerClocks ownClocks defaultClocks backgroundImage] in *.

Ltac heap_unfold :=
  unfold heapInvariant, getWorldClocks, newArray, newObject, set_managerClocks,
    set_settings, set_array, set_objects in *; heap_simpl.

Ltac heap_split := split; [| split; [| split; [| split; [| split; [| split]]]]].

Lemma In_elements w a r :
  In r (elements w a) -> exists els, arrays w !! a = Some els /\ In r els.
Proof.
  unfold elements. destruct (arrays w !! a) as [els |]; cbn; [eauto | tauto].
Qed.

Lemma heapInvariant_elements w a r :
  heapInvariant w -> In r (elements w a) -> is_Some (objects w !! r).
Proof.
  intros (H1 & _) Hin. apply In_elements in Hin as (els & Ha & Hin). eauto.
Qed.

Lemma getWorldClocks_lt w :
  heapInvariant w ->
  (getWorldClocks w < nextLoc w)%nat /\ (managerClocks w < nextLoc w)%nat /\
  (defaultClocks w < nextLoc w)%nat.
Proof.
  intros (_ & _ & _ & _ & H5 & (Hm & Hd & Hs) & _). auto.
Qed.

Lemma heapInvariant_newArray w els :
  heapInvariant w ->
  (forall r, In r els -> is_Some (objects w !! r)) ->
  heapInvariant (fst (newArray w els)).
Proof.
  intros (H1 & H2 & H3 & H4 & H5 & (Hm & Hd & Hs) & H7) Hels.
  pose proof (H5 _ Hm). pose proof (H5 _ Hd). pose proof (H5 _ Hs).
  heap_unfold. heap_split.
  - intros a els' r Ha Hin.
    destruct (decide (nextLoc w = a)) as [<- | Hne].
    + rewrite lookup_insert_eq in Ha. injection Ha as <-. auto.
    + rewrite lookup_insert_ne in Ha by exact Hne. eauto.
  - exact H2.
  - exact H3.
  - intros r Hr. apply H4 in Hr. lia.
  - intros a Ha. destruct (decide (nextLoc w = a)) as [<- | Hne]; [lia |].
    rewrite lookup_insert_ne in Ha by exact Hne. apply H5 in Ha. lia.
  - rewrite !lookup_insert_ne by lia. auto.
  - exact H7.
Qed.

Lemma heapInvariant_set_managerClocks w a :
  heapInvariant w -> is_Some (arrays w !! a) ->
  a <> getWorldClocks w -> a <> defaultClocks w ->
  heapInvariant (set_managerClocks w a).
Proof.
  intros (H1 & H2 & H3 & H4 & H5 & (Hm & Hd & Hs) & H7) Ha Hs' Hd'.
  heap_unfold. heap_split; auto.
Qed.

Lemma heapInvariant_set_settings w a image :
  heapInvariant w -> is_Some (arrays w !! a) -> a <> managerClocks w ->
  heapInvariant (set_settings w (Some a) image).
Proof.
  intros (H1 & H2 & H3 & H4 & H5 & (Hm & Hd & Hs) & H7) Ha Hne.
  heap_unfold. heap_split; auto.
  split; [congruence | tauto].
Qed.

Lemma heapInvariant_image w image :
  heapInvariant w -> heapInvariant (set_settings w (ownClocks w) image).
Proof.
  intros (H1 & H2 & H3 & H4 & H5 & (Hm & Hd & Hs) & H7).
  heap_unfold. heap_split; auto.
Qed.

Lemma heapInvariant_persist w st :
  heapInvariant w -> heapInvariant (persist w st).
Proof.
  intros Hw. unfold persist, handleStorageQuotaExceeded, clearAllSettings.
  destruct (firstWrite st); [exact Hw |].
  destruct (String.eqb _ _); [| exact Hw].
  destruct (backgroundImage w); [| exact Hw].
  destruct (secondWrite st); [apply heapInvariant_image, Hw |].
  destruct (removal st); [| apply heapInvariant_image, Hw].
  apply (heapInvariant_image _ false) in Hw.
  destruct Hw as (H1 & H2 & H3 & H4 & H5 & (Hm & Hd & Hs) & H7).
  heap_unfold. heap_split; auto. tauto.
Qed.

Lemma heapInvariant_set_array w a els :
  heapInvariant w -> is_Some (arrays w !! a) ->
  (forall r, In r els -> is_Some (objects w !! r)) ->
  heapInvariant (set_array w a els).
Proof.
  intros (H1 & H2 & H3 & H4 & H5 & (Hm & Hd & Hs) & H7) Ha Hels.
  heap_unfold. heap_split; auto.
  - intros a' els' r Ha' Hin.
    destruct (decide (a = a')) as [<- | Hne].
    + rewrite lookup_insert_eq in Ha'. injection Ha' as <-. auto.
    + rewrite lookup_insert_ne in Ha' by exact Hne. eauto.
  - intros a' Ha'. apply H5. destruct (decide (a = a')) as [<- | Hne]; [exact Ha |].
    rewrite lookup_insert_ne in Ha' by exact Hne. exact Ha'.
  - rewrite !lookup_insert_is_Some. repeat split; destruct (decide (a = managerClocks w));
      destruct (decide (a = defaultClocks w)); auto.
    all: destruct (ownClocks w) as [x |]; [destruct (decide (a = x)) |]; auto.
Qed.

Lemma heapInvariant_newObject w o :
  heapInvariant w ->
  (forall r o', objects w !! r = Some o' -> WorldClockManager.id o' <> WorldClockManager.id o) ->
  WorldClockManager.isEnabled o = true ->
  heapInvariant (fst (newObject w o)).
Proof.
  intros (H1 & H2 & H3 & H4 & H5 & (Hm & Hd & Hs) & H7) Hfresh Hen.
  heap_unfold. heap_split; auto.
  - intros a els r Ha Hin. rewrite lookup_insert_is_Some.
    destruct (decide (nextLoc w = r)); [auto | right; eauto].
  - intros r r' o1 o2 Hr Hr' Hid.
    destruct (decide (nextLoc w = r)) as [<- | Hne];
      destruct (decide (nextLoc w = r')) as [<- | Hne']; [reflexivity | | |].
    + rewrite lookup_insert_eq in Hr. rewrite lookup_insert_ne in Hr' by exact Hne'.
      injection Hr as <-. exfalso. exact (Hfresh _ _ Hr' (eq_sym Hid)).
    + rewrite lookup_insert_eq in Hr'. rewrite lookup_insert_ne in Hr by exact Hne.
      injection Hr' as <-. exfalso. exact (Hfresh _ _ Hr Hid).
    + rewrite lookup_insert_ne in Hr, Hr' by assumption. eauto.
  - intros r o' Hr. destruct (decide (nextLoc w = r)) as [<- | Hne].
    + rewrite lookup_insert_eq in Hr. injection Hr as <-. exact Hen.
    + rewrite lookup_insert_ne in Hr by exact Hne. eauto.
  - intros r Hr. destruct (decide (nextLoc w = r)) as [<- | Hne]; [lia |].
    rewrite lookup_insert_ne in Hr by exact Hne. apply H4 in Hr. lia.
  - intros a Ha. apply H5 in Ha. lia.
Qed.

Lemma heapInvariant_set_object w r o o' :
  heapInvariant w -> objects w !! r = Some o ->
  WorldClockManager.id o' = WorldClockManager.id o ->
  WorldClockManager.isEnabled o' = true ->
  heapInvariant (set_objects w (<[r := o']> (objects w))).
Proof.
  intros (H1 & H2 & H3 & H4 & H5 & (Hm & Hd & Hs) & H7) Ho Hid Hen.
  heap_unfold. heap_split; auto.
  - intros a els x Ha Hin. rewrite lookup_insert_is_Some.
    destruct (decide (r = x)); [auto | right; eauto].
  - intros x x' o1 o2 Hx Hx' Hids.
    destruct (decide (r = x)) as [<- | Hne];
      destruct (decide (r = x')) as [<- | Hne']; [reflexivity | | |].
    + rewrite lookup_insert_eq in Hx. rewrite lookup_insert_ne in Hx' by exact Hne'.
      injection Hx as <-. apply (H2 _ _ _ _ Ho Hx'). congruence.
    + rewrite lookup_insert_eq in Hx'. rewrite lookup_insert_ne in Hx by exact Hne.
      injection Hx' as <-. apply (H2 _ _ _ _ Hx Ho). congruence.
    + rewrite lookup_insert_ne in Hx, Hx' by assumption. eauto.
  - intros x o1 Hx. destruct (decide (r = x)) as [<- | Hne].
    + rewrite lookup_insert_eq in Hx. injection Hx as <-. exact Hen.
    + rewrite lookup_insert_ne in Hx by exact Hne. eauto.
  - intros x Hx. apply H4. destruct (decide (r = x)) as [<- | Hne]; [eauto |].
    rewrite lookup_insert_ne in Hx by exact Hne. exact Hx.
Qed.

Lemma filter_elements_dom w a (f : loc -> bool) :
  heapInvariant w ->
  forall r, In r (List.filter f (elements w a)) -> is_Some (objects w !! r).
Proof.
  intros Hw r Hin. apply filter_In in Hin as [Hin _].
  exact (heapInvariant_elements _ _ _ Hw Hin).
Qed.

Lemma newArray_lookup w els :
  is_Some (arrays (fst (newArray w els)) !! nextLoc w).
Proof. cbn. rewrite lookup_insert_eq. eauto. Qed.

Lemma heapInvariant_settings_removeWorldClock w id st :
  heapInvariant w ->
  heapInvariant (fst (SettingsManager.removeWorldClock w id st)).
Proof.
  intros Hw. unfold SettingsManager.removeWorldClock.
  set (els := List.filter _ _).
  pose proof (heapInvariant_newArray w els Hw (filter_elements_dom _ _ _ Hw)) as Hw1.
  pose proof (newArray_lookup w els) as Hn.
  destruct (getWorldClocks_lt w Hw) as (_ & Hlt & _).
  destruct (newArray w els) as [w1 filtered] eqn:E.
  assert (filtered = nextLoc w /\ managerClocks w1 = managerClocks w) as [-> Hm].
  { unfold newArray in E. injection E as <- <-. split; reflexivity. }
  cbn [fst] in *.
  destruct (negb _); cbn [fst]; [| exact Hw1].
  apply heapInvariant_persist, heapInvariant_set_settings; [exact Hw1 | exact Hn |].
  rewrite Hm. lia.
Qed.

Lemma heapInvariant_removeWorldClock w id st :
  heapInvariant w -> heapInvariant (fst (removeWorldClock w id st)).
Proof.
  intros Hw. unfold removeWorldClock.
  set (els := List.filter _ _).
  pose proof (heapInvariant_newArray w els Hw (filter_elements_dom _ _ _ Hw)) as Hw1.
  pose proof (newArray_lookup w els) as Hn.
  destruct (getWorldClocks_lt w Hw) as (Hs & _ & Hd).
  destruct (newArray w els) as [w1 filtered] eqn:E.
  assert (filtered = nextLoc w /\ getWorldClocks w1 = getWorldClocks w /\
          defaultClocks w1 = defaultClocks w) as (-> & Hs1 & Hd1).
  { unfold newArray in E. injection E as <- <-. repeat split; reflexivity. }
  cbn [fst] in *.
  assert (Hw2 : heapInvariant (set_managerClocks w1 (nextLoc w))).
  { apply heapInvariant_set_managerClocks; [exact Hw1 | exact Hn | |].
    - rewrite Hs1. lia.
    - rewrite Hd1. lia. }
  pose proof (heapInvariant_settings_removeWorldClock _ id st Hw2) as Hw3.
  destruct (SettingsManager.removeWorldClock _ id st) as [w3 success].
  exact Hw3.
Qed.

Lemma heapInvariant_settings_addWorldClock w r st :
  heapInvariant w -> is_Some (objects w !! r) ->
  heapInvariant (fst (SettingsManager.addWorldClock w r st)).
Proof.
  intros Hw Hr. unfold SettingsManager.addWorldClock.
  destruct (3 <=? _)%nat; [exact Hw |].
  destruct (hasTimezone _ _ _); [exact Hw |].
  cbn [fst]. unfold saveWorldClocks.
  assert (Hs : is_Some (arrays w !! getWorldClocks w)) by apply Hw.
  assert (Hne : getWorldClocks w <> managerClocks w).
  { intros E. destruct Hw as (_ & _ & _ & _ & _ & _ & H7 & _). congruence. }
  apply heapInvariant_persist, heapInvariant_set_settings.
  - apply heapInvariant_set_array; [exact Hw | exact Hs |].
    intros x Hx. apply in_app_or in Hx as [Hx | [<- | []]]; [| exact Hr].
    exact (heapInvariant_elements _ _ _ Hw Hx).
  - cbn. rewrite lookup_insert_eq. eauto.
  - exact Hne.
Qed.

Lemma heapInvariant_updateWorldClockTime h w r now :
  heapInvariant w -> is_Some (objects w !! r) ->
  heapInvariant (updateWorldClockTime h w r now).
Proof.
  intros Hw [o Ho]. unfold updateWorldClockTime, deref. rewrite Ho. cbn [default].
  destruct (updateWorldClockTime_fields h o now) as (Hid & _ & Hen & _).
  apply (heapInvariant_set_object w r o _ Hw Ho Hid).
  rewrite Hen. destruct Hw as (_ & _ & H3 & _). eauto.
Qed.

Lemma settings_addWorldClock_frame w r st :
  objects (fst (SettingsManager.addWorldClock w r st)) = objects w /\
  managerClocks (fst (SettingsManager.addWorldClock w r st)) = managerClocks w.
Proof.
  unfold SettingsManager.addWorldClock.
  destruct (3 <=? _)%nat; [tauto |].
  destruct (hasTimezone _ _ _); [tauto |].
  cbn [fst]. unfold saveWorldClocks.
  destruct (persist_frame
              (set_settings (set_array w (getWorldClocks w)
                               (elements w (getWorldClocks w) ++ [r]))
                 (Some (getWorldClocks w))
                 (backgroundImage (set_array w (getWorldClocks w)
                               (elements w (getWorldClocks w) ++ [r])))) st)
    as (-> & _ & _ & -> & _).
  split; reflexivity.
Qed.

Lemma heapInvariant_addWorldClock h w timezone cityName newId now st :
  heapInvariant w ->
  (forall r o, objects w !! r = Some o -> WorldClockManager.id o <> newId) ->
  heapInvariant (fst (addWorldClock h w timezone cityName newId now st)).
Proof.
  intros Hw Hfresh. unfold addWorldClock.
  destruct (3 <=? _)%nat; [exact Hw |].
  destruct (hasTimezone _ _ _); [exact Hw |].
  destruct (negb _); [exact Hw |].
  set (o := {| WorldClockManager.id := newId |}).
  pose proof (heapInvariant_newObject w o Hw Hfresh eq_refl) as Hw1.
  destruct (newObject w o) as [w1 cfg] eqn:E.
  assert (cfg = nextLoc w /\ objects w1 = <[nextLoc w := o]> (objects w)) as [-> Ho1].
  { unfold newObject in E. injection E as <- <-. split; reflexivity. }
  cbn [fst] in Hw1.
  assert (Hcfg : is_Some (objects w1 !! nextLoc w)).
  { rewrite Ho1, lookup_insert_eq. eauto. }
  assert (Hw2 : heapInvariant
                  (set_array w1 (managerClocks w)
                     (elements w1 (managerClocks w) ++ [nextLoc w]))).
  { apply heapInvariant_set_array; [exact Hw1 | |].
    - replace (managerClocks w) with (managerClocks w1); [apply Hw1 |].
      unfold newObject in E. injection E as <-. reflexivity.
    - intros x Hx. apply in_app_or in Hx as [Hx | [<- | []]]; [| exact Hcfg].
      exact (heapInvariant_elements _ _ _ Hw1 Hx). }
  set (w2 := set_array w1 _ _) in *.
  pose proof (heapInvariant_settings_addWorldClock w2 (nextLoc w) st Hw2 Hcfg) as Hw3.
  destruct (settings_addWorldClock_frame w2 (nextLoc w) st) as [Ho3 Hm3].
  destruct (SettingsManager.addWorldClock w2 (nextLoc w) st) as [w3 success].
  cbn [fst] in *.
  destruct success; cbn [fst].
  - apply heapInvariant_updateWorldClockTime; [exact Hw3 |].
    rewrite Ho3. exact Hcfg.
  - set (els := List.filter _ _).
    pose proof (heapInvariant_newArray w3 els Hw3 (filter_elements_dom _ _ _ Hw3)) as Hw4.
    pose proof (newArray_lookup w3 els) as Hn.
    destruct (getWorldClocks_lt w3 Hw3) as (Hs & _ & Hd).
    destruct (newArray w3 els) as [w4 filtered] eqn:E4.
    assert (filtered = nextLoc w3 /\ getWorldClocks w4 = getWorldClocks w3 /\
            defaultClocks w4 = defaultClocks w3) as (-> & Hs4 & Hd4).
    { unfold newArray in E4. injection E4 as <- <-. repeat split; reflexivity. }
    cbn [fst] in *.
    apply heapInvariant_set_managerClocks; [exact Hw4 | exact Hn | |].
    + rewrite Hs4. lia.
    + rewrite Hd4. lia.
Qed.

Lemma heapInvariant_initial : heapInvariant initial.
Proof.
  unfold heapInvariant, initial, getWorldClocks; heap_simpl. heap_split.
  - intros a els r Ha Hin.
    destruct (decide (1%nat = a)) as [<- | H1].
    + rewrite lookup_insert_eq in Ha. injection Ha as <-. destruct Hin.
    + rewrite lookup_insert_ne in Ha by exact H1.
      destruct (decide (0%nat = a)) as [<- | H0].
      * rewrite lookup_insert_eq in Ha. injection Ha as <-. destruct Hin.
      * rewrite lookup_insert_ne in Ha by exact H0. rewrite lookup_empty in Ha.
        discriminate.
  - intros r r' o o' Hr. rewrite lookup_empty in Hr. discriminate.
  - intros r o Hr. rewrite lookup_empty in Hr. discriminate.
  - intros r [o Hr]. rewrite lookup_empty in Hr. discriminate.
  - intros a [els Ha].
    destruct (decide (1%nat = a)) as [<- | H1]; [lia |].
    rewrite lookup_insert_ne in Ha by exact H1.
    destruct (decide (0%nat = a)) as [<- | H0]; [lia |].
    rewrite lookup_insert_ne in Ha by exact H0. rewrite lookup_empty in Ha.
    discriminate.
  - rewrite lookup_insert_eq, lookup_insert_ne, lookup_insert_eq by lia. eauto.
  - split; lia.
Qed.

Lemma heapInvariant_clearAllWorldClocks w st :
  heapInvariant w -> heapInvariant (fst (clearAllWorldClocks w st)).
Proof.
  intros Hw. unfold clearAllWorldClocks, SettingsManager.clearWorldClocks.
  assert (Hnil : forall r : loc, In r [] -> is_Some (objects w !! r)) by (intros r []).
  pose proof (heapInvariant_newArray w [] Hw Hnil) as Hw1.
  pose proof (newArray_lookup w []) as Hn.
  destruct (getWorldClocks_lt w Hw) as (Hs & _ & Hd).
  destruct (newArray w []) as [w1 empty] eqn:E.
  assert (empty = nextLoc w /\ getWorldClocks w1 = getWorldClocks w /\
          defaultClocks w1 = defaultClocks w /\ objects w1 = objects w /\
          nextLoc w1 = S (nextLoc w)) as (-> & Hs1 & Hd1 & Ho1 & Hn1).
  { unfold newArray in E. injection E as <- <-. repeat split; reflexivity. }
  cbn [fst] in *.
  assert (Hw2 : heapInvariant (set_managerClocks w1 (nextLoc w))).
  { apply heapInvariant_set_managerClocks; [exact Hw1 | exact Hn | |].
    - rewrite Hs1. lia.
    - rewrite Hd1. lia. }
  set (w2 := set_managerClocks w1 (nextLoc w)) in *.
  assert (Hnil2 : forall r : loc, In r [] -> is_Some (objects w2 !! r)) by (intros r []).
  pose proof (heapInvariant_newArray w2 [] Hw2 Hnil2) as Hw3.
  pose proof (newArray_lookup w2 []) as Hn3.
  destruct (newArray w2 []) as [w3 empty'] eqn:E3.
  assert (empty' = nextLoc w2 /\ managerClocks w3 = nextLoc w) as (-> & Hm3).
  { unfold newArray in E3. injection E3 as <- <-. split; reflexivity. }
  cbn [fst] in *. unfold saveWorldClocks.
  apply heapInvariant_persist, heapInvariant_set_settings; [exact Hw3 | exact Hn3 |].
  rewrite Hm3. change (nextLoc w2) with (nextLoc w1). lia.
Qed.

Lemma heapInvariant_apply h w op :
  heapInvariant w -> plainCall w op -> heapInvariant (apply h w op).
Proof.
  intros Hw [Hfresh Hplain].
  destruct op as [tz cn newId now st | id st | id st | id name st | newOrder st | st
                 | image st];
    cbn [apply]; try contradiction.
  - apply heapInvariant_addWorldClock; assumption.
  - apply heapInvariant_removeWorldClock; assumption.
  - destruct (toggleWorldClock_frame w id st Hw) as (Ho & Ha & Hn & Hm & Hd & Hown & _).
    destruct Hw as (H1 & H2 & H3 & H4 & H5 & (Hm' & Hd' & Hs') & H7).
    unfold heapInvariant, getWorldClocks in *.
    rewrite Ho, Ha, Hn, Hm, Hd.
    heap_split; auto.
    + repeat split; auto. destruct Hown as [-> | [-> | ->]]; auto.
    + split; [| tauto]. destruct Hown as [-> | [-> | ->]]; tauto.
  - apply heapInvariant_clearAllWorldClocks; assumption.
  - unfold saveBackgroundImage. apply heapInvariant_persist, heapInvariant_image, Hw.
Qed.

Lemma reachable_heapInvariant h allowed w :
  (forall w op, allowed w op -> plainCall w op) ->
  reachable h allowed w -> heapInvariant w.
Proof.
  intros Hall. induction 1 as [| w op _ IH Hop].
  - exact heapInvariant_initial.
  - apply heapInvariant_apply; auto.
Qed.

Lemma getWorldClockById_map w els id :
  WorldClockManager.getWorldClockById (map (deref w) els) id
  = option_map (deref w) (findById w els id).
Proof.
  unfold WorldClockManager.getWorldClockById, findById.
  induction els as [| x els IH]; cbn; [reflexivity |].
  destruct (String.eqb _ _); [reflexivity | exact IH].
Qed.

Lemma filter_all {A} (p : A -> bool) (l : list A) :
  (forall x, In x l -> p x = true) -> List.filter p l = l.
Proof.
  induction l as [| x l IH]; intros H; cbn; [reflexivity |].
  rewrite (H x (or_introl eq_refl)), IH; [reflexivity |].
  intros y Hy. apply H. right. exact Hy.
Qed.

Lemma heapInvariant_enabled w a :
  heapInvariant w ->
  WorldClockManager.getEnabledWorldClocks (map (deref w) (elements w a))
  = map (deref w) (elements w a).
Proof.
  intros Hw. apply filter_all. intros o Ho.
  apply in_map_iff in Ho as (r & <- & Hr).
  destruct (heapInvariant_elements _ _ _ Hw Hr) as [o Ho].
  unfold deref. rewrite Ho. cbn. destruct Hw as (_ & _ & H3 & _). eauto.
Qed.

(** X24: From the freshly constructed managers, additions, removals,
    togglings, clearings and saved background images (no renaming, no
    reordering) lead only to worlds in which [toggleWorldClock] of the
    world-clock manager leaves every clock as it was: the settings manager negates [isEnabled] of the very object that
    the manager has just negated, and the manager negates it once more when
    the settings manager does not know the id.  So every clock stays
    enabled, [getEnabledWorldClocks] returns all clocks, and the call
    returns true exactly when both the manager and the settings know the
    id. *)
Theorem toggleWorldClock_changes_nothing h w id st :
  reachable h plainCall w ->
  managerView (fst (toggleWorldClock w id st)) = managerView w /\
  WorldClockManager.getEnabledWorldClocks (managerView w) = managerView w /\
  (snd (toggleWorldClock w id st) = true <->
   WorldClockManager.getWorldClockById (managerView w) id <> None /\
   WorldClockManager.getWorldClockById (settingsView w) id <> None).
Proof.
  intros Hr. apply reachable_heapInvariant in Hr; [| auto].
  destruct (toggleWorldClock_frame w id st Hr) as (Ho & Ha & _ & Hm & _ & _ & Hres).
  split; [| split].
  - unfold managerView, elements, deref. rewrite Ho, Ha, Hm. reflexivity.
  - apply heapInvariant_enabled, Hr.
  - rewrite Hres. unfold managerView, settingsView.
    rewrite !getWorldClockById_map.
    destruct (findById w (elements w (managerClocks w)) id);
      destruct (findById w (elements w (getWorldClocks w)) id); cbn [option_map];
      (split; [intros H | intros [H1 H2]]);
      try congruence; try reflexivity; try (split; discriminate);
      vm_compute in H; discriminate.
Qed.

Lemma toggleWorldClock_changes_nothing_witness :
  let w := apply exampleHost initial
             (Add "Europe/London" None "wc_1" (Some (utcTime 2025 10 14 14 30 45)) working) in
  snd (toggleWorldClock w "wc_1" working) = true /\
  managerView (fst (toggleWorldClock w "wc_1" working)) = managerView w.
Proof.
  intros w.
  assert (Hr : reachable exampleHost plainCall w).
  { apply reach_apply; [apply reach_initial |].
    split; [| exact I].
    intros r o Hr. cbn in Hr. rewrite lookup_empty in Hr. discriminate. }
  destruct (toggleWorldClock_changes_nothing exampleHost w "wc_1" working Hr)
    as (Hview & _ & Hres).
  split; [| exact Hview].
  apply Hres. split; vm_compute; discriminate.
Defined.

Lemma persist_kept w st :
  clears st = false -> ownClocks (persist w st) = ownClocks w.
Proof.
  unfold clears, persist, handleStorageQuotaExceeded, clearAllSettings.
  destruct (firstWrite st); [reflexivity |].
  destruct (secondWrite st); destruct (removal st); intros H;
    try rewrite H; destruct (String.eqb _ _); destruct (backgroundImage w);
    try reflexivity; discriminate.
Qed.

Lemma filter_length_all {A} (p : A -> bool) (l : list A) :
  length (List.filter p l) = length l -> List.filter p l = l.
Proof.
  induction l as [| x l IH]; cbn; [reflexivity |].
  destruct (p x); cbn; intros H.
  - f_equal. apply IH. lia.
  - pose proof (filter_length_bound p l). lia.
Qed.

Lemma persist_objects w st : objects (persist w st) = objects w.
Proof. apply persist_frame. Qed.
Lemma persist_arrays w st : arrays (persist w st) = arrays w.
Proof. apply persist_frame. Qed.
Lemma persist_nextLoc w st : nextLoc (persist w st) = nextLoc w.
Proof. apply persist_frame. Qed.
Lemma persist_managerClocks w st : managerClocks (persist w st) = managerClocks w.
Proof. apply persist_frame. Qed.
Lemma persist_defaultClocks w st : defaultClocks (persist w st) = defaultClocks w.
Proof. apply persist_frame. Qed.

Ltac heap_lookup :=
  repeat (rewrite lookup_insert_eq || rewrite lookup_insert_ne by lia).

Lemma default_Some {A} (d x : A) : default d (Some x) = x.
Proof. reflexivity. Qed.

Ltac heap_step :=
  unfold saveWorldClocks, saveBackgroundImage, newArray, newObject;
  cbv beta iota zeta;
  unfold elements, deref, getWorldClocks, set_managerClocks, set_settings,
    set_array, set_objects;
  heap_simpl; heap_lookup; rewrite ?default_Some.

Lemma removeWorldClock_inStep w id st :
  heapInvariant w -> inStep w -> clears st = false ->
  let els := List.filter (fun r => negb (String.eqb (WorldClockManager.id (deref w r)) id))
               (elements w (managerClocks w)) in
  objects (fst (removeWorldClock w id st)) = objects w /\
  elements (fst (removeWorldClock w id st)) (managerClocks (fst (removeWorldClock w id st)))
    = els /\
  inStep (fst (removeWorldClock w id st)) /\
  snd (removeWorldClock w id st) = (length els <? length (elements w (managerClocks w)))%nat.
Proof.
  intros Hw Hstep Hst els.
  destruct (getWorldClocks_lt w Hw) as (Hs & Hm & Hd).
  unfold inStep, elements, getWorldClocks in Hstep, Hs.
  unfold removeWorldClock, SettingsManager.removeWorldClock, inStep.
  subst els. heap_step.
  rewrite <- !Hstep.
  set (els := List.filter _ _).
  destruct (negb _) eqn:Hlen; cbv beta iota; heap_simpl.
  - rewrite persist_objects, persist_arrays, persist_managerClocks, persist_kept by exact Hst.
    heap_simpl. heap_lookup. rewrite !default_Some.
    repeat split; reflexivity.
  - heap_lookup.
    rewrite ?lookup_insert_ne by (destruct (ownClocks w); lia).
    rewrite ?default_Some.
    apply negb_false_iff, Nat.eqb_eq in Hlen.
    rewrite <- Hstep.
    repeat split; try reflexivity.
    + apply filter_length_all. exact Hlen.
    + cbn [andb]. rewrite Hlen, Nat.ltb_irrefl. reflexivity.
Qed.

Lemma hasTimezone_view w els tz :
  existsb (fun wc => String.eqb (WorldClockManager.wc_timezone wc) tz) (map (deref w) els)
  = hasTimezone w els tz.
Proof.
  unfold hasTimezone. induction els as [| x els IH]; cbn; [reflexivity |].
  rewrite IH. reflexivity.
Qed.

Lemma hasTimezone_ext w w' els tz :
  (forall x, In x els -> deref w' x = deref w x) ->
  hasTimezone w' els tz = hasTimezone w els tz.
Proof.
  unfold hasTimezone. induction els as [| x els IH]; intros H; cbn; [reflexivity |].
  rewrite (H x (or_introl eq_refl)), IH; [reflexivity |].
  intros y Hy. apply H. right. exact Hy.
Qed.

Lemma map_deref_ext w w' els :
  (forall x, In x els -> deref w' x = deref w x) ->
  map (deref w') els = map (deref w) els.
Proof. intros H. apply map_ext_in. exact H. Qed.

Lemma addWorldClock_inStep h w timezone cityName newId now st :
  heapInvariant w -> inStep w -> clears st = false ->
  (forall r o, objects w !! r = Some o -> WorldClockManager.id o <> newId) ->
  inStep (fst (addWorldClock h w timezone cityName newId now st)) /\
  managerView (fst (addWorldClock h w timezone cityName newId now st))
    = fst (WorldClockManager.addWorldClock h (managerView w) timezone cityName
             {| WorldClockManager.newId := newId;
                WorldClockManager.saved := Ok true;
                WorldClockManager.now := now |}) /\
  option_map (deref (fst (addWorldClock h w timezone cityName newId now st)))
    (snd (addWorldClock h w timezone cityName newId now st))
    = snd (WorldClockManager.addWorldClock h (managerView w) timezone cityName
             {| WorldClockManager.newId := newId;
                WorldClockManager.saved := Ok true;
                WorldClockManager.now := now |}).
Proof.
  intros Hw Hstep Hst Hfresh.
  destruct (getWorldClocks_lt w Hw) as (Hs & Hm & Hd).
  assert (Hne : managerClocks w <> getWorldClocks w) by apply Hw.
  unfold addWorldClock, WorldClockManager.addWorldClock, managerView.
  rewrite length_map, hasTimezone_view.
  destruct (3 <=? _)%nat eqn:H3; [cbn; auto |].
  destruct (hasTimezone _ _ _) eqn:Htz; [cbn; auto |].
  destruct (negb _); [cbn; auto |].
  cbn [WorldClockManager.newId WorldClockManager.saved WorldClockManager.now].
  set (o := {| WorldClockManager.id := newId |}).
  unfold newObject. cbv beta iota zeta.
  set (w2 := set_array _ _ _).
  assert (F1 : elements w2 (getWorldClocks w2) = elements w (managerClocks w)).
  { rewrite Hstep. subst w2. unfold elements, getWorldClocks, set_array in *. heap_simpl.
    rewrite lookup_insert_ne by exact Hne. reflexivity. }
  assert (F2 : deref w2 (nextLoc w) = o).
  { subst w2. unfold deref, set_array. heap_simpl. rewrite lookup_insert_eq. reflexivity. }
  assert (F3 : forall x, In x (elements w (managerClocks w)) -> x <> nextLoc w).
  { intros x Hx. apply (heapInvariant_elements _ _ _ Hw) in Hx.
    destruct Hw as (_ & _ & _ & H4 & _). apply H4 in Hx. lia. }
  assert (F4 : forall x, In x (elements w (managerClocks w)) -> deref w2 x = deref w x).
  { intros x Hx. apply F3 in Hx. subst w2. unfold deref, set_array. heap_simpl.
    rewrite lookup_insert_ne by congruence. reflexivity. }
  unfold SettingsManager.addWorldClock.
  rewrite F1, F2, H3, (hasTimezone_ext _ _ _ _ F4). cbn [WorldClockManager.wc_timezone o].
  rewrite Htz. cbv beta iota zeta. cbn [fst snd].
  set (w' := updateWorldClockTime h _ _ _).
  assert (Hg : getWorldClocks w2 = getWorldClocks w) by reflexivity.
  assert (G1 : managerClocks w' = managerClocks w).
  { subst w'. unfold updateWorldClockTime, saveWorldClocks, set_objects. heap_simpl.
    rewrite persist_managerClocks. reflexivity. }
  assert (G2 : getWorldClocks w' = getWorldClocks w).
  { subst w'. unfold updateWorldClockTime, saveWorldClocks, set_objects.
    unfold getWorldClocks at 1. heap_simpl. rewrite persist_kept by exact Hst.
    reflexivity. }
  assert (G3 : elements w' (managerClocks w)
               = elements w (managerClocks w) ++ [nextLoc w]).
  { subst w'. unfold updateWorldClockTime, saveWorldClocks, set_objects.
    unfold elements at 1. heap_simpl. rewrite persist_arrays.
    rewrite Hg. subst w2. unfold set_array, set_settings. heap_simpl.
    rewrite lookup_insert_ne, lookup_insert_eq by congruence. reflexivity. }
  assert (G4 : elements w' (getWorldClocks w)
               = elements w (managerClocks w) ++ [nextLoc w]).
  { subst w'. unfold updateWorldClockTime, saveWorldClocks, set_objects.
    unfold elements at 1. heap_simpl. rewrite persist_arrays.
    rewrite Hg. unfold set_array, set_settings. heap_simpl.
    rewrite lookup_insert_eq. reflexivity. }
  assert (G5 : deref w' (nextLoc w) = WorldClockManager.updateWorldClockTime h o now).
  { subst w'. unfold updateWorldClockTime, saveWorldClocks, set_objects.
    unfold deref at 1. heap_simpl. rewrite lookup_insert_eq. cbn [default from_option].
    unfold Datatypes.id. f_equal.
    unfold deref. rewrite persist_objects. exact F2. }
  assert (G6 : forall x, In x (elements w (managerClocks w)) -> deref w' x = deref w x).
  { intros x Hx. rewrite <- (F4 x Hx). apply F3 in Hx.
    subst w'. unfold updateWorldClockTime, saveWorldClocks, set_objects.
    unfold deref at 1. heap_simpl. rewrite lookup_insert_ne by congruence.
    rewrite persist_objects. reflexivity. }
  unfold inStep. rewrite G1, G2, G3, G4.
  split; [reflexivity |]. split.
  - rewrite map_app. cbn [map]. rewrite G5, (map_deref_ext _ _ _ G6). reflexivity.
  - cbn [option_map]. rewrite G5. reflexivity.
Qed.

Lemma toggleWorldClock_inStep w id st :
  heapInvariant w -> inStep w -> clears st = false ->
  inStep (fst (toggleWorldClock w id st)).
Proof.
  intros Hw Hstep Hst.
  destruct (toggleWorldClock_frame w id st Hw) as (_ & Ha & _ & Hm & _ & _ & _).
  assert (Hg : getWorldClocks (fst (toggleWorldClock w id st)) = getWorldClocks w).
  { unfold toggleWorldClock.
    destruct (findById w _ id) as [r |]; [| reflexivity].
    unfold SettingsManager.toggleWorldClock.
    destruct (findById (flip w r) _ id) as [r' |]; [| reflexivity].
    cbn [fst]. unfold saveWorldClocks, getWorldClocks at 1.
    rewrite persist_kept by exact Hst. reflexivity. }
  unfold inStep, elements in *. rewrite Hg, Ha, Hm. exact Hstep.
Qed.

Lemma saveBackgroundImage_inStep w image st :
  inStep w -> clears st = false -> inStep (saveBackgroundImage w image st).
Proof.
  intros Hstep Hst. unfold saveBackgroundImage, inStep, elements, getWorldClocks in *.
  rewrite persist_arrays, persist_managerClocks, persist_defaultClocks,
    persist_kept by exact Hst.
  exact Hstep.
Qed.

Lemma storageKept_plainCall w op : storageKept w op -> plainCall w op.
Proof. intros [H _]. exact H. Qed.

Lemma clearAllWorldClocks_inStep w st :
  heapInvariant w -> clears st = false ->
  inStep (fst (clearAllWorldClocks w st)) /\
  managerView (fst (clearAllWorldClocks w st)) = [].
Proof.
  intros Hw Hst.
  unfold clearAllWorldClocks, SettingsManager.clearWorldClocks, inStep, managerView.
  heap_step. rewrite persist_arrays, persist_managerClocks, persist_kept by exact Hst.
  heap_simpl. heap_lookup. rewrite ?default_Some. split; reflexivity.
Qed.

Lemma reachable_inStep h w : reachable h storageKept w -> inStep w.
Proof.
  intros Hr.
  assert (H : heapInvariant w /\ inStep w); [| apply H].
  induction Hr as [| w op Hr [Hw Hstep] [Hplain Hst]].
  - split; [exact heapInvariant_initial |].
    unfold inStep, elements, initial, getWorldClocks; heap_simpl.
    rewrite lookup_insert_eq, lookup_insert_ne, lookup_insert_eq by lia. reflexivity.
  - split; [apply heapInvariant_apply; assumption |].
    destruct Hplain as [Hfresh Hplain].
    destruct op as [tz cn newId now st | id st | id st | id name st | newOrder st | st
                   | image st];
      cbn [apply storageOf freshId] in *; try contradiction.
    + apply addWorldClock_inStep; assumption.
    + apply (removeWorldClock_inStep w id st); assumption.
    + apply toggleWorldClock_inStep; assumption.
    + apply clearAllWorldClocks_inStep; assumption.
    + apply saveBackgroundImage_inStep; assumption.
Qed.

Lemma map_filter_view {A B} (f : A -> B) (p : B -> bool) (l : list A) :
  map f (List.filter (fun x => p (f x)) l) = List.filter p (map f l).
Proof.
  induction l as [| x l IH]; cbn; [reflexivity |].
  destruct (p (f x)); cbn; rewrite IH; reflexivity.
Qed.

Lemma removeWorldClock_view w id st :
  heapInvariant w -> inStep w -> clears st = false ->
  managerView (fst (removeWorldClock w id st))
  = List.filter (fun wc => negb (String.eqb (WorldClockManager.id wc) id)) (managerView w).
Proof.
  intros Hw Hstep Hst.
  destruct (removeWorldClock_inStep w id st Hw Hstep Hst) as (Ho & Hels & _).
  unfold managerView. rewrite Hels.
  rewrite <- (map_filter_view (deref w)
                (fun wc => negb (String.eqb (WorldClockManager.id wc) id))).
  apply map_ext. intros r. unfold deref. rewrite Ho. reflexivity.
Qed.

Lemma reachable_kept h w :
  reachable h storageKept w ->
  heapInvariant w /\ inStep w /\ clockInvariant (managerView w).
Proof.
  intros Hr.
  pose proof (reachable_heapInvariant h _ w storageKept_plainCall Hr) as Hw.
  pose proof (reachable_inStep h w Hr) as Hstep.
  split; [exact Hw |]. split; [exact Hstep |]. clear Hw Hstep.
  induction Hr as [| w op Hr IH [[Hfresh Hplain] Hst]].
  - assert (E : managerView initial = []) by (vm_compute; reflexivity).
    rewrite E. split; [cbn; lia | constructor].
  - pose proof (reachable_heapInvariant h _ w storageKept_plainCall Hr) as Hw.
    pose proof (reachable_inStep h w Hr) as Hstep.
    destruct op as [tz cn newId now st | id st | id st | id name st | newOrder st | st
                   | image st];
      cbn [apply storageOf freshId] in *; try contradiction.
    + destruct (addWorldClock_inStep h w tz cn newId now st Hw Hstep Hst Hfresh)
        as (_ & -> & _).
      apply addWorldClock_invariant, IH.
    + rewrite (removeWorldClock_view w id st Hw Hstep Hst).
      apply clockInvariant_filter, IH.
    + destruct (toggleWorldClock_frame w id st Hw) as (Ho & Ha & _ & Hm & _).
      unfold managerView, elements, deref in *. rewrite Ho, Ha, Hm. exact IH.
    + destruct (clearAllWorldClocks_inStep w st Hw Hst) as [_ ->].
      split; [cbn; lia | constructor].
    + unfold managerView, elements, deref, saveBackgroundImage in *.
      rewrite persist_objects, persist_arrays, persist_managerClocks. exact IH.
Qed.

(** X25: After plain calls, none of whose accesses to storage ends in
    [clearAllSettings], the array that the settings manager keeps holds the same clock objects, in the
    same order, as the array of the world-clock manager, and there are at
    most three of them, with distinct time zones. *)
Theorem settings_hold_the_manager_clocks h w :
  reachable h storageKept w ->
  settingsView w = managerView w /\ clockInvariant (managerView w).
Proof.
  intros Hr. destruct (reachable_kept h w Hr) as (_ & Hstep & Hinv).
  split; [| exact Hinv].
  unfold settingsView, managerView. rewrite Hstep. reflexivity.
Qed.

Lemma settings_hold_the_manager_clocks_witness :
  let w := apply exampleHost initial
             (Add "Europe/London" None "wc_1" (Some (utcTime 2025 10 14 14 30 45)) working) in
  settingsView w = managerView w.
Proof.
  intros w.
  assert (Hr : reachable exampleHost storageKept w).
  { apply reach_apply; [apply reach_initial |].
    split; [| reflexivity]. split; [| exact I].
    intros r o Hr. cbn in Hr. rewrite lookup_empty in Hr. discriminate. }
  apply (settings_hold_the_manager_clocks exampleHost w Hr).
Defined.

(** X26: After plain calls, none of whose accesses to storage ends in
    [clearAllSettings], the settings manager accepts every clock that has passed the checks of the
    world-clock manager: [addWorldClock] of the two managers together
    leaves the clocks, and returns the clock, that [addWorldClock] of the
    world-clock manager alone does when the settings manager answers
    true. *)
Theorem addWorldClock_with_settings h w timezone cityName newId now st :
  reachable h storageKept w ->
  storageKept w (Add timezone cityName newId now st) ->
  managerView (fst (addWorldClock h w timezone cityName newId now st))
    = fst (WorldClockManager.addWorldClock h (managerView w) timezone cityName
             {| WorldClockManager.newId := newId;
                WorldClockManager.saved := Ok true;
                WorldClockManager.now := now |}) /\
  option_map (deref (fst (addWorldClock h w timezone cityName newId now st)))
    (snd (addWorldClock h w timezone cityName newId now st))
    = snd (WorldClockManager.addWorldClock h (managerView w) timezone cityName
             {| WorldClockManager.newId := newId;
                WorldClockManager.saved := Ok true;
                WorldClockManager.now := now |}).
Proof.
  intros Hr [[Hfresh _] Hst]. destruct (reachable_kept h w Hr) as (Hw & Hstep & _).
  apply (addWorldClock_inStep h w timezone cityName newId now st Hw Hstep Hst Hfresh).
Qed.

Lemma addWorldClock_with_settings_witness :
  managerView
    (fst (addWorldClock exampleHost initial "Europe/London" None "wc_1"
            (Some (utcTime 2025 10 14 14 30 45)) working))
  = fst (WorldClockManager.addWorldClock exampleHost (managerView initial)
           "Europe/London" None (accepted "wc_1")).
Proof.
  assert (Hop : storageKept initial
                  (Add "Europe/London" None "wc_1"
                     (Some (utcTime 2025 10 14 14 30 45)) working)).
  { split; [| reflexivity]. split; [| exact I].
    intros r o Hr. cbn in Hr. rewrite lookup_empty in Hr. discriminate. }
  destruct (addWorldClock_with_settings exampleHost initial "Europe/London" None "wc_1"
              (Some (utcTime 2025 10 14 14 30 45)) working
              (reach_initial exampleHost storageKept) Hop) as [Hview _].
  exact Hview.
Defined.

(** X27: After plain calls, none of whose accesses to storage ends in
    [clearAllSettings], [removeWorldClock] of the two managers together leaves the clocks, and
    returns the answer, that [removeWorldClock] of the world-clock manager
    alone does when the settings manager answers true; it returns true
    exactly when the manager held a clock with the id. *)
Theorem removeWorldClock_with_settings h w id st :
  reachable h storageKept w ->
  clears st = false ->
  managerView (fst (removeWorldClock w id st))
    = fst (WorldClockManager.removeWorldClock (managerView w) id (Ok true)) /\
  snd (removeWorldClock w id st)
    = snd (WorldClockManager.removeWorldClock (managerView w) id (Ok true)) /\
  (snd (removeWorldClock w id st) = true <->
   WorldClockManager.getWorldClockById (managerView w) id <> None).
Proof.
  intros Hr Hst. destruct (reachable_kept h w Hr) as (Hw & Hstep & _).
  pose proof (removeWorldClock_view w id st Hw Hstep Hst) as Hview.
  destruct (removeWorldClock_inStep w id st Hw Hstep Hst) as (_ & Hels & _ & Hres).
  assert (Hsnd : snd (removeWorldClock w id st)
                 = snd (WorldClockManager.removeWorldClock (managerView w) id (Ok true))).
  { rewrite Hres. cbn [WorldClockManager.removeWorldClock snd andb].
    rewrite <- Hview. unfold managerView. rewrite Hels, !length_map. reflexivity. }
  split; [exact Hview |]. split; [exact Hsnd |].
  rewrite Hsnd. cbn [WorldClockManager.removeWorldClock snd andb].
  rewrite Nat.ltb_lt. split.
  - intros Hlt Hnone. rewrite (filter_length_eq_find _ _ Hnone) in Hlt. lia.
  - intros Hsome.
    pose proof (filter_length_bound
                  (fun wc => negb (String.eqb (WorldClockManager.id wc) id))
                  (managerView w)) as Hb.
    destruct (Nat.eq_dec
                (length (List.filter
                           (fun wc => negb (String.eqb (WorldClockManager.id wc) id))
                           (managerView w)))
                (length (managerView w))) as [E | E]; [| lia].
    exfalso. apply Hsome. apply filter_length_all in E.
    rewrite <- E. apply find_filter_same.
Qed.

Lemma removeWorldClock_with_settings_witness :
  let w := apply exampleHost initial
             (Add "Europe/London" None "wc_1" (Some (utcTime 2025 10 14 14 30 45)) working) in
  snd (removeWorldClock w "wc_1" working) = true.
Proof.
  intros w.
  assert (Hr : reachable exampleHost storageKept w).
  { apply reach_apply; [apply reach_initial |].
    split; [| reflexivity]. split; [| exact I].
    intros r o Hr. cbn in Hr. rewrite lookup_empty in Hr. discriminate. }
  destruct (removeWorldClock_with_settings exampleHost w "wc_1" working Hr eq_refl)
    as (_ & _ & Hres).
  apply Hres. vm_compute. discriminate.
Defined.

Lemma persist_working w : persist w working = w.
Proof. reflexivity. Qed.

Lemma persist_exhausted w :
  persist w exhausted
  = if backgroundImage w then set_settings w (Some (defaultClocks w)) false else w.
Proof.
  unfold persist, handleStorageQuotaExceeded, clearAllSettings. cbn.
  destruct (backgroundImage w); reflexivity.
Qed.

(** X28: A full storage undoes a removal.  After a background image is saved,
    a clock added and removed again, and a second save of the image finds
    the storage full so that [clearAllSettings] runs, the world-clock
    manager holds no clock while the settings hold the removed clock
    again: [settings] has become a copy of the defaults, whose array the
    first addition had filled.  From then on the manager cannot add that
    time zone: the settings manager declines it as already present. *)
Theorem cleared_storage_restores_removed_clock h tz cn id now :
  WorldClockManager.isValidTimezone h tz = true ->
  let w := fold_left (apply h)
             [SaveBackgroundImage true working; Add tz cn id now working;
              Remove id working; SaveBackgroundImage true exhausted] initial in
  reachable h plainCall w /\
  managerView w = [] /\
  map WorldClockManager.wc_timezone (settingsView w) = [tz] /\
  forall cn' id' now' st', snd (addWorldClock h w tz cn' id' now' st') = None.
Proof.
  intros Hv w. subst w.
  cbn [fold_left].
  split.
  { repeat (apply reach_apply; [| split; [try exact I | exact I]]);
      [apply reach_initial |].
    intros r o Hr. cbn in Hr. rewrite lookup_empty in Hr. discriminate. }
  cbn [apply].
  set (w1 := saveBackgroundImage initial true working).
  assert (E1 : w1 = set_settings initial None true) by reflexivity.
  clearbody w1. subst w1. unfold initial, set_settings. heap_simpl.
  set (A0 := <[1%nat:=[]]> (<[0%nat:=[]]> ∅) : gmap loc (list loc)).
  set (w1 := {| objects := ∅ |}).
  set (o := {| WorldClockManager.id := id;
               WorldClockManager.cityName :=
                 match cn with
                 | Some (String c r) => String c r
                 | _ => WorldClockManager.getCityNameForTimezone tz
                 end;
               WorldClockManager.wc_timezone := tz;
               WorldClockManager.isEnabled := true;
               WorldClockManager.timeData := None |}).
  assert (E2 : fst (addWorldClock h w1 tz cn id now working)
               = {| objects := <[2%nat := WorldClockManager.updateWorldClockTime h o now]>
                                 (<[2%nat := o]> ∅);
                    arrays := <[0%nat := [2%nat]]> (<[1%nat := [2%nat]]> A0);
                    nextLoc := 3%nat;
                    managerClocks := 1%nat;
                    ownClocks := Some 0%nat;
                    defaultClocks := 0%nat;
                    backgroundImage := true |}).
  { unfold addWorldClock. subst w1. unfold SettingsManager.addWorldClock, hasTimezone, updateWorldClockTime.
    heap_step. subst A0. heap_lookup. rewrite ?default_Some.
    cbn [length Nat.leb existsb app]. rewrite Hv. cbn [negb].
    heap_step. cbn [length Nat.leb existsb app].
    rewrite persist_working. heap_step. reflexivity. }
  rewrite E2. clear E2.
  set (o' := WorldClockManager.updateWorldClockTime h o now).
  assert (Hid : WorldClockManager.id o' = id) by apply updateWorldClockTime_fields.
  assert (Htz : WorldClockManager.wc_timezone o' = tz) by apply updateWorldClockTime_timezone.
  set (w2 := {| nextLoc := 3%nat |}).
  assert (E3 : fst (removeWorldClock w2 id working)
               = {| objects := <[2%nat := o']> (<[2%nat := o]> ∅);
                    arrays := <[4%nat := []]> (<[3%nat := []]>
                                (<[0%nat := [2%nat]]> (<[1%nat := [2%nat]]> A0)));
                    nextLoc := 5%nat;
                    managerClocks := 3%nat;
                    ownClocks := Some 4%nat;
                    defaultClocks := 0%nat;
                    backgroundImage := true |}).
  { unfold removeWorldClock, SettingsManager.removeWorldClock. subst w2.
    heap_step. cbn [List.filter]. heap_lookup. rewrite ?default_Some.
    rewrite Hid, String.eqb_refl. cbn [negb length Nat.eqb].
    rewrite persist_working. reflexivity. }
  rewrite E3. clear E3.
  unfold saveBackgroundImage. rewrite persist_exhausted.
  unfold set_settings; heap_simpl.
  set (w := {| nextLoc := 5%nat |}).
  split; [| split].
  - unfold managerView. subst w. heap_step. reflexivity.
  - unfold settingsView. subst w. heap_step. cbn [map]. heap_lookup. rewrite default_Some.
    rewrite Htz. reflexivity.
  - intros cn' id' now' st'. unfold addWorldClock, SettingsManager.addWorldClock, hasTimezone.
    subst w. heap_step. cbn [length Nat.leb existsb app]. rewrite Hv. cbn [negb].
    heap_step. cbn [length Nat.leb existsb app]. heap_lookup. rewrite ?default_Some.
    rewrite Htz. cbn [WorldClockManager.wc_timezone]. rewrite String.eqb_refl.
    cbn [orb]. heap_step. reflexivity.
Qed.

Lemma cleared_storage_restores_removed_clock_witness :
  let w := fold_left (apply exampleHost)
             [SaveBackgroundImage true working;
              Add "Europe/London" None "wc_1" (Some (utcTime 2025 10 14 14 30 45)) working;
              Remove "wc_1" working; SaveBackgroundImage true exhausted] initial in
  managerView w = [] /\
  map WorldClockManager.wc_timezone (settingsView w) = ["Europe/London"%string].
Proof.
  intros w.
  destruct (cleared_storage_restores_removed_clock exampleHost "Europe/London" None "wc_1"
              (Some (utcTime 2025 10 14 14 30 45)) eq_refl) as (_ & Hm & Hs & _).
  split; [exact Hm | exact Hs].
Defined.

Lemma hasTimezone_snoc w els r :
  hasTimezone w (els ++ [r]) (WorldClockManager.wc_timezone (deref w r)) = true.
Proof.
  unfold hasTimezone. rewrite existsb_app. cbn [existsb].
  rewrite String.eqb_refl, orb_true_r. reflexivity.
Qed.

Lemma findById_filter_same w els id :
  findById w (List.filter (fun r => negb (String.eqb (WorldClockManager.id (deref w r)) id)) els) id
  = None.
Proof.
  unfold findById. induction els as [| x els IH]; [reflexivity |]. cbn.
  destruct (String.eqb (WorldClockManager.id (deref w x)) id) eqn:E; cbn; [exact IH |].
  rewrite E. exact IH.
Qed.

Lemma findById_snoc w els r :
  is_Some (findById w (els ++ [r]) (WorldClockManager.id (deref w r))).
Proof.
  unfold findById. induction els as [| x els IH]; cbn.
  - rewrite String.eqb_refl. eauto.
  - destruct (String.eqb _ _); [eauto | exact IH].
Qed.

(** X29: After a reordering that succeeds, and whose save does not end in
    [clearAllSettings], the world-clock manager and the settings manager
    hold one and the same array.  The next [addWorldClock] then returns
    false, whatever its arguments: the settings manager finds the clock,
    which the manager has just pushed, in its own array and declines it.
    When the manager's own checks pass, the manager goes on with a copy of
    the array without the new clock, while the settings keep the clock. *)
Theorem addWorldClock_fails_after_reordering h w newOrder st timezone cityName newId now st' :
  snd (reorderWorldClocks w newOrder st) = true ->
  clears st = false ->
  let w1 := fst (reorderWorldClocks w newOrder st) in
  let w2 := fst (addWorldClock h w1 timezone cityName newId now st') in
  managerClocks w1 = getWorldClocks w1 /\
  snd (addWorldClock h w1 timezone cityName newId now st') = None /\
  ((length (managerView w1) < 3)%nat ->
   WorldClockManager.isTimezoneAdded (managerView w1) timezone = false ->
   WorldClockManager.isValidTimezone h timezone = true ->
   WorldClockManager.getWorldClockById (managerView w2) newId = None /\
   WorldClockManager.getWorldClockById (settingsView w2) newId <> None).
Proof.
  intros Hok Hst w1 w2.
  assert (E1 : managerClocks w1 = nextLoc w /\ ownClocks w1 = Some (nextLoc w) /\
               arrays w1 = <[nextLoc w := newOrder]> (arrays w) /\
               objects w1 = objects w /\ nextLoc w1 = S (nextLoc w)).
  { subst w1 w2. unfold reorderWorldClocks in *.
    destruct (negb (_ =? _)%nat); [discriminate |].
    destruct (negb (forallb _ _)); [discriminate |].
    unfold newArray. cbv beta iota zeta. cbn [fst]. unfold saveWorldClocks.
    rewrite persist_managerClocks, persist_arrays, persist_objects, persist_nextLoc,
      persist_kept by exact Hst.
    repeat split; reflexivity. }
  destruct E1 as (Hm & Hown & Ha & Ho & Hn).
  assert (Hg : getWorldClocks w1 = nextLoc w) by (unfold getWorldClocks; rewrite Hown; reflexivity).
  assert (Hels : elements w1 (nextLoc w) = newOrder).
  { unfold elements. rewrite Ha, lookup_insert_eq. reflexivity. }
  split; [congruence |].
  clearbody w1. subst w2.
  unfold addWorldClock, managerView, settingsView, WorldClockManager.isTimezoneAdded.
  rewrite !length_map, hasTimezone_view, Hm, Hels.
  destruct (3 <=? length newOrder)%nat eqn:H3.
  { split; [reflexivity |]. apply Nat.leb_le in H3. lia. }
  destruct (hasTimezone w1 newOrder timezone) eqn:Htz.
  { split; [reflexivity |]. discriminate. }
  destruct (negb (WorldClockManager.isValidTimezone h timezone)) eqn:Hv.
  { split; [reflexivity |]. intros _ _ Hv'. rewrite Hv' in Hv. discriminate. }
  set (o := {| WorldClockManager.id := newId |}).
  unfold newObject. cbv beta iota zeta. rewrite Hm.
  set (w2 := set_array _ _ _).
  assert (F0 : getWorldClocks w2 = nextLoc w) by exact Hg.
  assert (F1 : elements w2 (nextLoc w) = newOrder ++ [S (nextLoc w)]).
  { subst w2. unfold elements at 1, set_array. heap_simpl. rewrite lookup_insert_eq.
    rewrite default_Some. f_equal; [| rewrite Hn; reflexivity].
    unfold elements. heap_simpl. rewrite Ha, lookup_insert_eq. reflexivity. }
  assert (F2 : deref w2 (S (nextLoc w)) = o).
  { subst w2. unfold deref, set_array. heap_simpl. rewrite Hn, lookup_insert_eq.
    reflexivity. }
  assert (F3 : SettingsManager.addWorldClock w2 (nextLoc w1) st' = (w2, false)).
  { unfold SettingsManager.addWorldClock. rewrite F0, F1, Hn.
    destruct (3 <=? length (newOrder ++ [S (nextLoc w)]))%nat; [reflexivity |].
    rewrite hasTimezone_snoc. reflexivity. }
  rewrite F3. unfold newArray. cbv beta iota zeta. cbn [fst snd].
  split; [reflexivity |]. intros _ _ _.
  set (w3 := set_managerClocks _ _).
  assert (Hn2 : nextLoc w2 = S (S (nextLoc w))).
  { subst w2. unfold set_array. heap_simpl. rewrite Hn. reflexivity. }
  assert (J2 : elements w3 (managerClocks w3)
               = List.filter
                   (fun r => negb (String.eqb (WorldClockManager.id (deref w2 r)) newId))
                   (newOrder ++ [S (nextLoc w)])).
  { subst w3. unfold elements at 1, set_managerClocks. heap_simpl.
    rewrite lookup_insert_eq, default_Some.
    change (managerClocks w2) with (nextLoc w). rewrite F1. reflexivity. }
  assert (J3 : elements w3 (getWorldClocks w3) = newOrder ++ [S (nextLoc w)]).
  { rewrite <- F1. change (getWorldClocks w3) with (getWorldClocks w1). rewrite Hg.
    subst w3. unfold elements, set_managerClocks. heap_simpl.
    rewrite lookup_insert_ne by lia. reflexivity. }
  rewrite J2, J3, !getWorldClockById_map.
  assert (J4 : forall els i, findById w3 els i = findById w2 els i) by reflexivity.
  rewrite !J4. split.
  - rewrite findById_filter_same. reflexivity.
  - pose proof (findById_snoc w2 newOrder (S (nextLoc w))) as [x Hx].
    rewrite F2 in Hx. unfold o in Hx. cbn [WorldClockManager.id] in Hx.
    destruct (findById w2 _ newId) eqn:E; [discriminate |].
    discriminate Hx.
Qed.

Lemma addWorldClock_fails_after_reordering_witness :
  let w := apply exampleHost initial
             (Add "Europe/London" None "wc_1" (Some (utcTime 2025 10 14 14 30 45)) working) in
  let w1 := fst (reorderWorldClocks w (elements w (managerClocks w)) working) in
  snd (addWorldClock exampleHost w1 "UTC" None "wc_2"
         (Some (utcTime 2025 10 14 14 30 45)) working) = None.
Proof.
  intros w w1.
  assert (Hok : snd (reorderWorldClocks w (elements w (managerClocks w)) working) = true)
    by (vm_compute; reflexivity).
  destruct (addWorldClock_fails_after_reordering exampleHost w
              (elements w (managerClocks w)) working "UTC" None "wc_2"
              (Some (utcTime 2025 10 14 14 30 45)) working Hok eq_refl) as (_ & Hnone & _).
  exact Hnone.
Defined.

Lemma findById_ext w w' els id :
  (forall x, In x els ->
     WorldClockManager.id (deref w' x) = WorldClockManager.id (deref w x)) ->
  findById w' els id = findById w els id.
Proof.
  unfold findById. induction els as [| x els IH]; intros H; cbn; [reflexivity |].
  rewrite (H x (or_introl eq_refl)), IH; [reflexivity |].
  intros y Hy. apply H. right. exact Hy.
Qed.

Lemma findIndex_ext w w' els id :
  (forall x, In x els ->
     WorldClockManager.id (deref w' x) = WorldClockManager.id (deref w x)) ->
  findIndex w' els id = findIndex w els id.
Proof.
  induction els as [| x els IH]; intros H; cbn; [reflexivity |].
  rewrite (H x (or_introl eq_refl)), IH; [reflexivity |].
  intros y Hy. apply H. right. exact Hy.
Qed.

Lemma findIndex_of_findById w els id r :
  findById w els id = Some r ->
  exists i, findIndex w els id = Some i /\ nth i els 0%nat = r.
Proof.
  unfold findById. induction els as [| x els IH]; cbn; [discriminate |].
  destruct (String.eqb _ _).
  - intros [= <-]. exists 0%nat. split; reflexivity.
  - intros H. destruct (IH H) as (i & -> & Hi). exists (S i). split; [reflexivity | exact Hi].
Qed.

Lemma findById_insert w w' els id i n :
  findIndex w els id = Some i ->
  (forall x, In x els ->
     WorldClockManager.id (deref w' x) = WorldClockManager.id (deref w x)) ->
  WorldClockManager.id (deref w' n) = id ->
  findById w' (<[i := n]> els) id = Some n.
Proof.
  unfold findById. revert i. induction els as [| x els IH]; intros i Hi Hext Hn; cbn in Hi;
    [discriminate |].
  destruct (String.eqb (WorldClockManager.id (deref w x)) id) eqn:E.
  - injection Hi as <-. cbn. rewrite Hn, String.eqb_refl. reflexivity.
  - destruct (findIndex w els id) as [j |] eqn:Ej; [| discriminate].
    injection Hi as <-. cbn.
    rewrite (Hext x (or_introl eq_refl)), E.
    apply (IH j eq_refl); [| exact Hn].
    intros y Hy. apply Hext. right. exact Hy.
Qed.

(** X30: Renaming un-shares a clock, and only then does toggling work.  In a
    world reached by plain calls with the storage kept, a renaming of a
    clock that the manager holds succeeds: the settings manager puts a copy
    of the clock object into its array.  A toggling that follows negates
    [isEnabled] of the manager's object and of the copy, one each, and
    returns true: the manager's clock is then disabled and carries the new
    city name. *)
Theorem toggleWorldClock_after_renaming h w id newCityName st st' :
  reachable h storageKept w ->
  WorldClockManager.getWorldClockById (managerView w) id <> None ->
  clears st = false ->
  let w1 := fst (updateWorldClockCityName w id newCityName st) in
  let w2 := fst (toggleWorldClock w1 id st') in
  snd (updateWorldClockCityName w id newCityName st) = true /\
  snd (toggleWorldClock w1 id st') = true /\
  exists wc,
    WorldClockManager.getWorldClockById (managerView w2) id = Some wc /\
    WorldClockManager.isEnabled wc = false /\
    WorldClockManager.cityName wc = newCityName.
Proof.
  intros Hr Hknown Hst.
  destruct (reachable_kept h w Hr) as (Hw & Hstep & _).
  unfold managerView in Hknown. rewrite getWorldClockById_map in Hknown.
  destruct (findById w (elements w (managerClocks w)) id) as [r |] eqn:Hfind;
    [clear Hknown | contradiction].
  destruct (findById_Some _ _ _ _ Hfind) as [Hin Hid].
  destruct (heapInvariant_elements _ _ _ Hw Hin) as [o Ho].
  assert (Hd : deref w r = o) by (unfold deref; rewrite Ho; reflexivity).
  rewrite Hd in Hid.
  assert (Hen : WorldClockManager.isEnabled o = true).
  { destruct Hw as (_ & _ & H3 & _). eauto. }
  assert (Hlt : forall x, In x (elements w (managerClocks w)) -> (x < nextLoc w)%nat).
  { intros x Hx. apply (heapInvariant_elements _ _ _ Hw) in Hx.
    destruct Hw as (_ & _ & _ & H4 & _). auto. }
  assert (Hrn : r <> nextLoc w) by (apply Hlt in Hin; lia).
  assert (Hne : managerClocks w <> getWorldClocks w) by apply Hw.
  destruct (findIndex_of_findById _ _ _ _ Hfind) as (i & Hi & Hnth).
  set (els := elements w (managerClocks w)) in *.
  set (n := nextLoc w) in *.
  set (renamed := WorldClockManager.set_cityName o newCityName).
  (* the renaming *)
  intros w1 w2.
  assert (E1 : updateWorldClockCityName w id newCityName st
               = (persist
                    {| objects := <[n := WorldClockManager.set_cityName renamed newCityName]>
                                    (<[r := renamed]> (objects w));
                       arrays := <[getWorldClocks w := <[i := n]> els]> (arrays w);
                       nextLoc := S n;
                       managerClocks := managerClocks w;
                       ownClocks := Some (getWorldClocks w);
                       defaultClocks := defaultClocks w;
                       backgroundImage := backgroundImage w |} st, true)).
  { unfold updateWorldClockCityName. fold els. rewrite Hfind, Hd. fold renamed.
    set (w1a := set_objects w _).
    unfold SettingsManager.updateWorldClock.
    change (getWorldClocks w1a) with (getWorldClocks w).
    change (elements w1a (getWorldClocks w)) with (elements w (getWorldClocks w)).
    rewrite <- Hstep. fold els.
    assert (Hi' : findIndex w1a els id = Some i).
    { rewrite <- Hi. apply findIndex_ext. intros x Hx.
      subst w1a. unfold deref, set_objects. heap_simpl.
      destruct (decide (r = x)) as [<- | Hx'].
      - rewrite lookup_insert_eq, Ho. reflexivity.
      - rewrite lookup_insert_ne by exact Hx'. reflexivity. }
    rewrite Hi', Hnth.
    assert (Hd1 : deref w1a r = renamed).
    { subst w1a. unfold deref, set_objects. heap_simpl. rewrite lookup_insert_eq.
      reflexivity. }
    rewrite Hd1. unfold newObject. cbv beta iota zeta.
    unfold saveWorldClocks, set_settings, set_array. heap_simpl.
    unfold elements at 1. heap_simpl.
    change (arrays w1a) with (arrays w).
    fold (elements w (getWorldClocks w)). rewrite <- Hstep. fold els.
    reflexivity. }
  assert (K1 : objects w1 = <[n := WorldClockManager.set_cityName renamed newCityName]>
                              (<[r := renamed]> (objects w))).
  { subst w1. rewrite E1. cbn [fst]. rewrite persist_objects. reflexivity. }
  assert (K2 : arrays w1 = <[getWorldClocks w := <[i := n]> els]> (arrays w)).
  { subst w1. rewrite E1. cbn [fst]. rewrite persist_arrays. reflexivity. }
  assert (K3 : managerClocks w1 = managerClocks w).
  { subst w1. rewrite E1. cbn [fst]. rewrite persist_managerClocks. reflexivity. }
  assert (K4 : getWorldClocks w1 = getWorldClocks w).
  { subst w1. rewrite E1. cbn [fst]. unfold getWorldClocks at 1.
    rewrite persist_kept by exact Hst. reflexivity. }
  split; [rewrite E1; reflexivity |].
  clearbody w1. clear E1.
  assert (M1 : elements w1 (managerClocks w1) = els).
  { unfold elements. rewrite K2, K3, lookup_insert_ne by congruence. reflexivity. }
  assert (M2 : elements w1 (getWorldClocks w1) = <[i := n]> els).
  { unfold elements. rewrite K2, K4, lookup_insert_eq. reflexivity. }
  assert (M3 : deref w1 r = renamed).
  { unfold deref. rewrite K1, lookup_insert_ne, lookup_insert_eq by congruence.
    reflexivity. }
  assert (M4 : deref w1 n = WorldClockManager.set_cityName renamed newCityName).
  { unfold deref. rewrite K1, lookup_insert_eq. reflexivity. }
  assert (M5 : forall x, In x els ->
                 WorldClockManager.id (deref w1 x) = WorldClockManager.id (deref w x)).
  { intros x Hx. apply Hlt in Hx. unfold deref. rewrite K1, lookup_insert_ne by lia.
    destruct (decide (r = x)) as [<- | Hx'].
    - rewrite lookup_insert_eq, Ho. reflexivity.
    - rewrite lookup_insert_ne by exact Hx'. reflexivity. }
  (* the toggling *)
  assert (E2 : toggleWorldClock w1 id st'
               = (saveWorldClocks (flip (flip w1 r) n) (getWorldClocks w1) st', true)).
  { unfold toggleWorldClock. rewrite M1, (findById_ext _ _ _ _ M5), Hfind.
    unfold SettingsManager.toggleWorldClock.
    change (getWorldClocks (flip w1 r)) with (getWorldClocks w1).
    change (elements (flip w1 r) (getWorldClocks w1)) with (elements w1 (getWorldClocks w1)).
    rewrite M2.
    rewrite (findById_insert w (flip w1 r) els id i n Hi); [reflexivity | |].
    - intros x Hx. rewrite deref_flip_id. apply M5, Hx.
    - rewrite deref_flip_id, M4. exact Hid. }
  subst w2. rewrite E2. cbn [fst snd]. split; [reflexivity |].
  set (w2 := saveWorldClocks _ _ _).
  assert (N1 : objects w2 = objects (flip (flip w1 r) n)).
  { subst w2. unfold saveWorldClocks. rewrite persist_objects. reflexivity. }
  assert (N2 : elements w2 (managerClocks w2) = els).
  { rewrite <- M1. subst w2. unfold saveWorldClocks, elements.
    rewrite persist_arrays, persist_managerClocks. reflexivity. }
  assert (N3 : deref w2 r
               = set_isEnabled renamed (negb (WorldClockManager.isEnabled renamed))).
  { unfold deref at 1. rewrite N1. unfold flip at 1. cbn [objects set_objects].
    rewrite lookup_insert_ne by congruence.
    unfold flip. cbn [objects set_objects]. rewrite lookup_insert_eq, M3. reflexivity. }
  assert (N4 : forall x, In x els ->
                 WorldClockManager.id (deref w2 x) = WorldClockManager.id (deref w x)).
  { intros x Hx. rewrite <- (M5 x Hx).
    unfold deref at 1. rewrite N1.
    fold (deref (flip (flip w1 r) n) x). rewrite !deref_flip_id. reflexivity. }
  exists (deref w2 r).
  unfold managerView. rewrite N2, getWorldClockById_map, (findById_ext _ _ _ _ N4), Hfind.
  split; [reflexivity |]. rewrite N3. cbn. rewrite Hen. split; reflexivity.
Qed.

Lemma toggleWorldClock_after_renaming_witness :
  let w := apply exampleHost initial
             (Add "Europe/London" None "wc_1" (Some (utcTime 2025 10 14 14 30 45)) working) in
  let w1 := fst (updateWorldClockCityName w "wc_1" "Home" working) in
  snd (updateWorldClockCityName w "wc_1" "Home" working) = true /\
  snd (toggleWorldClock w1 "wc_1" working) = true.
Proof.
  intros w w1.
  assert (Hr : reachable exampleHost storageKept w).
  { apply reach_apply; [apply reach_initial |].
    split; [| reflexivity]. split; [| exact I].
    intros r o Hr. cbn in Hr. rewrite lookup_empty in Hr. discriminate. }
  assert (Hknown : WorldClockManager.getWorldClockById (managerView w) "wc_1" <> None)
    by (vm_compute; discriminate).
  destruct (toggleWorldClock_after_renaming exampleHost w "wc_1" "Home" working working
              Hr Hknown eq_refl) as (Hrename & Htoggle & _).
  split; [exact Hrename | exact Htoggle].
Defined.
